(** * Didit verification backend: a shallow embedding of the controllers

    The development follows the two Express controllers of the repository:

    - [controllers/verificationController.js] (the current API, mounted
      under [/api/v1/verification]), embedded at top level, and
    - [controllers/diditAuthController.js] (the legacy API, mounted under
      [/api/v1/didit]), embedded in [Module Legacy];

    the browser client of the current API, [api.js], is in [Module Client].

    Handlers are [async] functions with [try]/[catch] that talk to a user
    table (Prisma), a correlation cache (Redis), the provider (axios) and a
    logger.  They are written here in a state-and-exception monad over a
    [World]; what a request cannot determine by itself (the clock, the
    provider's answer, whether a Redis command fails) is read from an
    [Env]. *)

From Stdlib Require Import ZArith List Ascii String DecimalString Lia.
From stdpp Require Import base option gmap strings.
Import ListNotations.
Set Warnings "-register-all".
Local Open Scope Z_scope.
Local Open Scope string_scope.

(** ** JavaScript values that travel as JSON *)

Module Js.

(** A parsed JSON document.  Objects keep their properties in enumeration
    order, each key once.  Numbers are the integers (the payloads of this
    service carry no fractions). *)
Inductive json : Type :=
| JNull
| JBool (b : bool)
| JNum (n : Z)
| JStr (s : string)
| JArr (items : list json)
| JObj (fields : list (string * json)).

(** A JavaScript value as the controllers see it: [None] is [undefined]. *)
Definition value : Type := option json.

Fixpoint assoc {A : Type} (k : string) (l : list (string * A)) : option A :=
  match l with
  | [] => None
  | (k', v) :: l' => if String.eqb k k' then Some v else assoc k l'
  end.

(** Property read [v.k] on a value that is not [null]/[undefined]:
    primitives and arrays have no such own property. *)
Definition get (k : string) (v : json) : value :=
  match v with
  | JObj fields => assoc k fields
  | _ => None
  end.

(** Optional chaining [v?.k]. *)
Definition get_opt (k : string) (v : value) : value :=
  match v with
  | None | Some JNull => None
  | Some j => get k j
  end.

(** Truthiness, as tested by [if (v)], [!v], [a || b]. *)
Definition truthy (v : value) : bool :=
  match v with
  | None | Some JNull => false
  | Some (JBool b) => b
  | Some (JNum n) => negb (Z.eqb n 0)
  | Some (JStr s) => negb (String.eqb s "")
  | Some (JArr _) | Some (JObj _) => true
  end.

(** Strict equality with a string literal, [v === 'lit']. *)
Definition eq_str (v : value) (lit : string) : bool :=
  match v with
  | Some (JStr s) => String.eqb s lit
  | _ => false
  end.

Definition string_of_Z (n : Z) : string := NilZero.string_of_int (Z.to_int n).

Definition hex_digit (n : Z) : ascii :=
  ascii_of_nat (Z.to_nat (if Z.ltb n 10 then 48 + n else 87 + n)).

Definition code (c : ascii) : Z := Z.of_nat (nat_of_ascii c).

Definition dq : string := String (ascii_of_nat 34) "".

(** The escapes of [JSON.stringify] for one character of a string. *)
Definition escape_char (c : ascii) : string :=
  let n := code c in
  if Z.eqb n 34 then "\" ++ dq
  else if Z.eqb n 92 then "\\"
  else if Z.eqb n 8 then "\b"
  else if Z.eqb n 12 then "\f"
  else if Z.eqb n 10 then "\n"
  else if Z.eqb n 13 then "\r"
  else if Z.eqb n 9 then "\t"
  else if Z.ltb n 32 then
    "\u00" ++ String (hex_digit (n / 16)) (String (hex_digit (n mod 16)) "")
  else String c "".

Fixpoint quote_body (s : string) : string :=
  match s with
  | EmptyString => ""
  | String c s' => escape_char c ++ quote_body s'
  end.

Definition quote (s : string) : string := dq ++ quote_body s ++ dq.

Fixpoint join (sep : string) (l : list string) : string :=
  match l with
  | [] => ""
  | [x] => x
  | x :: l' => x ++ sep ++ join sep l'
  end.

(** [JSON.stringify(v)] without indentation: no white space is ever
    emitted between tokens. *)
Fixpoint stringify (v : json) : string :=
  match v with
  | JNull => "null"
  | JBool true => "true"
  | JBool false => "false"
  | JNum n => string_of_Z n
  | JStr s => quote s
  | JArr items => "[" ++ join "," (map stringify items) ++ "]"
  | JObj fields =>
      "{" ++ join "," (map (fun kv => quote (fst kv) ++ ":" ++ stringify (snd kv)) fields)
          ++ "}"
  end.

(** String conversion inside a template literal, [`${v}`]. *)
Fixpoint to_string (v : json) : string :=
  match v with
  | JNull => "null"
  | JBool true => "true"
  | JBool false => "false"
  | JNum n => string_of_Z n
  | JStr s => s
  | JArr items =>
      join "," (map (fun i => match i with JNull => "" | _ => to_string i end) items)
  | JObj _ => "[object Object]"
  end.

Definition template (v : value) : string :=
  match v with
  | None => "undefined"
  | Some j => to_string j
  end.

(** An object literal as [res.json] sends it: properties whose value is
    [undefined] are left out. *)
Fixpoint defined (fields : list (string * value)) : list (string * json) :=
  match fields with
  | [] => []
  | (k, Some v) :: r => (k, v) :: defined r
  | (_, None) :: r => defined r
  end.

Definition obj (fields : list (string * value)) : json := JObj (defined fields).

Fixpoint take (n : nat) (s : string) : string :=
  match n, s with
  | S n', String c r => String c (take n' r)
  | _, _ => ""
  end.

Fixpoint drop (n : nat) (s : string) : string :=
  match n, s with
  | S n', String _ r => drop n' r
  | _, _ => s
  end.

(** [s.slice(-n)]: the text from index [max(length - n, 0)] to the end. *)
Definition slice_last (n : nat) (s : string) : string :=
  drop (String.length s - n)%nat s.

End Js.

(** ** [node:crypto]: HMAC-SHA256 and constant-time comparison

    [crypto.createHmac('sha256', key).update(msg).digest('hex')] is
    HMAC (RFC 2104) over SHA-256 (FIPS 180-4), printed in lower-case
    hexadecimal.  Strings are hashed as their bytes. *)

Module Crypto.

Definition w32 (x : Z) : Z := x mod 2 ^ 32.
Definition add32 (x y : Z) : Z := w32 (x + y).
Definition rotr (n x : Z) : Z :=
  Z.lor (Z.shiftr x n) (w32 (Z.shiftl x (32 - n))).
Definition not32 (x : Z) : Z := 2 ^ 32 - 1 - x.

Definition Ch (x y z : Z) : Z := Z.lxor (Z.land x y) (Z.land (not32 x) z).
Definition Maj (x y z : Z) : Z :=
  Z.lxor (Z.lxor (Z.land x y) (Z.land x z)) (Z.land y z).
Definition Sigma0 (x : Z) : Z := Z.lxor (Z.lxor (rotr 2 x) (rotr 13 x)) (rotr 22 x).
Definition Sigma1 (x : Z) : Z := Z.lxor (Z.lxor (rotr 6 x) (rotr 11 x)) (rotr 25 x).
Definition sigma0 (x : Z) : Z := Z.lxor (Z.lxor (rotr 7 x) (rotr 18 x)) (Z.shiftr x 3).
Definition sigma1 (x : Z) : Z := Z.lxor (Z.lxor (rotr 17 x) (rotr 19 x)) (Z.shiftr x 10).

(** The constants of FIPS 180-4 are the first 32 bits of the fractional
    parts of the cube roots (round constants) and of the square roots
    (initial hash value) of the first primes. *)
Definition is_prime (n : Z) : bool :=
  (1 <? n)%Z && forallb (fun d => negb (Z.eqb (n mod Z.of_nat d) 0)) (seq 2 (Z.to_nat n - 2)).

Definition first_primes (k : nat) : list Z :=
  firstn k (List.filter is_prime (map Z.of_nat (seq 2 400))).

(** The largest [r] in [lo, hi) with [r ^ 3 <= n], by bisection. *)
Fixpoint cube_root_in (fuel : nat) (lo hi n : Z) : Z :=
  match fuel with
  | O => lo
  | S f =>
      if (hi - lo <=? 1)%Z then lo
      else let mid := (lo + hi) / 2 in
           if (mid * mid * mid <=? n)%Z then cube_root_in f mid hi n
           else cube_root_in f lo mid n
  end.

Definition frac_cube_root (p : Z) : Z :=
  w32 (cube_root_in 64 0 (2 ^ 36) (p * 2 ^ 96)).

Definition frac_square_root (p : Z) : Z := w32 (Z.sqrt (p * 2 ^ 64)).

Definition K256 : list Z := Eval vm_compute in map frac_cube_root (first_primes 64).

Definition H0 : list Z := Eval vm_compute in map frac_square_root (first_primes 8).

Definition bytes_of_string (s : string) : list Z :=
  map Js.code (list_ascii_of_string s).

(** Big-endian bytes of [x], [n] of them. *)
Fixpoint be_bytes (n : nat) (x : Z) : list Z :=
  match n with
  | O => []
  | S n' => (Z.shiftr x (8 * Z.of_nat n')) mod 256 :: be_bytes n' x
  end.

(** Padding: a [1] bit, zeros up to 56 mod 64, the bit length on 8 bytes. *)
Definition pad (msg : list Z) : list Z :=
  let len := Z.of_nat (length msg) in
  let zeros := Z.to_nat ((55 - len) mod 64) in
  (msg ++ 0x80 :: repeat 0 zeros ++ be_bytes 8 (8 * len))%list.

Fixpoint words (n : nat) (bs : list Z) : list Z :=
  match n, bs with
  | S n', a :: b :: c :: d :: r =>
      (Z.shiftl a 24 + Z.shiftl b 16 + Z.shiftl c 8 + d) :: words n' r
  | _, _ => []
  end.

(** The message schedule, newest word first: [rev_w] holds W(t-1), W(t-2), ... *)
Fixpoint schedule (n : nat) (rev_w : list Z) : list Z :=
  match n with
  | O => rev_w
  | S n' =>
      let w k := nth k rev_w 0 in
      schedule n'
        (add32 (add32 (sigma1 (w 1%nat)) (w 6%nat))
               (add32 (sigma0 (w 14%nat)) (w 15%nat)) :: rev_w)
  end.

Definition round (st : list Z) (kw : Z * Z) : list Z :=
  match st with
  | [a; b; c; d; e; f; g; h] =>
      let t1 := add32 (add32 (add32 h (Sigma1 e)) (add32 (Ch e f g) (fst kw))) (snd kw) in
      let t2 := add32 (Sigma0 a) (Maj a b c) in
      [add32 t1 t2; a; b; c; add32 d t1; e; f; g]
  | _ => st
  end.

Definition compress (h : list Z) (block : list Z) : list Z :=
  let w := rev (schedule 48 (rev (words 16 block))) in
  let st := fold_left round (combine K256 w) h in
  map (fun p => add32 (fst p) (snd p)) (combine h st).

Fixpoint blocks (n : nat) (h : list Z) (bs : list Z) : list Z :=
  match n with
  | O => h
  | S n' =>
      match bs with
      | [] => h
      | _ => blocks n' (compress h (firstn 64 bs)) (skipn 64 bs)
      end
  end.

Definition sha256 (msg : list Z) : list Z :=
  let p := pad msg in
  flat_map (be_bytes 4) (blocks (length p) H0 p).

Definition xor_pad (c : Z) (key : list Z) : list Z := map (Z.lxor c) key.

(** HMAC with block size 64: longer keys are hashed first, shorter ones
    are filled with zero bytes. *)
Definition hmac_sha256 (key msg : list Z) : list Z :=
  let k0 := if (64 <? Z.of_nat (length key))%Z then sha256 key else key in
  let k := (k0 ++ repeat 0 (64 - length k0)%nat)%list in
  sha256 (xor_pad 0x5c k ++ sha256 (xor_pad 0x36 k ++ msg))%list.

Fixpoint hex (bs : list Z) : string :=
  match bs with
  | [] => ""
  | b :: r => String (Js.hex_digit (b / 16)) (String (Js.hex_digit (b mod 16)) (hex r))
  end.

(** [createHmac('sha256', key).update(msg).digest('hex')] *)
Definition hmac_hex (key msg : string) : string :=
  hex (hmac_sha256 (bytes_of_string key) (bytes_of_string msg)).

(** [crypto.timingSafeEqual(Buffer.from(a), Buffer.from(b))]: a
    [RangeError] when the byte lengths differ, otherwise whether the bytes
    agree.  Its running time is not part of this model. *)
Definition timingSafeEqual (a b : string) : option bool :=
  if Nat.eqb (String.length a) (String.length b) then Some (String.eqb a b) else None.

End Crypto.

Import Js.

(** ** The user table

    One row per user, the columns of [prisma/migrations] that the
    controllers read or write.  [createdAt] and [updatedAt] are kept by the
    ORM and never touched by a controller; they are left out.  Timestamps
    are milliseconds. *)

Inductive KycStatus : Type := PENDING | VERIFIED | FAILED.

Definition KycStatus_eqb (a b : KycStatus) : bool :=
  match a, b with
  | PENDING, PENDING | VERIFIED, VERIFIED | FAILED, FAILED => true
  | _, _ => false
  end.

Definition KycStatus_name (s : KycStatus) : string :=
  match s with PENDING => "PENDING" | VERIFIED => "VERIFIED" | FAILED => "FAILED" end.

Record User : Type := mkUser {
  id : string;
  email : string;
  kycStatus : KycStatus;
  kycProvider : option string;
  kycCompletedAt : option Z;
  kycDetails : option string;
  tradingEnabled : bool;
  verificationRetries : Z;
  lastVerificationAttempt : option Z;
  idVerified : bool;
  phoneVerified : bool;
  phoneNumber : option string;
  emailVerified : bool
}.

(** A row as [INSERT] leaves it when only [id] and [email] are given. *)
Definition new_user (i e : string) : User :=
  mkUser i e PENDING None None None false 0 None false false None false.

(** One property of the [data] object handed to [prisma.user.update]. *)
Inductive Assign : Type :=
| SetKycStatus (s : KycStatus)
| SetKycProvider (p : string)
| SetKycCompletedAt (t : option Z)
| SetKycDetails (d : string)
| SetTradingEnabled (b : bool)
| SetVerificationRetries (n : Z)
| SetLastVerificationAttempt (t : Z)
| SetIdVerified (b : bool)
| SetPhoneVerified (b : bool)
| SetPhoneNumber (v : json).

(** The column [phoneNumber] is a nullable string: any other value is
    refused by the ORM before a statement is sent. *)
Definition assign_valid (a : Assign) : bool :=
  match a with
  | SetPhoneNumber (JStr _) | SetPhoneNumber JNull => true
  | SetPhoneNumber _ => false
  | _ => true
  end.

Definition assign (u : User) (a : Assign) : User :=
  let '(mkUser i e ks kp kc kd te vr la iv pv pn ev) := u in
  match a with
  | SetKycStatus s => mkUser i e s kp kc kd te vr la iv pv pn ev
  | SetKycProvider p => mkUser i e ks (Some p) kc kd te vr la iv pv pn ev
  | SetKycCompletedAt t => mkUser i e ks kp t kd te vr la iv pv pn ev
  | SetKycDetails d => mkUser i e ks kp kc (Some d) te vr la iv pv pn ev
  | SetTradingEnabled b => mkUser i e ks kp kc kd b vr la iv pv pn ev
  | SetVerificationRetries n => mkUser i e ks kp kc kd te n la iv pv pn ev
  | SetLastVerificationAttempt t => mkUser i e ks kp kc kd te vr (Some t) iv pv pn ev
  | SetIdVerified b => mkUser i e ks kp kc kd te vr la b pv pn ev
  | SetPhoneVerified b => mkUser i e ks kp kc kd te vr la iv b pn ev
  | SetPhoneNumber (JStr s) => mkUser i e ks kp kc kd te vr la iv pv (Some s) ev
  | SetPhoneNumber _ => mkUser i e ks kp kc kd te vr la iv pv None ev
  end.

Definition apply_data (data : list Assign) (u : User) : User := fold_left assign data u.

(** ** Errors, effects and the handler monad *)

(** What axios attaches to an error when the provider answered. *)
Record UpstreamResponse : Type := {
  resp_status : Z;
  resp_data : value;
  resp_retry_after : value
}.

(** A thrown JavaScript error: its [message] and, for an axios error that
    carries an answer, its [response]. *)
Record Error : Type := {
  err_message : string;
  err_response : option UpstreamResponse
}.

Definition plain_error (msg : string) : Error :=
  {| err_message := msg; err_response := None |}.

Inductive Result (A : Type) : Type :=
| Ok (a : A)
| Throw (e : Error).
Arguments Ok {A} a.
Arguments Throw {A} e.

Inductive Level : Type := Info | Warn | Err.

Inductive Event : Type :=
| EvLog (l : Level) (msg : string)
| EvProvider (endpoint : string) (payload : value).

(** The mutable world: the user table, the Redis key space (value and
    time to live in seconds; the stored text is [JSON.stringify] of the
    value) and what was logged or sent to the provider, newest first.
    The key space has no clock: an entry stays until it is deleted, so a
    statement that spans two requests holds for the time its entries
    live and says so. *)
Record World : Type := {
  users : gmap string User;
  cache : gmap string (json * Z);
  trace : list Event
}.

(** What a single request finds around it. *)
Record Env : Type := {
  now : Z;
  uuid : string;
  provider : Result value;
  redis_get_fails : bool;
  redis_set_fails : bool;
  redis_del_fails : bool;
  DIDIT_WEBHOOK_SECRET : option string;
  DIDIT_WORKFLOW_ID : option string;
  APP_URL : option string;
  FRONTEND_URL : option string
}.

Definition M (A : Type) : Type := World -> Result A * World.

Definition ret {A} (a : A) : M A := fun w => (Ok a, w).
Definition throw {A} (e : Error) : M A := fun w => (Throw e, w).
Definition bind {A B} (c : M A) (k : A -> M B) : M B :=
  fun w => match c w with
           | (Ok a, w') => k a w'
           | (Throw e, w') => (Throw e, w')
           end.
Definition try_catch {A} (c : M A) (h : Error -> M A) : M A :=
  fun w => match c w with
           | (Ok a, w') => (Ok a, w')
           | (Throw e, w') => h e w'
           end.
Definition lift {A} (r : Result A) : M A := fun w => (r, w).

Notation "x <- c ;; k" := (bind c (fun x => k))
  (at level 100, c at next level, right associativity).
Notation "c ;; k" := (bind c (fun _ => k))
  (at level 100, right associativity).

Definition emit (e : Event) : M unit :=
  fun w => (Ok tt, {| users := users w; cache := cache w; trace := e :: trace w |}).

Definition log (l : Level) (msg : string) : M unit := emit (EvLog l msg).

(** *** Prisma

    The calls fail for an argument of the wrong type, for a missing row on
    [update] and for a taken [email] on [create]; a lost database
    connection is not modelled. *)

(** The texts of errors raised by libraries are abbreviated. *)
Definition validation_error : Error := plain_error "Argument validation failed".
Definition not_found_error : Error := plain_error "Record to update not found".
Definition unique_error : Error := plain_error "Unique constraint failed".

Definition prisma_findUnique (idv : value) : M (option User) :=
  fun w => match idv with
           | Some (JStr i) => (Ok (users w !! i), w)
           | _ => (Throw validation_error, w)
           end.

Definition email_taken (e : string) (us : gmap string User) : bool :=
  existsb (fun kv => String.eqb (email (snd kv)) e) (map_to_list us).

Definition prisma_create (idv emailv : value) : M User :=
  fun w => match idv, emailv with
           | Some (JStr i), Some (JStr e) =>
               if bool_decide (is_Some (users w !! i)) || email_taken e (users w)
               then (Throw unique_error, w)
               else (Ok (new_user i e),
                     {| users := <[i := new_user i e]> (users w);
                        cache := cache w; trace := trace w |})
           | _, _ => (Throw validation_error, w)
           end.

Definition prisma_update (idv : value) (data : list Assign) : M User :=
  fun w => match idv with
           | Some (JStr i) =>
               if forallb assign_valid data then
                 match users w !! i with
                 | Some u =>
                     (Ok (apply_data data u),
                      {| users := <[i := apply_data data u]> (users w);
                         cache := cache w; trace := trace w |})
                 | None => (Throw not_found_error, w)
                 end
               else (Throw validation_error, w)
           | _ => (Throw validation_error, w)
           end.

(** *** Redis *)

Definition redis_error : Error := plain_error "The client is closed".

Definition redis_get (env : Env) (key : string) : M (option json) :=
  fun w => if redis_get_fails env then (Throw redis_error, w)
           else (Ok (fst <$> cache w !! key), w).

Definition redis_set (env : Env) (key : string) (v : json) (ttl : Z) : M unit :=
  fun w => if redis_set_fails env then (Throw redis_error, w)
           else (Ok tt, {| users := users w; cache := <[key := (v, ttl)]> (cache w);
                           trace := trace w |}).

Definition redis_del (env : Env) (key : string) : M unit :=
  fun w => if redis_del_fails env then (Throw redis_error, w)
           else (Ok tt, {| users := users w; cache := delete key (cache w);
                           trace := trace w |}).

(** *** axios

    One request; the provider's answer is the one of the environment.  A
    status outside 2xx arrives as a thrown error with a [response], a
    network failure as a thrown error without one. *)
Definition axios (env : Env) (endpoint : string) (payload : value) : M value :=
  emit (EvProvider endpoint payload) ;; lift (provider env).

(** [const { a, b } = v]: a [TypeError] when [v] is [null] or [undefined]. *)
Definition destructure (v : value) : M json :=
  match v with
  | None | Some JNull => throw (plain_error "Cannot destructure")
  | Some j => ret j
  end.

(** ** [express.json()]: from the bytes of a body to [req.body]

    The parser covers the JSON this model represents: integers for
    numbers, the one-letter escapes in strings, and objects whose keys are
    not array indices (those would be enumerated first).  Text outside
    that fragment is not parsed. *)

Module Express.

Definition is_ws (c : ascii) : bool :=
  let n := code c in Z.eqb n 32 || Z.eqb n 9 || Z.eqb n 10 || Z.eqb n 13.

Definition is_digit (c : ascii) : bool :=
  let n := code c in Z.leb 48 n && Z.leb n 57.

Fixpoint skip_ws (s : string) : string :=
  match s with
  | String c r => if is_ws c then skip_ws r else s
  | EmptyString => s
  end.

(** The characters of a string literal, after its opening quote. *)
Fixpoint string_chars (s : string) : option (string * string) :=
  match s with
  | EmptyString => None
  | String c r =>
      let n := code c in
      if Z.eqb n 34 then Some ("", r)
      else if Z.eqb n 92 then
        match r with
        | String e r' =>
            let m := code e in
            let unescaped :=
              if Z.eqb m 34 || Z.eqb m 92 || Z.eqb m 47 then Some e
              else if Z.eqb m 98 then Some (ascii_of_nat 8)
              else if Z.eqb m 102 then Some (ascii_of_nat 12)
              else if Z.eqb m 110 then Some (ascii_of_nat 10)
              else if Z.eqb m 114 then Some (ascii_of_nat 13)
              else if Z.eqb m 116 then Some (ascii_of_nat 9)
              else None in
            match unescaped, string_chars r' with
            | Some u, Some (body, rest) => Some (String u body, rest)
            | _, _ => None
            end
        | EmptyString => None
        end
      else if Z.ltb n 32 then None
      else match string_chars r with
           | Some (body, rest) => Some (String c body, rest)
           | None => None
           end
  end.

Fixpoint digits (s : string) (acc : Z) : Z * string :=
  match s with
  | String c r => if is_digit c then digits r (10 * acc + (code c - 48)) else (acc, s)
  | EmptyString => (acc, s)
  end.

Definition starts_number_tail (s : string) : bool :=
  match s with
  | String c _ => let n := code c in Z.eqb n 46 || Z.eqb n 101 || Z.eqb n 69
  | EmptyString => false
  end.

Definition integer (s : string) : option (json * string) :=
  let '(neg, s1) :=
    match s with
    | String c r => if Z.eqb (code c) 45 then (true, r) else (false, s)
    | EmptyString => (false, s)
    end in
  match s1 with
  | String c _ =>
      if is_digit c then
        let '(n, rest) := digits s1 0 in
        if starts_number_tail rest then None
        else Some (JNum (if neg then - n else n), rest)
      else None
  | EmptyString => None
  end.

Fixpoint strip_prefix (p s : string) : option string :=
  match p, s with
  | EmptyString, _ => Some s
  | String a p', String b s' => if Ascii.eqb a b then strip_prefix p' s' else None
  | _, _ => None
  end.

(** A repeated key keeps its first place and takes the later value. *)
Fixpoint set_field (k : string) (v : json) (fields : list (string * json))
  : list (string * json) :=
  match fields with
  | [] => [(k, v)]
  | (k', v') :: r => if String.eqb k k' then (k, v) :: r else (k', v') :: set_field k v r
  end.

Definition index_like (k : string) : bool :=
  match k with
  | String c _ => is_digit c
  | EmptyString => false
  end.

Fixpoint parse_value (fuel : nat) (s : string) : option (json * string) :=
  match fuel with
  | O => None
  | S f =>
      match skip_ws s with
      | EmptyString => None
      | String c r as t =>
          let n := code c in
          if Z.eqb n 123 then
            match skip_ws r with
            | String c' r' => if Z.eqb (code c') 125 then Some (JObj [], r')
                              else parse_members f r []
            | EmptyString => None
            end
          else if Z.eqb n 91 then
            match skip_ws r with
            | String c' r' => if Z.eqb (code c') 93 then Some (JArr [], r')
                              else parse_elements f r []
            | EmptyString => None
            end
          else if Z.eqb n 34 then
            match string_chars r with
            | Some (str, rest) => Some (JStr str, rest)
            | None => None
            end
          else match strip_prefix "true" t, strip_prefix "false" t, strip_prefix "null" t with
               | Some rest, _, _ => Some (JBool true, rest)
               | _, Some rest, _ => Some (JBool false, rest)
               | _, _, Some rest => Some (JNull, rest)
               | _, _, _ => integer t
               end
      end
  end
with parse_members (fuel : nat) (s : string) (acc : list (string * json))
  : option (json * string) :=
  match fuel with
  | O => None
  | S f =>
      match skip_ws s with
      | String c r =>
          if Z.eqb (code c) 34 then
            match string_chars r with
            | Some (k, r1) =>
                if index_like k then None
                else
                  match skip_ws r1 with
                  | String c2 r2 =>
                      if Z.eqb (code c2) 58 then
                        match parse_value f r2 with
                        | Some (v, r3) =>
                            match skip_ws r3 with
                            | String c4 r4 =>
                                if Z.eqb (code c4) 44 then parse_members f r4 (set_field k v acc)
                                else if Z.eqb (code c4) 125
                                     then Some (JObj (set_field k v acc), r4)
                                     else None
                            | EmptyString => None
                            end
                        | None => None
                        end
                      else None
                  | EmptyString => None
                  end
            | None => None
            end
          else None
      | EmptyString => None
      end
  end
with parse_elements (fuel : nat) (s : string) (acc : list json) : option (json * string) :=
  match fuel with
  | O => None
  | S f =>
      match parse_value f s with
      | Some (v, r1) =>
          match skip_ws r1 with
          | String c r2 =>
              if Z.eqb (code c) 44 then parse_elements f r2 (acc ++ [v])%list
              else if Z.eqb (code c) 93 then Some (JArr (acc ++ [v])%list, r2)
              else None
          | EmptyString => None
          end
      | None => None
      end
  end.

Definition parse (raw : string) : option json :=
  match parse_value (S (String.length raw)) raw with
  | Some (v, rest) => match skip_ws rest with EmptyString => Some v | _ => None end
  | None => None
  end.

End Express.

(** ** Requests and responses *)

(** The body as [express.json()] hands it over: an object or an array
    (an empty object when nothing was parsed). *)
Inductive Body : Type :=
| BObject (fields : list (string * json))
| BArray (items : list json).

Definition body_json (b : Body) : json :=
  match b with BObject f => JObj f | BArray i => JArr i end.

Record Request : Type := {
  req_raw : string;            (* the bytes of the body as they arrived *)
  req_body : Body;             (* [req.body] *)
  req_signature : option string;  (* [req.headers['x-didit-signature']] *)
  req_param : string;          (* [req.params.sessionId] / [req.params.userId] *)
  req_errors : list json       (* [validationResult(req).array()] *)
}.

(** [res.status(st).json(v)]; [v] is [undefined] only where a handler
    passes the provider's data through unchanged. *)
Record Response : Type := {
  status : Z;
  body : value
}.

(** In strict mode the parser accepts an object or an array at top level. *)
Definition express_json (raw : string) : option Body :=
  match Express.parse raw with
  | Some (JObj f) => Some (BObject f)
  | Some (JArr i) => Some (BArray i)
  | _ => None
  end.

(** A JSON request as the middleware delivers it to a handler. *)
Definition parsed_by_express (req : Request) : Prop :=
  express_json (req_raw req) = Some (req_body req).

Definition respond (st : Z) (fields : list (string * value)) : Response :=
  {| status := st; body := Some (obj fields) |}.

(** ** [verificationController.js] *)

Definition MAX_VERIFICATION_RETRIES : Z := 2.
Definition SESSION_TTL : Z := 3600.
Definition PHONE_CODE_VALIDITY : Z := 300.

Definition env_template (v : option string) : string :=
  match v with Some s => s | None => "undefined" end.

Definition CALLBACK_URL (env : Env) : string :=
  env_template (APP_URL env) ++ "/api/v1/didit/webhook".

Definition opt_str (o : option string) : value :=
  match o with Some s => Some (JStr s) | None => None end.

(** A nullable column read back from a row: [null] when empty.  A
    timestamp is kept as its number of milliseconds (the wire format
    prints it as an ISO string). *)
Definition col_str (o : option string) : value :=
  match o with Some s => Some (JStr s) | None => Some JNull end.
Definition col_date (o : option Z) : value :=
  match o with Some t => Some (JNum t) | None => Some JNull end.

Definition jbool (b : bool) : value := Some (JBool b).
Definition jstr (s : string) : value := Some (JStr s).
Definition jnum (n : Z) : value := Some (JNum n).

(** [maskPhoneNumber(phone)] on a string. *)
Definition mask (phone : string) : string :=
  if (String.length phone <=? 4)%nat then phone
  else "***" ++ slice_last 4 phone.

(** [maskPhoneNumber(phone)] on any value it may be handed: a falsy one
    gives [null]; an array has [length] and [slice] too; a number or a
    boolean has neither and the call throws, and so does an object (one
    that carries a [length] of its own of at most 4 would be returned as
    it is; the model leaves that case out). *)
Definition maskPhoneNumber (phone : value) : Result value :=
  if negb (truthy phone) then Ok (Some JNull)
  else match phone with
       | Some (JStr s) => Ok (jstr (mask s))
       | Some (JArr items) =>
           if (length items <=? 4)%nat then Ok phone
           else Ok (jstr ("***" ++ to_string (JArr (skipn (length items - 4) items))))
       | _ => Throw (plain_error "phone.slice is not a function")
       end.

(** [handleDiditApiError(error, res)] *)
Definition handleDiditApiError (error : Error) : Response :=
  let st := resp_status <$> err_response error in
  let data := err_response error ≫= resp_data in
  if bool_decide (st = Some 401) then
    respond 500
      [("success", jbool false);
       ("error", jstr "Authentication failed");
       ("message", jstr "Invalid or expired API key. Please check DIDIT_API_KEY configuration.")]
  else if bool_decide (st = Some 403) then
    respond 500
      [("success", jbool false);
       ("error", jstr "Permission denied");
       ("message", jstr "API key lacks required permissions or workflow is inactive.");
       ("details", data)]
  else if bool_decide (st = Some 400) then
    respond 400
      [("success", jbool false);
       ("error", jstr "Invalid request");
       ("message", jstr "Request validation failed");
       ("details", data)]
  else if bool_decide (st = Some 429) then
    respond 429
      [("success", jbool false);
       ("error", jstr "Rate limit exceeded");
       ("message", jstr "Too many requests. Please try again later.");
       ("retryAfter", err_response error ≫= resp_retry_after)]
  else if bool_decide (st = Some 404) then
    respond 404
      [("success", jbool false);
       ("error", jstr "Resource not found");
       ("message", jstr "The requested resource does not exist.")]
  else
    respond 502
      [("success", jbool false);
       ("error", jstr "Service unavailable");
       ("message", jstr "Failed to connect to verification service");
       ("details", jstr (err_message error))].

Definition validation_failed (req : Request) : Response :=
  respond 400 [("success", jbool false); ("errors", Some (JArr (req_errors req)))].

Definition has_errors (req : Request) : bool :=
  match req_errors req with [] => false | _ => true end.

Definition already_verified (user : User) : Response :=
  respond 200
    [("success", jbool false);
     ("message", jstr "User is already verified");
     ("data", Some (obj [("idVerified", jbool (idVerified user));
                         ("phoneVerified", jbool (phoneVerified user));
                         ("kycStatus", jstr (KycStatus_name (kycStatus user)));
                         ("completedAt", col_date (kycCompletedAt user))]))].

Definition retries_exceeded (user : User) : Response :=
  respond 429
    [("success", jbool false);
     ("error", jstr "Maximum verification attempts exceeded");
     ("message", jstr ("You have reached the maximum number of verification attempts ("
                       ++ string_of_Z MAX_VERIFICATION_RETRIES
                       ++ "). Please contact support."));
     ("retriesUsed", jnum (verificationRetries user));
     ("maxRetries", jnum MAX_VERIFICATION_RETRIES)].

Definition session_payload (env : Env) (userId contactDetails expectedDetails metadata : value)
  : value :=
  Some (obj ([("workflow_id", opt_str (DIDIT_WORKFLOW_ID env));
              ("vendor_data", userId);
              ("callback", jstr (CALLBACK_URL env));
              ("redirect_url_success",
               jstr (env_template (FRONTEND_URL env) ++ "/verification/success"));
              ("redirect_url_failure",
               jstr (env_template (FRONTEND_URL env) ++ "/verification/failed"))]
             ++ (if truthy contactDetails then [("contact_details", contactDetails)] else [])
             ++ (if truthy expectedDetails then [("expected_details", expectedDetails)] else [])
             ++ (if truthy metadata then [("metadata", metadata)] else []))%list).

Definition session_created (data : json) (user : User) : Response :=
  respond 201
    [("success", jbool true);
     ("data", Some (obj [("session_id", get "session_id" data);
                         ("session_number", get "session_number" data);
                         ("session_token", get "session_token" data);
                         ("verification_url", get "url" data);
                         ("status", get "status" data);
                         ("expires_in", jnum SESSION_TTL);
                         ("retriesUsed", jnum (verificationRetries user + 1));
                         ("retriesRemaining",
                          jnum (MAX_VERIFICATION_RETRIES - (verificationRetries user + 1)))]));
     ("message", jstr "Verification session created. Redirect user to verification_url.")].

(** [POST /api/v1/verification/session/create], the handler behind the
    validation chain. *)
Definition createVerificationSession (env : Env) (req : Request) : M Response :=
  if has_errors req then ret (validation_failed req)
  else
    let b := body_json (req_body req) in
    let userId := get "userId" b in
    let contactDetails := get "contactDetails" b in
    let expectedDetails := get "expectedDetails" b in
    let metadata := get "metadata" b in
    let correlationId := uuid env in
    try_catch
      (log Info "Creating verification session" ;;
       found <- prisma_findUnique userId ;;
       user <- match found with
               | Some u => ret u
               | None =>
                   prisma_create userId
                     (if truthy (get_opt "email" contactDetails)
                      then get_opt "email" contactDetails
                      else jstr (template userId ++ "@example.com"))
               end ;;
       if KycStatus_eqb (kycStatus user) VERIFIED then ret (already_verified user)
       else if (MAX_VERIFICATION_RETRIES <=? verificationRetries user)%Z
       then ret (retries_exceeded user)
       else
         response_data <- axios env "POST /session/"
                            (session_payload env userId contactDetails expectedDetails metadata) ;;
         data <- destructure response_data ;;
         _ <- prisma_update userId
                [SetVerificationRetries (verificationRetries user + 1);
                 SetLastVerificationAttempt (now env)] ;;
         try_catch
           (redis_set env ("didit:session:" ++ template (get "session_id" data))
              (obj [("userId", userId);
                    ("correlationId", jstr correlationId);
                    ("initiatedAt", jnum (now env));
                    ("sessionNumber", get "session_number" data)])
              SESSION_TTL)
           (fun redisError => log Warn "Failed to store session in Redis") ;;
         log Info "Verification session created" ;;
         ret (session_created data user))
      (fun error =>
         log Err "Failed to create verification session" ;;
         ret (handleDiditApiError error)).

(** [GET /api/v1/verification/session/:sessionId] *)
Definition retrieveSession (env : Env) (req : Request) : M Response :=
  try_catch
    (log Info "Retrieving verification session" ;;
     response_data <- axios env ("GET /session/" ++ req_param req ++ "/") None ;;
     sessionData <- destructure response_data ;;
     log Info "Session retrieved successfully" ;;
     ret (respond 200 [("success", jbool true); ("data", Some sessionData)]))
    (fun error =>
       log Err "Failed to retrieve session" ;;
       ret (handleDiditApiError error)).

(** [a || b] *)
Definition js_or (a b : value) : value := if truthy a then a else b.

Definition phone_required : Response :=
  respond 400 [("success", jbool false); ("error", jstr "phone_number is required")].

(** [POST /api/v1/verification/phone/send] *)
Definition sendPhoneVerificationCode (env : Env) (req : Request) : M Response :=
  if has_errors req then ret (validation_failed req)
  else
    let b := body_json (req_body req) in
    let incomingNumber := js_or (get "phone_number" b) (get "phoneNumber" b) in
    if negb (truthy incomingNumber) then ret phone_required
    else
      let userId := get "userId" b in
      let correlationId := uuid env in
      try_catch
        (_ <- lift (maskPhoneNumber incomingNumber) ;;
         log Info "Sending phone verification code" ;;
         response_data <- axios env "POST /phone/send/"
                            (Some (obj [("phone_number", incomingNumber)])) ;;
         data <- destructure response_data ;;
         try_catch
           (redis_set env ("didit:phone:" ++ template (get "request_id" data))
              (obj [("userId", userId);
                    ("phoneNumber", incomingNumber);
                    ("correlationId", jstr correlationId);
                    ("sentAt", jnum (now env))])
              PHONE_CODE_VALIDITY)
           (fun redisError => log Warn "Failed to store phone verification in Redis") ;;
         _ <- lift (maskPhoneNumber (js_or (get "phone_number" data) incomingNumber)) ;;
         log Info "Phone verification code sent" ;;
         ret {| status := 200; body := response_data |})
        (fun error =>
           _ <- lift (maskPhoneNumber incomingNumber) ;;
           log Err "Failed to send phone verification code" ;;
           ret (handleDiditApiError error)).

(** [POST /api/v1/verification/phone/check] *)
Definition checkPhoneVerificationCode (env : Env) (req : Request) : M Response :=
  if has_errors req then ret (validation_failed req)
  else
    let b := body_json (req_body req) in
    let incomingNumber := get "phone_number" b in
    let code := get "code" b in
    try_catch
      (_ <- lift (maskPhoneNumber incomingNumber) ;;
       log Info "Checking phone verification code" ;;
       if negb (truthy incomingNumber) then ret phone_required
       else
         response_data <- axios env "POST /phone/check/"
                            (Some (obj [("code", code); ("phone_number", incomingNumber)])) ;;
         ret {| status := 200; body := response_data |})
      (fun error =>
         _ <- lift (maskPhoneNumber incomingNumber) ;;
         log Err "Failed to check phone verification code" ;;
         ret (handleDiditApiError error)).

Definition id_result (r : json) : Response :=
  respond 200
    [("success", jbool true);
     ("data", Some (obj [("status", get "status" r);
                         ("document_type", get "document_type" r);
                         ("document_number", get "document_number" r);
                         ("first_name", get "first_name" r);
                         ("last_name", get "last_name" r);
                         ("date_of_birth", get "date_of_birth" r);
                         ("expiration_date", get "expiration_date" r);
                         ("nationality", get "nationality" r);
                         ("issuing_state", get "issuing_state" r);
                         ("warnings", js_or (get "warnings" r) (Some (JArr [])))]))].

(** [POST /api/v1/verification/id/verify] *)
Definition verifyIdDocument (env : Env) (req : Request) : M Response :=
  if has_errors req then ret (validation_failed req)
  else
    let b := body_json (req_body req) in
    let userId := get "userId" b in
    let frontImage := get "frontImage" b in
    let backImage := get "backImage" b in
    let documentType := get "documentType" b in
    try_catch
      (log Info "Performing ID verification" ;;
       response_data <- axios env "POST /id-verification/"
                          (Some (obj ([("front_image", frontImage)]
                                      ++ (if truthy backImage then [("back_image", backImage)] else [])
                                      ++ (if truthy documentType
                                          then [("document_type", documentType)] else []))%list)) ;;
       verificationResult <- destructure response_data ;;
       (if eq_str (get "status" verificationResult) "verified"
           || eq_str (get "status" verificationResult) "Approved"
        then
          _ <- prisma_update userId
                 [SetIdVerified true; SetKycDetails (stringify verificationResult)] ;;
          log Info "ID verified successfully"
        else ret tt) ;;
       ret (id_result verificationResult))
      (fun error =>
         log Err "Failed to verify ID document" ;;
         ret (handleDiditApiError error)).

(** [verifyWebhookSignature(rawBody, signature)] *)
Definition verifyWebhookSignature (env : Env) (rawBody : string) (signature : option string)
  : M bool :=
  match signature, DIDIT_WEBHOOK_SECRET env with
  | Some sig, Some secret =>
      if String.eqb sig "" || String.eqb secret "" then ret false
      else
        match Crypto.timingSafeEqual sig (Crypto.hmac_hex secret rawBody) with
        | Some same => ret same
        | None => log Err "Signature verification failed" ;; ret false
        end
  | _, _ => ret false
  end.

(** The [updateData] object of [handleStatusUpdate], in the order its
    properties are written. *)
Definition status_update_data (env : Env) (status decision : value) : list Assign :=
  ([SetKycProvider "DIDIT"]
   ++ (if eq_str status "Approved"
       then [SetKycStatus VERIFIED; SetKycCompletedAt (Some (now env))]
       else if eq_str status "Declined" then [SetKycStatus FAILED]
       else if eq_str status "In Review" then [SetKycStatus PENDING]
       else [])
   ++ match decision with
      | Some d =>
          if truthy decision then
            (if truthy (get "id_verification" d)
             then [SetIdVerified (eq_str (get_opt "status" (get "id_verification" d)) "Approved")]
             else [])
            ++ (if truthy (get "phone_verification" d)
                then SetPhoneVerified
                       (eq_str (get_opt "status" (get "phone_verification" d)) "Approved")
                     :: match get_opt "phone_number" (get "phone_verification" d) with
                        | Some pn =>
                            if truthy (Some pn) then [SetPhoneNumber pn] else []
                        | None => []
                        end
                else [])
            ++ [SetKycDetails (stringify d)]
          else []
      | None => []
      end)%list.

(** [handleStatusUpdate(userId, status, decision, payload)] *)
Definition handleStatusUpdate (env : Env) (userId status decision : value) : M unit :=
  log Info "Processing status update" ;;
  _ <- prisma_update userId (status_update_data env status decision) ;;
  log Info "User verification status updated".

(** [handleDataUpdate(userId, decision, payload)] *)
Definition handleDataUpdate (userId decision : value) : M unit :=
  log Info "Processing data update" ;;
  match decision with
  | Some d =>
      if truthy decision then
        _ <- prisma_update userId [SetKycDetails (stringify d)] ;;
        log Info "User verification data updated"
      else ret tt
  | None => ret tt
  end.

(** [triggerPostVerificationActions(userId, decision)] *)
Definition triggerPostVerificationActions (userId : value) : M unit :=
  log Info "Triggering post-verification actions" ;;
  try_catch
    (_ <- prisma_update userId [SetTradingEnabled true] ;;
     log Info "Post-verification actions completed")
    (fun error => log Err "Failed to execute post-verification actions").

Definition is_terminal (status : value) : bool :=
  eq_str status "Approved" || eq_str status "Declined" || eq_str status "Abandoned".

(** [POST /api/v1/verification/webhook] *)
Definition handleWebhook (env : Env) (req : Request) : M Response :=
  let rawBody := stringify (body_json (req_body req)) in
  let signature := req_signature req in
  valid <- verifyWebhookSignature env rawBody signature ;;
  if negb valid then
    log Warn "Invalid webhook signature" ;;
    ret (respond 401 [("error", jstr "Invalid signature")])
  else
    let payload := body_json (req_body req) in
    let session_id := get "session_id" payload in
    let status := get "status" payload in
    let vendor_data := get "vendor_data" payload in
    let webhook_type := get "webhook_type" payload in
    let decision := get "decision" payload in
    let userId := vendor_data in
    try_catch
      (log Info "Webhook received" ;;
       try_catch
         (sessionData <- redis_get env ("didit:session:" ++ template session_id) ;;
          ret tt)
         (fun redisError => log Warn "Redis not available for webhook") ;;
       (if eq_str webhook_type "status.updated"
        then handleStatusUpdate env userId status decision
        else if eq_str webhook_type "data.updated"
        then handleDataUpdate userId decision
        else ret tt) ;;
       (if is_terminal status
        then try_catch
               (redis_del env ("didit:session:" ++ template session_id))
               (fun redisError => log Warn "Failed to delete session from Redis")
        else ret tt) ;;
       (if eq_str status "Approved" && truthy decision
        then triggerPostVerificationActions userId
        else ret tt) ;;
       log Info "Webhook processed successfully" ;;
       ret (respond 200 [("received", jbool true)]))
      (fun error =>
         log Err "Webhook processing failed" ;;
         ret (respond 200 [("received", jbool true); ("error", jstr (err_message error))])).

Definition status_view (user : User) (masked : value) : Response :=
  respond 200
    [("success", jbool true);
     ("data", Some (obj [("userId", jstr (id user));
                         ("email", jstr (email user));
                         ("kycStatus", jstr (KycStatus_name (kycStatus user)));
                         ("kycProvider", col_str (kycProvider user));
                         ("idVerified", jbool (idVerified user));
                         ("phoneVerified", jbool (phoneVerified user));
                         ("phoneNumber", masked);
                         ("verificationRetries", jnum (verificationRetries user));
                         ("retriesRemaining",
                          jnum (Z.max 0 (MAX_VERIFICATION_RETRIES - verificationRetries user)));
                         ("lastAttempt", col_date (lastVerificationAttempt user));
                         ("completedAt", col_date (kycCompletedAt user));
                         ("tradingEnabled", jbool (tradingEnabled user))]))].

(** [GET /api/v1/verification/status/:userId] *)
Definition getUserVerificationStatus (req : Request) : M Response :=
  try_catch
    (found <- prisma_findUnique (jstr (req_param req)) ;;
     match found with
     | None => ret (respond 404 [("success", jbool false); ("error", jstr "User not found")])
     | Some user =>
         masked <- lift (if truthy (col_str (phoneNumber user))
                         then maskPhoneNumber (col_str (phoneNumber user))
                         else Ok (Some JNull)) ;;
         ret (status_view user masked)
     end)
    (fun error =>
       log Err "Error fetching verification status" ;;
       ret (respond 500 [("success", jbool false);
                         ("error", jstr "Failed to fetch verification status")])).

(** ** [diditAuthController.js], the legacy routes under [/api/v1/didit] *)

Module Legacy.

Definition MAX_RETRIES : Z := 2.

Definition retries_exceeded (user : User) : Response :=
  respond 429
    [("error", jstr "Maximum verification attempts exceeded");
     ("message", jstr ("You have reached the maximum number of verification attempts ("
                       ++ string_of_Z MAX_RETRIES ++ "). Please contact support."));
     ("retriesUsed", jnum (verificationRetries user));
     ("maxRetries", jnum MAX_RETRIES)].

Definition already_verified (user : User) : Response :=
  respond 200
    [("success", jbool false);
     ("message", jstr "User is already verified");
     ("data", Some (obj [("idVerified", jbool (idVerified user));
                         ("phoneVerified", jbool (phoneVerified user));
                         ("kycStatus", jstr (KycStatus_name (kycStatus user)))]))].

Definition session_payload (env : Env) (userId : value) : value :=
  Some (obj [("workflow_id", opt_str (DIDIT_WORKFLOW_ID env));
             ("vendor_data", userId);
             ("callback", jstr (CALLBACK_URL env));
             ("redirect_url_success",
              jstr (env_template (FRONTEND_URL env) ++ "/verification/success"));
             ("redirect_url_failure",
              jstr (env_template (FRONTEND_URL env) ++ "/verification/failed"));
             ("verification_types",
              Some (obj [("id_verification", jbool true);
                         ("phone_verification", jbool true);
                         ("liveness_check", jbool true)]))]).

Definition session_created (data : json) (user : User) : Response :=
  respond 201
    [("success", jbool true);
     ("data", Some (obj [("session_id", get "session_id" data);
                         ("verification_url", get "url" data);
                         ("expires_in", jnum 3600);
                         ("retriesUsed", jnum (verificationRetries user + 1));
                         ("retriesRemaining",
                          jnum (MAX_RETRIES - (verificationRetries user + 1)))]));
     ("message", jstr "Verification session created. Redirect user to verification_url.")].

(** The [catch] block of [initiateDiditVerification]. *)
Definition session_error (error : Error) : Response :=
  let st := resp_status <$> err_response error in
  let data := err_response error ≫= resp_data in
  if bool_decide (st = Some 401) then
    respond 500
      [("error", jstr "Invalid Didit API key");
       ("message", jstr "The API key is invalid or expired. Please check your DIDIT_API_KEY in .env file.")]
  else if bool_decide (st = Some 403) then
    respond 500
      [("error", jstr "Permission denied");
       ("message", jstr "API key does not have permission. Possible causes: 1) Workflow ID does not belong to this API key, 2) Workflow is not published/active, 3) API key lacks required permissions. Please verify in Didit dashboard.");
       ("details", data)]
  else if bool_decide (st = Some 400) then
    respond 400
      [("error", jstr "Invalid request");
       ("message", jstr "Invalid workflow ID or request payload");
       ("details", data)]
  else
    respond 502
      [("error", jstr "Failed to connect to Didit service");
       ("message", jstr (err_message error));
       ("details", data)].

(** [POST /api/v1/didit/initiate], the handler behind the rate limiter and
    the validation chain. *)
Definition initiateDiditVerification (env : Env) (req : Request) : M Response :=
  if has_errors req then ret (respond 400 [("errors", Some (JArr (req_errors req)))])
  else
    let userId := get "userId" (body_json (req_body req)) in
    let correlationId := uuid env in
    try_catch
      (log Info "Initiating Didit verification" ;;
       found <- prisma_findUnique userId ;;
       user <- match found with
               | Some u => ret u
               | None =>
                   u <- prisma_create userId (jstr (template userId ++ "@example.com")) ;;
                   log Info "Created new user for verification" ;;
                   ret u
               end ;;
       if (MAX_RETRIES <=? verificationRetries user)%Z then
         log Warn "User exceeded verification retry limit" ;;
         ret (retries_exceeded user)
       else if KycStatus_eqb (kycStatus user) VERIFIED then
         log Info "User already verified" ;;
         ret (already_verified user)
       else
         response_data <- axios env "POST /session/" (session_payload env userId) ;;
         data <- destructure response_data ;;
         _ <- prisma_update userId
                [SetVerificationRetries (verificationRetries user + 1);
                 SetLastVerificationAttempt (now env)] ;;
         log Info "User verification retry incremented" ;;
         try_catch
           (redis_set env ("didit:session:" ++ template (get "session_id" data))
              (obj [("userId", userId);
                    ("correlationId", jstr correlationId);
                    ("initiatedAt", jnum (now env))])
              3600 ;;
            log Info "Session stored in Redis")
           (fun redisError =>
              log Warn "Failed to store session in Redis, webhook correlation may fail") ;;
         log Info "Didit session created" ;;
         ret (session_created data user))
      (fun error =>
         log Err "Didit session creation failed" ;;
         ret (session_error error)).

(** [verifyDiditSignature(payload, signature)]: no guard and no [try];
    [createHmac] refuses an undefined key, [Buffer.from] an undefined
    signature, [timingSafeEqual] buffers of different lengths. *)
Definition verifyDiditSignature (env : Env) (payload : json) (signature : option string)
  : Result bool :=
  match DIDIT_WEBHOOK_SECRET env with
  | None => Throw (plain_error "The key argument must be of type string")
  | Some secret =>
      match signature with
      | None => Throw (plain_error "The first argument must be of type string")
      | Some sig =>
          match Crypto.timingSafeEqual sig (Crypto.hmac_hex secret (stringify payload)) with
          | Some same => Ok same
          | None => Throw (plain_error "Input buffers must have the same byte length")
          end
      end
  end.

(** The [data] object of [updateUserVerificationStatus]. *)
Definition verification_update_data (env : Env) (status : value) (details : json)
  : list Assign :=
  let verificationData := js_or (get "verification_data" details) (Some (JObj [])) in
  [SetKycStatus (if eq_str status "completed" then VERIFIED else FAILED);
   SetKycProvider "DIDIT";
   SetKycCompletedAt (if eq_str status "completed" then Some (now env) else None);
   SetKycDetails (stringify details);
   SetIdVerified (eq_str (get_opt "status" (get_opt "id_verification" verificationData))
                    "verified");
   SetPhoneVerified (eq_str (get_opt "status" (get_opt "phone_verification" verificationData))
                       "verified");
   SetPhoneNumber
     (match js_or (get_opt "phone_number" (get_opt "phone_verification" verificationData))
              (Some JNull) with
      | Some j => j
      | None => JNull
      end)].

(** [updateUserVerificationStatus(userId, status, details)] *)
Definition updateUserVerificationStatus (env : Env) (userId status : value) (details : json)
  : M unit :=
  let verificationData := js_or (get "verification_data" details) (Some (JObj [])) in
  let phoneNumber :=
    js_or (get_opt "phone_number" (get_opt "phone_verification" verificationData))
      (Some JNull) in
  _ <- lift (if truthy phoneNumber
             then match phoneNumber with
                  | Some (JStr _) | Some (JArr _) => Ok tt
                  | _ => Throw (plain_error "phoneNumber.slice is not a function")
                  end
             else Ok tt) ;;
  log Info "Updating user verification status" ;;
  _ <- prisma_update userId (verification_update_data env status details) ;;
  log Info "User KYC updated successfully".

(** [triggerPostVerificationActions(userId)] *)
Definition triggerPostVerificationActions (userId : value) : M unit :=
  log Info "Triggering post-verification actions" ;;
  _ <- prisma_update userId [SetTradingEnabled true] ;;
  log Info "Trading enabled".

(** [POST /api/v1/didit/webhook] *)
Definition diditWebhookHandler (env : Env) (req : Request) : M Response :=
  let payload := body_json (req_body req) in
  let signature := req_signature req in
  valid <- lift (verifyDiditSignature env payload signature) ;;
  if negb valid then
    log Warn "Invalid Didit webhook signature" ;;
    ret (respond 401 [("error", jstr "Invalid signature")])
  else
    let session_id := get "session_id" payload in
    let status := get "status" payload in
    let vendor_data := get "vendor_data" payload in
    let userId := vendor_data in
    try_catch
      (try_catch
         (sessionData <- redis_get env ("didit:session:" ++ template session_id) ;;
          match sessionData with
          | Some parsed => _ <- destructure (Some parsed) ;; ret tt
          | None => log Warn "Didit webhook: session not found in Redis (may have expired)"
          end)
         (fun redisError =>
            log Warn "Redis not available for webhook, proceeding without session correlation") ;;
       log Info "Didit verification completed" ;;
       updateUserVerificationStatus env userId status payload ;;
       try_catch
         (redis_del env ("didit:session:" ++ template session_id))
         (fun redisError => log Warn "Failed to delete Redis session") ;;
       (if eq_str status "completed"
        then triggerPostVerificationActions userId
        else ret tt) ;;
       ret (respond 200 [("received", jbool true)]))
      (fun error =>
         log Err "Didit webhook processing failed" ;;
         ret (respond 200 [("received", jbool true)])).

(** [GET /api/v1/didit/status/:userId] *)
Definition checkVerificationStatus (req : Request) : M Response :=
  try_catch
    (found <- prisma_findUnique (jstr (req_param req)) ;;
     match found with
     | None => ret (respond 404 [("error", jstr "User not found")])
     | Some user =>
         ret (respond 200
                [("success", jbool true);
                 ("data",
                  Some (obj [("userId", jstr (id user));
                             ("kycStatus", jstr (KycStatus_name (kycStatus user)));
                             ("idVerified", jbool (idVerified user));
                             ("phoneVerified", jbool (phoneVerified user));
                             ("verificationRetries", jnum (verificationRetries user));
                             ("retriesRemaining",
                              jnum (Z.max 0 (2 - verificationRetries user)));
                             ("lastAttempt", col_date (lastVerificationAttempt user));
                             ("tradingEnabled", jbool (tradingEnabled user));
                             ("completedAt", col_date (kycCompletedAt user))]))])
     end)
    (fun error =>
       log Err "Error fetching verification status" ;;
       ret (respond 500 [("error", jstr "Failed to fetch verification status")])).

End Legacy.

(** ** [api.js], the browser client of the verification routes *)

Module Client.

(** What [request] throws: an [Error] with [status] and [data] attached. *)
Record Failure : Type := {
  message : string;
  failure_status : Z;
  failure_data : json
}.

(** [request(path, options)] once the server has answered: the body is
    parsed as JSON, an unreadable one counts as an empty object; an answer
    outside 200-299 is thrown, named after its [error], else its
    [message], else ["Request failed"]. *)
Definition request (res : Response) : Failure + json :=
  let data := match body res with Some j => j | None => JObj [] end in
  if (200 <=? status res)%Z && (status res <=? 299)%Z then inr data
  else inl {| message := template (js_or (js_or (get_opt "error" (Some data))
                                             (get_opt "message" (Some data)))
                                      (jstr "Request failed"));
              failure_status := status res;
              failure_data := data |}.

(** The body a call of [VerificationAPI] posts, as the JSON middleware of
    the server hands it over: the object literal without its [undefined]
    properties. *)
Definition posted (fields : list (string * value)) : Body := BObject (defined fields).

(** [VerificationAPI.createSession(payload)] *)
Definition createSession (payload : list (string * value)) : Body := posted payload.

(** [VerificationAPI.sendPhoneCode(phoneNumber, userId)] *)
Definition sendPhoneCode (phoneNumber userId : value) : Body :=
  posted [("phoneNumber", phoneNumber); ("userId", userId)].

(** [VerificationAPI.checkPhoneCode({ code, phoneNumber })] *)
Definition checkPhoneCode (code phoneNumber : value) : Body :=
  posted [("code", code); ("phoneNumber", phoneNumber)].

(** [VerificationAPI.verifyId({ userId, frontImage, backImage, documentType })] *)
Definition verifyId (userId frontImage backImage documentType : value) : Body :=
  posted [("userId", userId); ("frontImage", frontImage); ("backImage", backImage);
          ("documentType", documentType)].

(** The request a handler is given for a posted body: the validation chain
    of its route has run and found [errors] (none when the body passed). *)
Definition validated (errors : list json) (b : Body) : Request :=
  {| req_raw := stringify (body_json b); req_body := b;
     req_signature := None; req_param := ""; req_errors := errors |}.

End Client.

(** * Properties *)

(** ** Fixtures for concrete runs *)

Module Fixture.

Definition U : string := "3f2b8c1e-5d4a-4c6b-9e7f-0a1b2c3d4e5f".

Definition env_at (t : Z) (answer : Result value) : Env :=
  {| now := t; uuid := "c0ffee00-0000-4000-8000-000000000001";
     provider := answer;
     redis_get_fails := false; redis_set_fails := false; redis_del_fails := false;
     DIDIT_WEBHOOK_SECRET := Some "whsec_test";
     DIDIT_WORKFLOW_ID := Some "wf-1";
     APP_URL := Some "http://localhost:3000";
     FRONTEND_URL := Some "http://localhost:3001" |}.

Definition session_answer : Result value :=
  Ok (Some (JObj [("session_id", JStr "sess-1"); ("session_number", JNum 7);
                  ("session_token", JStr "tok"); ("url", JStr "https://verify.didit.me/s/1");
                  ("status", JStr "Not Started")])).

Definition upstream (st : Z) : Result value :=
  Throw {| err_message := "Request failed with status code " ++ string_of_Z st;
           err_response := Some {| resp_status := st;
                                   resp_data := Some (JObj [("detail", JStr "x")]);
                                   resp_retry_after := jstr "30" |} |}.

Definition network_down : Result value := Throw (plain_error "connect ECONNREFUSED").

Definition empty_world : World := {| users := ∅; cache := ∅; trace := [] |}.

Definition row (ks : KycStatus) (retries : Z) : User :=
  mkUser U "u@example.com" ks None None None false retries None false false None false.

Definition row_with_phone (phone : string) : User :=
  mkUser U "u@example.com" VERIFIED (Some "DIDIT") (Some 2000) None true 1 (Some 1000)
    true true (Some phone) false.

Definition world_with (u : User) : World :=
  {| users := {[ id u := u ]}; cache := ∅; trace := [] |}.

Definition json_request (b : list (string * json)) : Request :=
  {| req_raw := stringify (JObj b); req_body := BObject b; req_signature := None;
     req_param := ""; req_errors := [] |}.

Definition with_signature (sig : string) (req : Request) : Request :=
  {| req_raw := req_raw req; req_body := req_body req; req_signature := Some sig;
     req_param := req_param req; req_errors := req_errors req |}.

Definition create_request : Request := json_request [("userId", JStr U)].

Definition status_request : Request :=
  {| req_raw := ""; req_body := BObject []; req_signature := None;
     req_param := U; req_errors := [] |}.

(** A webhook signed over the text that [handleWebhook] hashes. *)
Definition signed (b : list (string * json)) : Request :=
  {| req_raw := stringify (JObj b); req_body := BObject b;
     req_signature := Some (Crypto.hmac_hex "whsec_test" (stringify (JObj b)));
     req_param := ""; req_errors := [] |}.

Definition approved_payload : list (string * json) :=
  [("session_id", JStr "sess-1");
   ("status", JStr "Approved");
   ("webhook_type", JStr "status.updated");
   ("vendor_data", JStr U);
   ("decision",
    JObj [("id_verification", JObj [("status", JStr "Approved")]);
          ("phone_verification",
           JObj [("status", JStr "Approved"); ("phone_number", JStr "+15551234567")])])].

End Fixture.

Import Fixture.

(** ** Vocabulary of the statements *)

(** How many requests to the provider a trace holds. *)
Fixpoint provider_calls (tr : list Event) : nat :=
  match tr with
  | [] => 0%nat
  | EvProvider _ _ :: r => S (provider_calls r)
  | EvLog _ _ :: r => provider_calls r
  end.

(** The status the provider answered with, if it answered. *)
Definition upstream_status (e : Error) : option Z := resp_status <$> err_response e.

(** A property of the JSON body of a response. *)
Definition field (k : string) (r : Response) : value := get_opt k (body r).

Definition upstream_401 : Error :=
  {| err_message := "Request failed with status code 401";
     err_response := Some {| resp_status := 401;
                             resp_data := Some (JObj [("detail", JStr "Invalid API key")]);
                             resp_retry_after := None |} |}.

Definition status_of (r : Result Response) : option Z :=
  match r with Ok resp => Some (status resp) | Throw _ => None end.

Definition logged_in (w : World) (e : Event) : World :=
  {| users := users w; cache := cache w; trace := e :: trace w |}.

Definition approved_decision : json :=
  JObj [("id_verification", JObj [("status", JStr "Approved")]);
        ("phone_verification",
         JObj [("status", JStr "Approved"); ("phone_number", JStr "+15551234567")])].

(** Every normal return of [c] satisfies [P]. *)
Definition if_ok {A} (P : A -> Prop) (c : M A) : Prop :=
  forall w a w', c w = (Ok a, w') -> P a.

(** [c] always returns normally, with a value that satisfies [P]. *)
Definition always {A} (P : A -> Prop) (c : M A) : Prop :=
  forall w, exists a w', c w = (Ok a, w') /\ P a.

(** The request carries the hexadecimal HMAC-SHA256, under the configured
    secret, of the text [JSON.stringify(req.body)]. *)
Definition authentic (env : Env) (req : Request) : Prop :=
  exists sig secret,
    req_signature req = Some sig /\ DIDIT_WEBHOOK_SECRET env = Some secret /\
    sig <> "" /\ secret <> "" /\
    sig = Crypto.hmac_hex secret (stringify (body_json (req_body req))).

Definition unauthorized : Response := respond 401 [("error", jstr "Invalid signature")].

Definition acknowledged (r : Response) : Prop :=
  status r = 200 /\ field "received" r = jbool true.

(** A body as a sender that puts a space after [:] and [,] writes it. *)
Definition spaced (fields : list (string * json)) : string :=
  "{" ++ join ", " (map (fun kv => quote (fst kv) ++ ": " ++ stringify (snd kv)) fields) ++ "}".

Definition in_review_payload : list (string * json) :=
  [("session_id", JStr "sess-1");
   ("status", JStr "In Review");
   ("webhook_type", JStr "status.updated");
   ("vendor_data", JStr U)].

(** The webhook of a sender that signs the bytes it sends. *)
Definition raw_signed_request : Request :=
  {| req_raw := spaced in_review_payload;
     req_body := BObject in_review_payload;
     req_signature := Some (Crypto.hmac_hex "whsec_test" (spaced in_review_payload));
     req_param := ""; req_errors := [] |}.

(** The same environment with other luck on the Redis commands. *)
Definition with_redis (g s d : bool) (env : Env) : Env :=
  {| now := now env; uuid := uuid env; provider := provider env;
     redis_get_fails := g; redis_set_fails := s; redis_del_fails := d;
     DIDIT_WEBHOOK_SECRET := DIDIT_WEBHOOK_SECRET env;
     DIDIT_WORKFLOW_ID := DIDIT_WORKFLOW_ID env;
     APP_URL := APP_URL env; FRONTEND_URL := FRONTEND_URL env |}.

Fixpoint provider_requests (tr : list Event) : list (string * value) :=
  match tr with
  | [] => []
  | EvProvider ep p :: r => (ep, p) :: provider_requests r
  | EvLog _ _ :: r => provider_requests r
  end.

(** What a caller and the user table can tell of a run: the answer, the
    rows, and what was asked of the provider. *)
Definition outcome (x : Result Response * World)
  : Result Response * gmap string User * list (string * value) :=
  (fst x, users (snd x), provider_requests (trace (snd x))).

(** Two worlds that differ in the cache and in the log only. *)
Definition agree (w1 w2 : World) : Prop :=
  users w1 = users w2 /\ provider_requests (trace w1) = provider_requests (trace w2).

(** Two computations that cannot be told apart on such worlds. *)
Definition sim {A} (c1 c2 : M A) : Prop :=
  forall w1 w2, agree w1 w2 ->
    fst (c1 w1) = fst (c2 w2) /\ agree (snd (c1 w1)) (snd (c2 w2)).

(** The rows that were there before the request are still as they were. *)
Definition rows_kept (w w' : World) : Prop :=
  forall i u, users w !! i = Some u -> users w' !! i = Some u.

(** The column an assignment writes. *)
Definition column (a : Assign) : nat :=
  match a with
  | SetKycStatus _ => 0 | SetKycProvider _ => 1 | SetKycCompletedAt _ => 2
  | SetKycDetails _ => 3 | SetTradingEnabled _ => 4 | SetVerificationRetries _ => 5
  | SetLastVerificationAttempt _ => 6 | SetIdVerified _ => 7 | SetPhoneVerified _ => 8
  | SetPhoneNumber _ => 9
  end%nat.

(** What one accepted delivery writes into the user's row, if its first
    update is well-formed: the assignments of [handleStatusUpdate] or
    [handleDataUpdate], then those of [triggerPostVerificationActions]. *)
Definition webhook_writes (env : Env) (payload : json) : option (list Assign) :=
  let status := get "status" payload in
  let decision := get "decision" payload in
  let first :=
    if eq_str (get "webhook_type" payload) "status.updated"
    then status_update_data env status decision
    else if eq_str (get "webhook_type" payload) "data.updated"
    then match decision with
         | Some d => if truthy decision then [SetKycDetails (stringify d)] else []
         | None => []
         end
    else [] in
  let second :=
    if eq_str status "Approved" && truthy decision then [SetTradingEnabled true] else [] in
  if forallb assign_valid first then Some (first ++ second)%list else None.

Definition rows_after (env : Env) (payload : json) (us : gmap string User)
  : gmap string User :=
  match get "vendor_data" payload, webhook_writes env payload with
  | Some (JStr i), Some data =>
      match us !! i with
      | Some u => <[i := apply_data data u]> us
      | None => us
      end
  | _, _ => us
  end.

(** No counter among the columns written, and the trading flag only ever
    set. *)
Definition benign (a : Assign) : Prop :=
  match a with
  | SetVerificationRetries _ => False
  | SetTradingEnabled b => b = true
  | _ => True
  end.

(** *** The service as a whole *)

Definition Handler : Type := Env -> Request -> M Response.

(** The routes of [server.js] and [verificationRoutes.js] that reach the
    user table, the cache or the provider. *)
Inductive Route : Type :=
| SessionCreate    (* POST /api/v1/verification/session/create *)
| SessionRetrieve  (* GET  /api/v1/verification/session/:sessionId *)
| PhoneSend        (* POST /api/v1/verification/phone/send *)
| PhoneCheck       (* POST /api/v1/verification/phone/check *)
| IdVerify         (* POST /api/v1/verification/id/verify *)
| Webhook          (* POST /api/v1/verification/webhook *)
| Status           (* GET  /api/v1/verification/status/:userId *)
| DiditInitiate    (* POST /api/v1/didit/initiate *)
| DiditWebhook     (* POST /api/v1/didit/webhook *)
| DiditStatus.     (* GET  /api/v1/didit/status/:userId *)

Definition handler (r : Route) : Handler :=
  match r with
  | SessionCreate => createVerificationSession
  | SessionRetrieve => retrieveSession
  | PhoneSend => sendPhoneVerificationCode
  | PhoneCheck => checkPhoneVerificationCode
  | IdVerify => verifyIdDocument
  | Webhook => handleWebhook
  | Status => fun _ req => getUserVerificationStatus req
  | DiditInitiate => Legacy.initiateDiditVerification
  | DiditWebhook => Legacy.diditWebhookHandler
  | DiditStatus => fun _ req => Legacy.checkVerificationStatus req
  end.

(** One request as the service meets it. *)
Record Call : Type := {
  route : Route;
  call_env : Env;
  call_req : Request
}.

Definition serve1 (w : World) (c : Call) : World :=
  snd (handler (route c) (call_env c) (call_req c) w).

(** The world after the requests [calls], served one after the other:
    no request starts before the one before it has been answered. *)
Definition serve (calls : list Call) (w : World) : World := fold_left serve1 calls w.

(** The service at start: no user yet. *)
Definition fresh (c : gmap string (json * Z)) (tr : list Event) : World :=
  {| users := ∅; cache := c; trace := tr |}.

(** What a request may do to a row. *)
Definition evolves (u u' : User) : Prop :=
  id u' = id u /\ email u' = email u /\ emailVerified u' = emailVerified u /\
  (tradingEnabled u = true -> tradingEnabled u' = true) /\
  (verificationRetries u' = verificationRetries u \/
   (verificationRetries u' = verificationRetries u + 1 /\
    verificationRetries u < MAX_VERIFICATION_RETRIES)) /\
  (kycStatus u' = VERIFIED ->
   kycCompletedAt u' <> None \/
   (kycStatus u = VERIFIED /\ kycCompletedAt u' = kycCompletedAt u)).

(** A rewrite of a row that leaves its counter, its status and its time of
    completion alone. *)
Definition quiet (u u' : User) : Prop :=
  id u' = id u /\ email u' = email u /\ emailVerified u' = emailVerified u /\
  (tradingEnabled u = true -> tradingEnabled u' = true) /\
  verificationRetries u' = verificationRetries u /\
  kycStatus u' = kycStatus u /\ kycCompletedAt u' = kycCompletedAt u.

Definition quiet_assign (a : Assign) : Prop :=
  benign a /\ column a <> 0%nat /\ column a <> 2%nat.

(** A rewrite of a row that neither verifies the user nor enables
    trading. *)
Definition unpromoted (u u' : User) : Prop :=
  (tradingEnabled u' = true -> tradingEnabled u = true) /\
  (kycStatus u' = VERIFIED -> kycStatus u = VERIFIED).

(** What a request may do to the table: at most one row, [k], is created
    or rewritten, and none is deleted.  [R] relates the row before (for a
    new row: as it is inserted) to the row after. *)
Definition step_rel (R : User -> User -> Prop) (w w' : World) : Prop :=
  exists k,
    (forall i, i <> k -> users w' !! i = users w !! i) /\
    match users w !! k, users w' !! k with
    | Some u, Some u' => R u u'
    | None, Some u' =>
        exists e, R (new_user k e) u' /\ email_taken e (users w) = false
    | Some _, None => False
    | None, None => True
    end.

Definition step_ok : World -> World -> Prop := step_rel evolves.

(** What the routes other than the webhooks may do to a row. *)
Definition ordinary (u u' : User) : Prop := evolves u u' /\ unpromoted u u'.

(** The facts that hold of every row the service can hold. *)
Definition row_ok (i : string) (u : User) : Prop :=
  id u = i /\
  0 <= verificationRetries u <= MAX_VERIFICATION_RETRIES /\
  (kycStatus u = VERIFIED -> kycCompletedAt u <> None).

Definition table_ok (us : gmap string User) : Prop :=
  (forall i u, us !! i = Some u -> row_ok i u) /\
  (forall i j u v, us !! i = Some u -> us !! j = Some v -> email u = email v -> i = j).

Definition call (r : Route) (env : Env) (req : Request) : Call :=
  {| route := r; call_env := env; call_req := req |}.

(** A user's way through the service: a session, then the provider's
    approval. *)
Definition journey : list Call :=
  [call SessionCreate (env_at 1000 session_answer) create_request;
   call Webhook (env_at 2000 session_answer) (signed approved_payload)].

(** Whether the row update of an accepted delivery goes through: the
    user is named by a string, has a row, and the columns are
    well-formed. *)
Definition webhook_updates (env : Env) (payload : json) (us : gmap string User) : bool :=
  let decision := get "decision" payload in
  let updates (data : list Assign) :=
    match get "vendor_data" payload with
    | Some (JStr i) => forallb assign_valid data && bool_decide (is_Some (us !! i))
    | _ => false
    end in
  if eq_str (get "webhook_type" payload) "status.updated"
  then updates (status_update_data env (get "status" payload) decision)
  else if eq_str (get "webhook_type" payload) "data.updated"
  then (if truthy decision then updates [] else true)
  else true.

(** The key and the entry that session creation stores. *)
Definition session_key (session_id : value) : string :=
  "didit:session:" ++ template session_id.

Definition session_entry (env : Env) (userId : value) (data : json) : json * Z :=
  (obj [("userId", userId);
        ("correlationId", jstr (uuid env));
        ("initiatedAt", jnum (now env));
        ("sessionNumber", get "session_number" data)],
   SESSION_TTL).

(** A [data.updated] delivery that reports an approved session. *)
Definition data_update_payload : list (string * json) :=
  [("session_id", JStr "sess-1");
   ("status", JStr "Approved");
   ("webhook_type", JStr "data.updated");
   ("vendor_data", JStr U);
   ("decision", JObj [("id_verification", JObj [("status", JStr "Declined")])])].

(** The provider's answer to a document check. *)
Definition document_answer : json :=
  JObj [("status", JStr "Approved"); ("document_type", JStr "passport");
        ("first_name", JStr "Ada")].


(** The request that took [w] to [w'] put [e] into the log. *)
Definition emitted (w w' : World) (e : Event) : Prop :=
  exists l, trace w' = (l ++ trace w)%list /\ In e l.

(** No id without a row has one afterwards. *)
Definition no_new_rows (w w' : World) : Prop :=
  forall i, users w !! i = None -> users w' !! i = None.

(** * Proofs *)

(** ** The model of [node:crypto] against published test vectors *)

Example sha256_abc :
  Crypto.hex (Crypto.sha256 (Crypto.bytes_of_string "abc"))
  = "ba7816bf8f01cfea414140de5dae2223b00361a396177a9cb410ff61f20015ad".
Proof. vm_compute. reflexivity. Qed.

Example sha256_two_blocks :
  Crypto.hex (Crypto.sha256 (Crypto.bytes_of_string
    "abcdbcdecdefdefgefghfghighijhijkijkljklmklmnlmnomnopnopq"))
  = "248d6a61d20638b8e5c026930c3e6039a33ce45964ff2167f6ecedd419db06c1".
Proof. vm_compute. reflexivity. Qed.

Example hmac_sha256_rfc4231_case2 :
  Crypto.hmac_hex "Jefe" "what do ya want for nothing?"
  = "5bdcc146bf60754e6a042426089575c75a003f089d2739839dec58b964ec3843".
Proof. vm_compute. reflexivity. Qed.

(** ** A complete run

    A session is created for a new user, the provider approves, and the
    status endpoint shows the verified row with the phone number masked. *)
Example session_then_approval :
  let created := createVerificationSession (env_at 1000 session_answer) create_request
                   empty_world in
  let approved := handleWebhook (env_at 2000 session_answer) (signed approved_payload)
                    (snd created) in
  let shown := getUserVerificationStatus status_request (snd approved) in
  status_of (fst created) = Some 201 /\
  (exists r, fst created = Ok r /\ get_opt "retriesUsed" (field "data" r) = jnum 1) /\
  status_of (fst approved) = Some 200 /\
  (exists r, fst shown = Ok r /\ status r = 200 /\
     get_opt "kycStatus" (field "data" r) = jstr "VERIFIED" /\
     get_opt "idVerified" (field "data" r) = jbool true /\
     get_opt "phoneVerified" (field "data" r) = jbool true /\
     get_opt "tradingEnabled" (field "data" r) = jbool true /\
     get_opt "phoneNumber" (field "data" r) = jstr "***4567").
Proof.
  vm_compute. split; [reflexivity|]. split; [eexists; split; reflexivity|].
  split; [reflexivity|]. eexists. repeat split; reflexivity.
Qed.

(** ** Symbolic execution of a handler

    The monad operations are unfolded on the current world, and the run
    branches on the first condition that is still undecided. *)

Arguments Crypto.hmac_hex : simpl never.
Arguments stringify : simpl never.
Arguments template : simpl never.
Arguments string_of_Z : simpl never.

Ltac unfold_monad :=
  cbv beta iota zeta delta
    [bind try_catch ret throw lift log emit axios destructure
     prisma_findUnique prisma_create prisma_update
     redis_get redis_set redis_del fst snd users cache trace] in *.

Ltac case_atom :=
  match goal with
  | |- context [match ?x with _ => _ end] =>
      lazymatch x with
      | context [match _ with _ => _ end] => fail
      | _ => destruct x eqn:?
      end
  end.

Ltac exec :=
  repeat (unfold_monad; simpl; rewrite ?lookup_insert_eq; try case_atom).

(** ** Error mapping (C8) *)

(** No failure is answered with a success status. *)
Lemma handleDiditApiError_not_200 e : status (handleDiditApiError e) <> 200.
Proof.
  unfold handleDiditApiError. cbv zeta. repeat case_bool_decide; discriminate.
Qed.

Lemma handleDiditApiError_not_201 e : status (handleDiditApiError e) <> 201.
Proof.
  unfold handleDiditApiError. cbv zeta. repeat case_bool_decide; discriminate.
Qed.

(** C8, counterexample: the claim files an upstream 401 under the
    authentication error of the taxonomy, which is a 401; the handler
    answers an upstream 401 with a 500. *)
Lemma upstream_401_not_answered_401 :
  upstream_status upstream_401 = Some 401 /\
  status (handleDiditApiError upstream_401) = 500 /\
  status (handleDiditApiError upstream_401) <> 401.
Proof. vm_compute. repeat split; congruence. Qed.

Lemma createVerificationSession_calls env req w :
  (provider_calls (trace (snd (createVerificationSession env req w)))
   <= S (provider_calls (trace w)))%nat.
Proof. unfold createVerificationSession. exec; lia. Qed.

Lemma retrieveSession_calls env req w :
  (provider_calls (trace (snd (retrieveSession env req w)))
   <= S (provider_calls (trace w)))%nat.
Proof. unfold retrieveSession. exec; lia. Qed.

Lemma sendPhoneVerificationCode_calls env req w :
  (provider_calls (trace (snd (sendPhoneVerificationCode env req w)))
   <= S (provider_calls (trace w)))%nat.
Proof. unfold sendPhoneVerificationCode. exec; lia. Qed.

Lemma checkPhoneVerificationCode_calls env req w :
  (provider_calls (trace (snd (checkPhoneVerificationCode env req w)))
   <= S (provider_calls (trace w)))%nat.
Proof. unfold checkPhoneVerificationCode. exec; lia. Qed.

Lemma verifyIdDocument_calls env req w :
  (provider_calls (trace (snd (verifyIdDocument env req w)))
   <= S (provider_calls (trace w)))%nat.
Proof. unfold verifyIdDocument. exec; lia. Qed.

(** C8 (amended): every failure of a provider call is answered with exactly
    one response chosen by the upstream status: 400 gives 400, 429 gives 429
    with the provider's retry-after value, 404 gives 404, 403 gives a 500
    "Permission denied", 401 gives a 500 "Authentication failed" (not a
    401), and anything else, a failure without an answer included, gives
    502; no handler asks the provider a second time. *)
Theorem upstream_errors_mapped_without_retry (e : Error) (env : Env) (req : Request) (w : World) :
  let r := handleDiditApiError e in
  (upstream_status e = Some 400 ->
   status r = 400 /\ field "error" r = jstr "Invalid request") /\
  (upstream_status e = Some 429 ->
   status r = 429 /\ field "error" r = jstr "Rate limit exceeded" /\
   field "retryAfter" r = err_response e ≫= resp_retry_after) /\
  (upstream_status e = Some 404 ->
   status r = 404 /\ field "error" r = jstr "Resource not found") /\
  (upstream_status e = Some 403 ->
   status r = 500 /\ field "error" r = jstr "Permission denied") /\
  (upstream_status e = Some 401 ->
   status r = 500 /\ field "error" r = jstr "Authentication failed") /\
  (upstream_status e <> Some 400 -> upstream_status e <> Some 429 ->
   upstream_status e <> Some 404 -> upstream_status e <> Some 403 ->
   upstream_status e <> Some 401 ->
   status r = 502 /\ field "error" r = jstr "Service unavailable") /\
  (forall h, In h [createVerificationSession; retrieveSession; sendPhoneVerificationCode;
                   checkPhoneVerificationCode; verifyIdDocument] ->
     (provider_calls (trace (snd (h env req w))) <= S (provider_calls (trace w)))%nat).
Proof.
  unfold upstream_status, handleDiditApiError.
  repeat split; intros; repeat case_bool_decide; simplify_eq/=; try done.
  - destruct e as [m [[st d [ra|]]|]]; simplify_eq/=; done.
  - repeat match goal with H : _ \/ _ |- _ => destruct H as [<-|H] end;
      auto using createVerificationSession_calls, retrieveSession_calls,
        sendPhoneVerificationCode_calls, checkPhoneVerificationCode_calls,
        verifyIdDocument_calls.
    done.
Qed.

Lemma upstream_errors_mapped_without_retry_witness :
  upstream_status upstream_401 = Some 401 /\
  status (handleDiditApiError upstream_401) = 500 /\
  upstream_status (plain_error "connect ECONNREFUSED") = None /\
  status (handleDiditApiError (plain_error "connect ECONNREFUSED")) = 502.
Proof.
  pose proof (upstream_errors_mapped_without_retry upstream_401
                (env_at 0 network_down) create_request empty_world) as H1.
  pose proof (upstream_errors_mapped_without_retry (plain_error "connect ECONNREFUSED")
                (env_at 0 network_down) create_request empty_world) as H2.
  destruct H1 as (_ & _ & _ & _ & H401 & _).
  destruct H2 as (_ & _ & _ & _ & _ & Hother & _).
  split; [reflexivity|]. split; [apply H401; reflexivity|].
  split; [reflexivity|]. apply Hother; discriminate.
Defined.

(** ** Phone masking (C9) *)

Lemma take_drop (n : nat) (s : string) : take n s ++ drop n s = s.
Proof.
  revert s; induction n as [|n IH]; intros [|c r]; simpl; try reflexivity.
  change (String c (take n r ++ drop n r) = String c r). now rewrite IH.
Qed.

Lemma length_drop (n : nat) (s : string) :
  String.length (drop n s) = (String.length s - n)%nat.
Proof.
  revert s; induction n as [|n IH]; intros [|c r]; simpl; try reflexivity.
  apply IH.
Qed.

Lemma truthy_nonempty (p : string) : p <> "" -> truthy (jstr p) = true.
Proof. intros Hp. simpl. destruct (String.eqb_spec p ""); [contradiction | reflexivity]. Qed.

(** The empty string is falsy: it is shown as [null], by the masking
    function and by the status endpoint alike. *)
Lemma maskPhoneNumber_empty : maskPhoneNumber (jstr "") = Ok (Some JNull).
Proof. reflexivity. Qed.

(** The mask of a string that is not empty. *)
Lemma mask_string (p : string) :
  p <> "" -> maskPhoneNumber (jstr p) = Ok (jstr (mask p)).
Proof.
  intros Hp. unfold maskPhoneNumber. rewrite (truthy_nonempty p Hp). reflexivity.
Qed.

Lemma sendPhoneVerificationCode_passes_through env req w r :
  fst (sendPhoneVerificationCode env req w) = Ok r -> status r = 200 ->
  provider env = Ok (body r).
Proof.
  destruct w as [us ca tr]. unfold sendPhoneVerificationCode.
  exec; intros [= <-] Hst; try discriminate Hst; try reflexivity;
    exfalso; revert Hst; apply handleDiditApiError_not_200.
Qed.

Lemma checkPhoneVerificationCode_passes_through env req w r :
  fst (checkPhoneVerificationCode env req w) = Ok r -> status r = 200 ->
  provider env = Ok (body r).
Proof.
  destruct w as [us ca tr]. unfold checkPhoneVerificationCode.
  exec; intros [= <-] Hst; try discriminate Hst; try reflexivity;
    exfalso; revert Hst; apply handleDiditApiError_not_200.
Qed.

(** C9, counterexample: [/phone/send] hands the provider's body to the
    caller as it is.  The body repeats the number the code was sent to,
    twelve characters long, and the caller reads it in full, not as
    [***2671]. *)
Lemma phone_send_echoes_full_number :
  let answer := JObj [("request_id", JStr "req-1"); ("phone_number", JStr "+14155552671");
                      ("status", JStr "Success")] in
  let out := sendPhoneVerificationCode (env_at 1000 (Ok (Some answer)))
               (json_request [("phone_number", JStr "+14155552671")]) empty_world in
  (4 < String.length "+14155552671")%nat /\
  maskPhoneNumber (jstr "+14155552671") = Ok (jstr "***2671") /\
  exists r, fst out = Ok r /\ status r = 200 /\
            field "phone_number" r = jstr "+14155552671".
Proof.
  vm_compute. split; [lia|]. split; [reflexivity|].
  eexists. repeat split.
Qed.

(** C9, as amended: the masking function gives [***] and the last four
    characters for a number longer than four, the number itself for one
    of one to four characters, and [null] for the empty string; this is
    what [GET /status/:userId] shows as [phoneNumber] ([null] for a user
    without a number).  The two phone routes do not mask: a 200 answer of
    theirs is the provider's body, unchanged. *)
Theorem phone_number_masked :
  (forall p : string,
     (p = "" -> maskPhoneNumber (jstr p) = Ok (Some JNull)) /\
     (p <> "" -> (String.length p <= 4)%nat -> maskPhoneNumber (jstr p) = Ok (jstr p)) /\
     ((4 < String.length p)%nat ->
      exists hidden last4,
        p = hidden ++ last4 /\ String.length last4 = 4%nat /\
        maskPhoneNumber (jstr p) = Ok (jstr ("***" ++ last4)))) /\
  (forall req w u,
     users w !! req_param req = Some u ->
     exists r, getUserVerificationStatus req w = (Ok r, w) /\ status r = 200 /\
               Ok (get_opt "phoneNumber" (field "data" r))
               = match phoneNumber u with
                 | Some p => maskPhoneNumber (jstr p)
                 | None => Ok (Some JNull)
                 end) /\
  (forall env req w r,
     (fst (sendPhoneVerificationCode env req w) = Ok r \/
      fst (checkPhoneVerificationCode env req w) = Ok r) ->
     status r = 200 -> provider env = Ok (body r)).
Proof.
  split; [|split].
  - intros p. split; [intros ->; reflexivity|]. split.
    + intros Hp Hlen. rewrite (mask_string p Hp). unfold mask.
      destruct (Nat.leb_spec (String.length p) 4); [reflexivity | lia].
    + intros Hlen.
      assert (p <> "") as Hp by (intros ->; simpl in Hlen; lia).
      exists (take (String.length p - 4) p), (slice_last 4 p).
      split; [symmetry; apply take_drop|]. split.
      * unfold slice_last. rewrite length_drop. lia.
      * rewrite (mask_string p Hp). unfold mask.
        destruct (Nat.leb_spec (String.length p) 4); [lia | reflexivity].
  - intros req [us ca tr] u Hu. simpl in Hu.
    unfold getUserVerificationStatus, jstr in *.
    cbv beta iota zeta delta [bind try_catch ret lift prisma_findUnique users].
    rewrite Hu.
    destruct u as [i e ks [kp|] [kc|] kd te vr [la|] iv pv [pn|] ev]; cbn [col_str phoneNumber];
      try (eexists; split; [reflexivity|]; split; reflexivity).
    all: destruct (String.eqb_spec pn "") as [->|Hne];
      [eexists; split; [reflexivity|]; split; reflexivity|].
    all: pose proof (truthy_nonempty pn Hne) as Ht; unfold jstr in Ht; rewrite Ht;
      pose proof (mask_string pn Hne) as Hm; unfold jstr in Hm; rewrite Hm;
      eexists; split; [reflexivity|]; split; reflexivity.
  - intros env req w r [H|H] Hst;
      eauto using sendPhoneVerificationCode_passes_through,
        checkPhoneVerificationCode_passes_through.
Qed.

Lemma phone_number_masked_witness :
  let w := world_with (row_with_phone "+15551234567") in
  (4 < String.length "+15551234567")%nat /\
  (exists hidden last4,
     "+15551234567" = hidden ++ last4 /\ String.length last4 = 4%nat /\
     maskPhoneNumber (jstr "+15551234567") = Ok (jstr ("***" ++ last4))) /\
  "4567" <> "" /\ (String.length "4567" <= 4)%nat /\
  maskPhoneNumber (jstr "4567") = Ok (jstr "4567") /\
  maskPhoneNumber (jstr "") = Ok (Some JNull) /\
  users w !! req_param status_request = Some (row_with_phone "+15551234567") /\
  (exists r, getUserVerificationStatus status_request w = (Ok r, w) /\ status r = 200 /\
             Ok (get_opt "phoneNumber" (field "data" r))
             = maskPhoneNumber (jstr "+15551234567")).
Proof.
  intros w.
  assert (Hne' : "4567" <> "") by discriminate.
  assert (Hlen : (4 < String.length "+15551234567")%nat) by (simpl; lia).
  assert (Hlen' : (String.length "4567" <= 4)%nat) by (simpl; lia).
  assert (Hrow : users w !! req_param status_request
                 = Some (row_with_phone "+15551234567")) by (vm_compute; reflexivity).
  destruct phone_number_masked as (Hmask & Hstatus & _).
  destruct (Hmask "+15551234567") as (_ & _ & Hlong).
  destruct (Hmask "4567") as (_ & Hshort & _).
  destruct (Hmask "") as (Hempty & _).
  split; [exact Hlen|]. split; [exact (Hlong Hlen)|].
  split; [exact Hne'|]. split; [exact Hlen'|]. split; [exact (Hshort Hne' Hlen')|].
  split; [exact (Hempty eq_refl)|].
  split; [exact Hrow|]. exact (Hstatus status_request w _ Hrow).
Defined.

(** ** Session creation: the retry bound (C2) and the verified user (C3) *)

(** With two attempts on record, the request is turned away before the
    provider is asked. *)
Lemma createVerificationSession_at_bound env req w i u :
  has_errors req = false ->
  get "userId" (body_json (req_body req)) = Some (JStr i) ->
  users w !! i = Some u ->
  kycStatus u <> VERIFIED ->
  MAX_VERIFICATION_RETRIES <= verificationRetries u ->
  createVerificationSession env req w
  = (Ok (retries_exceeded u), logged_in w (EvLog Info "Creating verification session")).
Proof.
  intros Herr Hid Hu Hks Hn. destruct w as [us ca tr]. simpl in Hu.
  unfold createVerificationSession. rewrite Herr, Hid.
  unfold_monad. rewrite Hu.
  destruct (kycStatus u); try contradiction; simpl;
    destruct (Z.leb_spec MAX_VERIFICATION_RETRIES (verificationRetries u)); try lia;
    reflexivity.
Qed.

(** Below the bound, a provider answer makes the attempt count. *)
Lemma createVerificationSession_accepted env req w i u data :
  has_errors req = false ->
  get "userId" (body_json (req_body req)) = Some (JStr i) ->
  users w !! i = Some u ->
  kycStatus u <> VERIFIED ->
  verificationRetries u < MAX_VERIFICATION_RETRIES ->
  provider env = Ok (Some (JObj data)) ->
  let out := createVerificationSession env req w in
  fst out = Ok (session_created (JObj data) u) /\
  users (snd out) !! i
  = Some (apply_data [SetVerificationRetries (verificationRetries u + 1);
                      SetLastVerificationAttempt (now env)] u) /\
  provider_calls (trace (snd out)) = S (provider_calls (trace w)).
Proof.
  intros Herr Hid Hu Hks Hn Hp. destruct w as [us ca tr]. simpl in Hu.
  unfold createVerificationSession. rewrite Herr, Hid.
  unfold_monad. rewrite Hu, Hp.
  destruct (kycStatus u); try contradiction; simpl;
    destruct (Z.leb_spec MAX_VERIFICATION_RETRIES (verificationRetries u)); try lia;
    simpl; rewrite Hu; destruct (redis_set_fails env); simpl;
    rewrite lookup_insert_eq; auto.
Qed.

(** Three requests in a row for a new user, the provider answering each
    time: the first two create a session, the third is answered 429 and
    never reaches the provider. *)
Example third_session_attempt_refused :
  let env := env_at 1000 session_answer in
  let run1 := createVerificationSession env create_request empty_world in
  let run2 := createVerificationSession env create_request (snd run1) in
  let run3 := createVerificationSession env create_request (snd run2) in
  status_of (fst run1) = Some 201 /\
  status_of (fst run2) = Some 201 /\
  verificationRetries <$> users (snd run2) !! U = Some 2 /\
  status_of (fst run3) = Some 429 /\
  provider_calls (trace (snd run3)) = 2%nat.
Proof. vm_compute. repeat split. Qed.




(** The current handler looks at [kycStatus] first: a verified user gets
    the "already verified" answer whatever the retry counter says. *)
Lemma createVerificationSession_already_verified env req w i u :
  has_errors req = false ->
  get "userId" (body_json (req_body req)) = Some (JStr i) ->
  users w !! i = Some u ->
  kycStatus u = VERIFIED ->
  createVerificationSession env req w
  = (Ok (already_verified u), logged_in w (EvLog Info "Creating verification session")).
Proof.
  intros Herr Hid Hu Hks. destruct w as [us ca tr]. simpl in Hu.
  unfold createVerificationSession. rewrite Herr, Hid.
  unfold_monad. rewrite Hu, Hks. reflexivity.
Qed.

(** The legacy handler looks at the retry counter first. *)
Lemma initiateDiditVerification_checks_retries_first env req w i u :
  has_errors req = false ->
  get "userId" (body_json (req_body req)) = Some (JStr i) ->
  users w !! i = Some u ->
  Legacy.MAX_RETRIES <= verificationRetries u ->
  status_of (fst (Legacy.initiateDiditVerification env req w)) = Some 429.
Proof.
  intros Herr Hid Hu Hn. destruct w as [us ca tr]. simpl in Hu.
  unfold Legacy.initiateDiditVerification. rewrite Herr, Hid.
  unfold_monad. rewrite Hu.
  destruct (Z.leb_spec Legacy.MAX_RETRIES (verificationRetries u)); try lia.
  reflexivity.
Qed.

(** C3, the code at the failing input: a verified user who used both
    attempts.  [POST /verification/session/create] answers 200 "already
    verified"; [POST /didit/initiate] answers 429.  Neither asks the
    provider or touches the row. *)
Theorem legacy_initiate_refuses_verified_user :
  let env := env_at 1000 session_answer in
  let w := world_with (row VERIFIED 2) in
  let current := createVerificationSession env create_request w in
  let legacy := Legacy.initiateDiditVerification env create_request w in
  fst current = Ok (already_verified (row VERIFIED 2)) /\
  status_of (fst current) = Some 200 /\
  fst legacy = Ok (Legacy.retries_exceeded (row VERIFIED 2)) /\
  status_of (fst legacy) = Some 429 /\
  users (snd legacy) !! U = Some (row VERIFIED 2) /\
  provider_calls (trace (snd legacy)) = 0%nat.
Proof. vm_compute. repeat split. Qed.

(** ** The legacy signature check (C10) *)

Lemma length_hex bs : String.length (Crypto.hex bs) = (2 * length bs)%nat.
Proof. induction bs as [|b r IH]; simpl; [reflexivity | rewrite IH; lia]. Qed.

Lemma length_round st kw : length st = 8%nat -> length (Crypto.round st kw) = 8%nat.
Proof.
  do 9 (destruct st as [|? st]; try discriminate). reflexivity.
Qed.

Lemma length_rounds l st :
  length st = 8%nat -> length (fold_left Crypto.round l st) = 8%nat.
Proof.
  revert st. induction l as [|kw l IH]; intros st H; simpl; [exact H|].
  apply IH, length_round, H.
Qed.

Lemma length_compress h b : length h = 8%nat -> length (Crypto.compress h b) = 8%nat.
Proof.
  intros H. unfold Crypto.compress.
  rewrite length_map, length_combine, length_rounds by exact H. rewrite H. reflexivity.
Qed.

Lemma length_blocks n h bs : length h = 8%nat -> length (Crypto.blocks n h bs) = 8%nat.
Proof.
  revert h bs. induction n as [|n IH]; intros h bs H; simpl; [exact H|].
  destruct bs; [exact H|]. apply IH, length_compress, H.
Qed.

Lemma length_sha256 msg : length (Crypto.sha256 msg) = 32%nat.
Proof.
  unfold Crypto.sha256.
  pose proof (length_blocks (length (Crypto.pad msg)) Crypto.H0 (Crypto.pad msg) eq_refl) as H.
  destruct (Crypto.blocks _ _ _) as [|a l]; [discriminate|].
  do 8 (destruct l as [|? l]; try discriminate). reflexivity.
Qed.

Lemma length_hmac_hex key msg : String.length (Crypto.hmac_hex key msg) = 64%nat.
Proof.
  unfold Crypto.hmac_hex, Crypto.hmac_sha256. rewrite length_hex, length_sha256. reflexivity.
Qed.

(** Without a header, or with a signature that is not as long as the
    digest, the legacy verifier does not return. *)
Lemma verifyDiditSignature_throws env payload signature :
  signature = None \/
  (exists sig, signature = Some sig /\ String.length sig <> 64%nat) ->
  exists e, Legacy.verifyDiditSignature env payload signature = Throw e.
Proof.
  unfold Legacy.verifyDiditSignature, Crypto.timingSafeEqual.
  destruct (DIDIT_WEBHOOK_SECRET env) as [secret|]; [|eauto].
  intros [->|(sig & -> & Hlen)]; [eauto|].
  rewrite length_hmac_hex.
  destruct (Nat.eqb_spec (String.length sig) 64); [contradiction | eauto].
Qed.

(** C10, the code at the failing input: without the signature header, or
    with a signature of another length than the digest, the legacy
    verifier throws; the handler has no [try] around it, so the request
    ends in an uncaught exception and no 401 is sent.  The current handler
    answers the same request with a 401. *)
Theorem legacy_signature_check_throws :
  let env := env_at 1000 session_answer in
  let w := world_with (row PENDING 1) in
  let bare := json_request approved_payload in
  let short := with_signature "deadbeef" bare in
  (exists e, Legacy.verifyDiditSignature env (JObj approved_payload) None = Throw e /\
             fst (Legacy.diditWebhookHandler env bare w) = Throw e) /\
  (exists e, Legacy.verifyDiditSignature env (JObj approved_payload) (Some "deadbeef")
             = Throw e /\
             fst (Legacy.diditWebhookHandler env short w) = Throw e) /\
  fst (handleWebhook env bare w) = Ok unauthorized /\
  fst (handleWebhook env short w) = Ok unauthorized.
Proof.
  vm_compute. split; [eexists; split; reflexivity|].
  split; [eexists; split; reflexivity|]. split; reflexivity.
Qed.

(** ** Status reconciliation (C4) *)

Lemma eq_str_true (v : value) (lit : string) : eq_str v lit = true <-> v = jstr lit.
Proof.
  unfold eq_str, jstr. destruct v as [[| | |s| |]|]; split; try discriminate.
  - intros H. apply String.eqb_eq in H. now subst.
  - intros H. injection H as ->. apply String.eqb_refl.
Qed.

Lemma eq_str_false (v : value) (lit : string) : eq_str v lit = false <-> v <> jstr lit.
Proof.
  rewrite <- eq_str_true. destruct (eq_str v lit); split; congruence.
Qed.

(** [handleStatusUpdate] writes exactly the assignments of its
    [updateData] into the row named by [vendor_data]. *)
Lemma handleStatusUpdate_writes env i u status decision w :
  users w !! i = Some u ->
  forallb assign_valid (status_update_data env status decision) = true ->
  let out := handleStatusUpdate env (jstr i) status decision w in
  fst out = Ok tt /\
  users (snd out) = <[i := apply_data (status_update_data env status decision) u]> (users w) /\
  cache (snd out) = cache w.
Proof.
  intros Hu Hv. destruct w as [us ca tr]. simpl in Hu.
  unfold handleStatusUpdate, jstr. unfold_monad. rewrite Hv, Hu. auto.
Qed.

(** How the provider's [status] maps onto the row. *)
Lemma status_update_kyc env status decision u :
  let u' := apply_data (status_update_data env status decision) u in
  kycProvider u' = Some "DIDIT" /\
  (status = jstr "Approved" ->
   kycStatus u' = VERIFIED /\ kycCompletedAt u' = Some (now env)) /\
  (status = jstr "Declined" ->
   kycStatus u' = FAILED /\ kycCompletedAt u' = kycCompletedAt u) /\
  (status = jstr "In Review" ->
   kycStatus u' = PENDING /\ kycCompletedAt u' = kycCompletedAt u) /\
  (status <> jstr "Approved" -> status <> jstr "Declined" -> status <> jstr "In Review" ->
   kycStatus u' = kycStatus u /\ kycCompletedAt u' = kycCompletedAt u) /\
  verificationRetries u' = verificationRetries u /\
  tradingEnabled u' = tradingEnabled u.
Proof.
  destruct u as [i e ks kp kc kd te vr la iv pv pn ev].
  unfold status_update_data.
  destruct (eq_str status "Approved") eqn:E1;
    [|destruct (eq_str status "Declined") eqn:E2;
      [|destruct (eq_str status "In Review") eqn:E3]];
    rewrite ?eq_str_true, ?eq_str_false in *;
  (destruct decision as [d|]; [destruct (truthy (Some d))|];
   [destruct (truthy (get "id_verification" d));
    (destruct (truthy (get "phone_verification" d));
     [destruct (get_opt "phone_number" (get "phone_verification" d)) as [pn'|];
      [destruct (truthy (Some pn')); destruct pn'|]|])| |]);
  simpl; repeat split; intros; subst; try congruence; try discriminate.
Qed.

(** How the sub-verifications of [decision] map onto the row. *)
Lemma status_update_decision env status d u :
  truthy (Some d) = true ->
  forallb assign_valid (status_update_data env status (Some d)) = true ->
  let u' := apply_data (status_update_data env status (Some d)) u in
  let idv := get "id_verification" d in
  let phv := get "phone_verification" d in
  (truthy idv = true -> idVerified u' = eq_str (get_opt "status" idv) "Approved") /\
  (truthy idv = false -> idVerified u' = idVerified u) /\
  (truthy phv = true ->
   phoneVerified u' = eq_str (get_opt "status" phv) "Approved" /\
   (forall s, get_opt "phone_number" phv = Some (JStr s) -> s <> "" ->
              phoneNumber u' = Some s) /\
   (truthy (get_opt "phone_number" phv) = false -> phoneNumber u' = phoneNumber u)) /\
  (truthy phv = false ->
   phoneVerified u' = phoneVerified u /\ phoneNumber u' = phoneNumber u) /\
  kycDetails u' = Some (stringify d).
Proof.
  intros Hd. destruct u as [i e ks kp kc kd te vr la iv pv pn ev].
  unfold status_update_data. rewrite Hd.
  destruct (eq_str status "Approved");
    [|destruct (eq_str status "Declined"); [|destruct (eq_str status "In Review")]];
  (destruct (truthy (get "id_verification" d)) eqn:Ei;
   (destruct (truthy (get "phone_verification" d)) eqn:Ep;
    [destruct (get_opt "phone_number" (get "phone_verification" d)) as [pn'|] eqn:En;
     [destruct (truthy (Some pn')) eqn:Et; destruct pn'|]|]));
  simpl; intros Hv; repeat split; intros; simplify_eq; try congruence; try discriminate.
  all: try (exfalso; simpl in Et; apply Bool.negb_false_iff, String.eqb_eq in Et; congruence).
Qed.

(** C4, the code at the failing input: one signed [status.updated]
    webhook with status [Approved] and both sub-verifications approved,
    for a pending user.  [POST /verification/webhook] leaves the row
    verified, as the claim says; [POST /didit/webhook], which answers 200
    to the same request, leaves it failed, with no completion time, both
    flags false and no phone number. *)
Theorem legacy_webhook_fails_approved_user :
  let env := env_at 2000 session_answer in
  let w := world_with (row PENDING 1) in
  let current := handleWebhook env (signed approved_payload) w in
  let legacy := Legacy.diditWebhookHandler env (signed approved_payload) w in
  status_of (fst current) = Some 200 /\
  users (snd current) !! U
  = Some (mkUser U "u@example.com" VERIFIED (Some "DIDIT") (Some 2000)
            (Some (stringify approved_decision)) true 1 None true true
            (Some "+15551234567") false) /\
  status_of (fst legacy) = Some 200 /\
  users (snd legacy) !! U
  = Some (mkUser U "u@example.com" FAILED (Some "DIDIT") None
            (Some (stringify (JObj approved_payload))) false 1 None false false
            None false).
Proof. vm_compute. repeat split. Qed.

(** ** Reasoning about [try]/[catch] blocks *)

Lemma bind_run {A B} (c : M A) (k : A -> M B) (w : World) :
  bind c k w = match c w with
               | (Ok a, w') => k a w'
               | (Throw e, w') => (Throw e, w')
               end.
Proof. reflexivity. Qed.

Lemma if_ok_ret {A} (P : A -> Prop) (a : A) : P a -> if_ok P (ret a).
Proof. intros H w a' w' [= <- _]. exact H. Qed.

Lemma if_ok_bind {A B} (P : B -> Prop) (c : M A) (k : A -> M B) :
  (forall a, if_ok P (k a)) -> if_ok P (bind c k).
Proof.
  intros H w b w'. unfold bind. destruct (c w) as [[a|e] w1]; [apply H | discriminate].
Qed.

Lemma always_log_ret {A} (P : A -> Prop) (l : Level) (m : string) (a : A) :
  P a -> always P (log l m ;; ret a).
Proof. intros H w. eexists _, _. split; [reflexivity | exact H]. Qed.

Lemma always_try_catch {A} (P : A -> Prop) (c : M A) (h : Error -> M A) :
  if_ok P c -> (forall e, always P (h e)) -> always P (try_catch c h).
Proof.
  intros Hc Hh w. unfold try_catch. destruct (c w) as [[a|e] w1] eqn:E.
  - exists a, w1. split; [reflexivity | exact (Hc _ _ _ E)].
  - apply Hh.
Qed.

(** ** The webhook signature check (C1) and the acknowledgement (C6) *)

Lemma timingSafeEqual_true a b : Crypto.timingSafeEqual a b = Some true <-> a = b.
Proof.
  unfold Crypto.timingSafeEqual. split.
  - destruct (String.length a =? String.length b)%nat; [|discriminate].
    intros [= H]. now apply String.eqb_eq.
  - intros ->. rewrite Nat.eqb_refl, String.eqb_refl. reflexivity.
Qed.

(** [verifyWebhookSignature] never throws and changes nothing but the log. *)
Lemma verifyWebhookSignature_run env raw sig w :
  exists valid w1,
    verifyWebhookSignature env raw sig w = (Ok valid, w1) /\
    users w1 = users w /\ cache w1 = cache w /\
    provider_calls (trace w1) = provider_calls (trace w).
Proof.
  unfold verifyWebhookSignature.
  destruct sig as [sig|], (DIDIT_WEBHOOK_SECRET env) as [secret|];
    try (eexists _, _; split; [reflexivity | auto]).
  destruct (String.eqb sig "" || String.eqb secret "");
    try (eexists _, _; split; [reflexivity | auto]).
  destruct (Crypto.timingSafeEqual sig _);
    eexists _, _; (split; [reflexivity | auto]).
Qed.

(** It answers [true] exactly for an authentic request. *)
Lemma verifyWebhookSignature_true env req w :
  fst (verifyWebhookSignature env (stringify (body_json (req_body req)))
         (req_signature req) w) = Ok true
  <-> authentic env req.
Proof.
  unfold authentic, verifyWebhookSignature.
  destruct (req_signature req) as [sig|], (DIDIT_WEBHOOK_SECRET env) as [secret|];
    try (split; [discriminate | intros (? & ? & ? & ? & _); congruence]).
  destruct (String.eqb_spec sig ""), (String.eqb_spec secret ""); simpl;
    try (split; [discriminate | intros (? & ? & ? & ? & ? & ? & _); congruence]).
  destruct (Crypto.timingSafeEqual sig _) as [[]|] eqn:Ht; simpl.
  - apply timingSafeEqual_true in Ht. split; [|reflexivity].
    intros _. exists sig, secret. auto.
  - split; [discriminate|]. intros (s' & k' & Hs & Hk & _ & _ & Heq).
    injection Hs as <-. injection Hk as <-.
    apply timingSafeEqual_true in Heq. congruence.
  - split; [discriminate|]. intros (s' & k' & Hs & Hk & _ & _ & Heq).
    injection Hs as <-. injection Hk as <-.
    apply timingSafeEqual_true in Heq. congruence.
Qed.

(** The two ways out of [handleWebhook]. *)
Lemma handleWebhook_outcome env req w :
  exists r w', handleWebhook env req w = (Ok r, w') /\
    (authentic env req -> acknowledged r) /\
    (~ authentic env req ->
     r = unauthorized /\ users w' = users w /\ cache w' = cache w /\
     provider_calls (trace w') = provider_calls (trace w)).
Proof.
  pose proof (verifyWebhookSignature_true env req w) as Hauth.
  destruct (verifyWebhookSignature_run env (stringify (body_json (req_body req)))
              (req_signature req) w) as (valid & w1 & Hrun & Hus & Hca & Hpc).
  unfold handleWebhook. rewrite bind_run, Hrun. rewrite Hrun in Hauth. simpl in Hauth.
  destruct valid; simpl.
  - match goal with |- context [try_catch ?c ?h w1] =>
      destruct (always_try_catch acknowledged c h) with (w := w1) as (r & w' & Hr & Hack)
    end.
    + repeat (apply if_ok_bind; intros). apply if_ok_ret. split; reflexivity.
    + intros e. apply always_log_ret. split; reflexivity.
    + exists r, w'. split; [exact Hr|]. split; [auto|].
      intros Hn. exfalso. apply Hn, Hauth. reflexivity.
  - eexists _, _. split; [reflexivity|]. split.
    + intros Ha. apply Hauth in Ha. discriminate.
    + intros _. simpl. auto.
Qed.

(** C1, counterexample: the signature header is the HMAC-SHA256 of the
    exact bytes of the body under the shared secret, and [req.body] is what
    the JSON middleware parses from these bytes; the handler hashes
    [JSON.stringify(req.body)], a different text, and answers 401. *)
Lemma raw_body_signature_rejected :
  parsed_by_express raw_signed_request /\
  req_signature raw_signed_request
  = Some (Crypto.hmac_hex "whsec_test" (req_raw raw_signed_request)) /\
  DIDIT_WEBHOOK_SECRET (env_at 1000 session_answer) = Some "whsec_test" /\
  stringify (body_json (req_body raw_signed_request)) <> req_raw raw_signed_request /\
  fst (handleWebhook (env_at 1000 session_answer) raw_signed_request
         (world_with (row PENDING 1)))
  = Ok unauthorized.
Proof.
  split; [vm_compute; reflexivity|]. split; [reflexivity|]. split; [reflexivity|].
  split; [vm_compute; discriminate | vm_compute; reflexivity].
Qed.

(** C1 (amended): the handler compares the signature header with the
    HMAC-SHA256, under the shared secret, of [JSON.stringify(req.body)].
    When the secret is absent or empty, or the header is missing or empty,
    or the two differ, the answer is 401 "Invalid signature" and neither
    the user table nor the cache changes and the provider is not called;
    in every other case the answer is not a 401. *)
Theorem webhook_rejects_bad_signature (env : Env) (req : Request) (w : World) :
  let expected secret := Crypto.hmac_hex secret (stringify (body_json (req_body req))) in
  (DIDIT_WEBHOOK_SECRET env = None \/ DIDIT_WEBHOOK_SECRET env = Some "" \/
   req_signature req = None \/ req_signature req = Some "" \/
   (exists sig secret, req_signature req = Some sig /\
                       DIDIT_WEBHOOK_SECRET env = Some secret /\ sig <> expected secret))
  <->
  (exists w', handleWebhook env req w = (Ok unauthorized, w') /\
              users w' = users w /\ cache w' = cache w /\
              provider_calls (trace w') = provider_calls (trace w)).
Proof.
  intros expected.
  destruct (handleWebhook_outcome env req w) as (r & w' & Hrun & Hyes & Hno).
  split.
  - intros Hcause.
    assert (Hn : ~ authentic env req).
    { intros (sig & secret & Hs & Hk & Hs0 & Hk0 & Heq).
      destruct Hcause as [H|[H|[H|[H|(s' & k' & Hs' & Hk' & Hne)]]]]; try congruence.
      apply Hne. subst expected. simpl. congruence. }
    destruct (Hno Hn) as (-> & Hus & Hca & Hpc). eauto.
  - intros (w2 & Hrun2 & _). rewrite Hrun in Hrun2. injection Hrun2 as -> ->.
    destruct (DIDIT_WEBHOOK_SECRET env) as [secret|] eqn:Hk; [|auto].
    destruct (String.eqb_spec secret ""); [subst; auto|].
    destruct (req_signature req) as [sig|] eqn:Hs; [|auto].
    destruct (String.eqb_spec sig ""); [subst; auto|].
    do 4 right. exists sig, secret. split; [reflexivity|]. split; [reflexivity|].
    intros Heq. destruct Hyes as [Hst _]; [exists sig, secret; auto | discriminate].
Qed.

Lemma webhook_rejects_bad_signature_witness :
  req_signature (json_request approved_payload) = None /\
  exists w', handleWebhook (env_at 1000 session_answer) (json_request approved_payload)
               (world_with (row PENDING 1)) = (Ok unauthorized, w') /\
             users w' = users (world_with (row PENDING 1)) /\
             cache w' = cache (world_with (row PENDING 1)) /\
             provider_calls (trace w') = provider_calls (trace (world_with (row PENDING 1))).
Proof.
  split; [reflexivity|].
  apply (proj1 (webhook_rejects_bad_signature (env_at 1000 session_answer)
                  (json_request approved_payload) (world_with (row PENDING 1)))).
  right; right; left. reflexivity.
Defined.

(** The three ways out of the legacy handler. *)
Lemma diditWebhookHandler_outcome env req w :
  match Legacy.verifyDiditSignature env (body_json (req_body req)) (req_signature req) with
  | Ok true => exists r w', Legacy.diditWebhookHandler env req w = (Ok r, w') /\ acknowledged r
  | Ok false =>
      Legacy.diditWebhookHandler env req w
      = (Ok unauthorized, logged_in w (EvLog Warn "Invalid Didit webhook signature"))
  | Throw e => Legacy.diditWebhookHandler env req w = (Throw e, w)
  end.
Proof.
  unfold Legacy.diditWebhookHandler. rewrite bind_run. unfold lift.
  destruct (Legacy.verifyDiditSignature _ _ _) as [[]|e]; simpl; try reflexivity.
  match goal with |- context [try_catch ?c ?h w] =>
    destruct (always_try_catch acknowledged c h) with (w := w) as (r & w' & Hr & Hack)
  end.
  - repeat (apply if_ok_bind; intros). apply if_ok_ret. split; reflexivity.
  - intros e. apply always_log_ret. split; reflexivity.
  - eauto.
Qed.

(** C6: a webhook that passes the signature check is answered 200 with
    [received: true], whatever happens while it is processed; an answer
    other than 200 is the 401 of a failed signature check.  This holds for
    [POST /verification/webhook] and for [POST /didit/webhook]. *)
Theorem webhook_always_acknowledged (env : Env) (req : Request) (w : World) :
  let passes :=
    fst (verifyWebhookSignature env (stringify (body_json (req_body req)))
           (req_signature req) w) = Ok true in
  let passes_legacy :=
    Legacy.verifyDiditSignature env (body_json (req_body req)) (req_signature req)
    = Ok true in
  (exists r w', handleWebhook env req w = (Ok r, w') /\
                (passes -> acknowledged r) /\
                (status r <> 200 -> ~ passes /\ status r = 401)) /\
  (passes_legacy ->
   exists r w', Legacy.diditWebhookHandler env req w = (Ok r, w') /\ acknowledged r) /\
  (forall r w', Legacy.diditWebhookHandler env req w = (Ok r, w') ->
                status r <> 200 -> ~ passes_legacy /\ status r = 401).
Proof.
  intros passes passes_legacy. subst passes passes_legacy.
  pose proof (verifyWebhookSignature_true env req w) as Hauth.
  pose proof (diditWebhookHandler_outcome env req w) as Hleg.
  split; [|split].
  - destruct (handleWebhook_outcome env req w) as (r & w' & Hrun & Hyes & Hno).
    exists r, w'. split; [exact Hrun|]. split.
    + intros Hp. apply Hyes, Hauth, Hp.
    + intros Hst.
      assert (Hn : ~ authentic env req) by (intros Ha; destruct (Hyes Ha); contradiction).
      split; [rewrite Hauth; exact Hn|]. destruct (Hno Hn) as (-> & _). reflexivity.
  - intros Hp. rewrite Hp in Hleg. exact Hleg.
  - intros r w' Hrun Hst.
    destruct (Legacy.verifyDiditSignature _ _ _) as [[]|e].
    + destruct Hleg as (r2 & w2 & Hrun2 & Hack & _). congruence.
    + rewrite Hleg in Hrun. injection Hrun as <- _. split; [discriminate | reflexivity].
    + congruence.
Qed.

(** The witness is a signed webhook for a user without a row: the update
    throws inside the handler and the answer is still 200. *)
Lemma webhook_always_acknowledged_witness :
  let env := env_at 1000 session_answer in
  let req := signed approved_payload in
  fst (verifyWebhookSignature env (stringify (body_json (req_body req)))
         (req_signature req) empty_world) = Ok true /\
  Legacy.verifyDiditSignature env (body_json (req_body req)) (req_signature req) = Ok true /\
  (exists msg, fst (handleWebhook env req empty_world)
               = Ok (respond 200 [("received", jbool true); ("error", jstr msg)])) /\
  (exists r w', handleWebhook env req empty_world = (Ok r, w') /\ acknowledged r) /\
  (exists r w', Legacy.diditWebhookHandler env req empty_world = (Ok r, w') /\ acknowledged r).
Proof.
  intros env req.
  assert (Hp : fst (verifyWebhookSignature env (stringify (body_json (req_body req)))
                      (req_signature req) empty_world) = Ok true)
    by (vm_compute; reflexivity).
  assert (Hl : Legacy.verifyDiditSignature env (body_json (req_body req))
                 (req_signature req) = Ok true)
    by (vm_compute; reflexivity).
  destruct (webhook_always_acknowledged env req empty_world) as (Hcur & Hleg & _).
  split; [exact Hp|]. split; [exact Hl|]. split; [eexists; vm_compute; reflexivity|].
  split.
  - destruct Hcur as (r & w' & Hrun & Hack & _). exists r, w'. split; [exact Hrun | exact (Hack Hp)].
  - exact (Hleg Hl).
Defined.

(** ** Cache failures and provider failures (C7) *)

Section Simulation.
Context {A B : Type}.

Lemma sim_ret (a : A) : sim (ret a) (ret a).
Proof. intros w1 w2 H. auto. Qed.

Lemma sim_lift (r : Result A) : sim (lift r) (lift r).
Proof. intros w1 w2 H. auto. Qed.

Lemma sim_bind (c1 c2 : M A) (k1 k2 : A -> M B) :
  sim c1 c2 -> (forall a, sim (k1 a) (k2 a)) -> sim (bind c1 k1) (bind c2 k2).
Proof.
  intros Hc Hk w1 w2 H. unfold bind. destruct (Hc w1 w2 H) as [Hr Hw].
  destruct (c1 w1) as [[a1|e1] v1], (c2 w2) as [[a2|e2] v2]; simpl in *;
    simplify_eq; auto. apply Hk, Hw.
Qed.

Lemma sim_try_catch (c1 c2 : M A) (h1 h2 : Error -> M A) :
  sim c1 c2 -> (forall e, sim (h1 e) (h2 e)) -> sim (try_catch c1 h1) (try_catch c2 h2).
Proof.
  intros Hc Hh w1 w2 H. unfold try_catch. destruct (Hc w1 w2 H) as [Hr Hw].
  destruct (c1 w1) as [[a1|e1] v1], (c2 w2) as [[a2|e2] v2]; simpl in *;
    simplify_eq; auto. apply Hh, Hw.
Qed.
End Simulation.

Lemma sim_log l1 m1 l2 m2 : sim (log l1 m1) (log l2 m2).
Proof. intros w1 w2 [Hu Hp]. split; [reflexivity | split; assumption]. Qed.

Lemma sim_destructure v : sim (destructure v) (destructure v).
Proof. intros w1 w2 H. destruct v as [[]|]; auto. Qed.

Lemma sim_findUnique v : sim (prisma_findUnique v) (prisma_findUnique v).
Proof.
  intros w1 w2 [Hu Hp]. unfold prisma_findUnique.
  destruct v as [[]|]; simpl; rewrite ?Hu; repeat split; auto.
Qed.

Lemma sim_create v e : sim (prisma_create v e) (prisma_create v e).
Proof.
  intros w1 w2 [Hu Hp]. unfold prisma_create.
  destruct v as [[]|], e as [[]|]; simpl; rewrite ?Hu; repeat split; auto;
    destruct (_ || _); simpl; repeat split; auto; congruence.
Qed.

Lemma sim_update v data : sim (prisma_update v data) (prisma_update v data).
Proof.
  intros w1 w2 [Hu Hp]. unfold prisma_update.
  destruct v as [[]|]; simpl; rewrite ?Hu; repeat split; auto;
    destruct (forallb assign_valid data); simpl; repeat split; auto;
    destruct (users w2 !! s); simpl; repeat split; auto; congruence.
Qed.

Lemma sim_axios env1 env2 ep p :
  provider env1 = provider env2 -> sim (axios env1 ep p) (axios env2 ep p).
Proof.
  intros He [u1 c1 t1] [u2 c2 t2] [Hu Hp]. unfold axios, bind, emit, lift. rewrite He.
  simpl in *. destruct (provider env2); simpl;
    (split; [reflexivity|]); (split; simpl; [assumption | rewrite Hp; reflexivity]).
Qed.

(** A Redis command inside its own [try]/[catch]: whether it fails or
    not, the block returns normally and the worlds still agree. *)
Lemma sim_redis_set env1 env2 k v ttl l m :
  sim (try_catch (redis_set env1 k v ttl) (fun _ => log l m))
      (try_catch (redis_set env2 k v ttl) (fun _ => log l m)).
Proof.
  intros w1 w2 [Hu Hp]. unfold try_catch, redis_set, log, emit.
  destruct (redis_set_fails env1), (redis_set_fails env2); simpl; repeat split; auto.
Qed.

Lemma sim_redis_del env1 env2 k l m :
  sim (try_catch (redis_del env1 k) (fun _ => log l m))
      (try_catch (redis_del env2 k) (fun _ => log l m)).
Proof.
  intros w1 w2 [Hu Hp]. unfold try_catch, redis_del, log, emit.
  destruct (redis_del_fails env1), (redis_del_fails env2); simpl; repeat split; auto.
Qed.

Lemma sim_redis_get env1 env2 k l m :
  sim (try_catch (sessionData <- redis_get env1 k ;; ret tt) (fun _ => log l m))
      (try_catch (sessionData <- redis_get env2 k ;; ret tt) (fun _ => log l m)).
Proof.
  intros w1 w2 [Hu Hp]. unfold try_catch, bind, redis_get, log, emit, ret.
  destruct (redis_get_fails env1), (redis_get_fails env2); simpl; repeat split; auto.
Qed.

Ltac sim_step :=
  lazymatch goal with
  | |- sim (try_catch (redis_set _ _ _ _) _) _ => apply sim_redis_set
  | |- sim (try_catch (redis_del _ _) _) _ => apply sim_redis_del
  | |- sim (try_catch (bind (redis_get _ _) _) _) _ => apply sim_redis_get
  | |- sim (bind _ _) (bind _ _) => apply sim_bind; [|intros ?]
  | |- sim (try_catch _ _) (try_catch _ _) => apply sim_try_catch; [|intros ?]
  | |- sim (ret _) (ret _) => apply sim_ret
  | |- sim (lift _) (lift _) => apply sim_lift
  | |- sim (log _ _) (log _ _) => apply sim_log
  | |- sim (destructure _) (destructure _) => apply sim_destructure
  | |- sim (prisma_findUnique _) (prisma_findUnique _) => apply sim_findUnique
  | |- sim (prisma_create _ _) (prisma_create _ _) => apply sim_create
  | |- sim (prisma_update _ _) (prisma_update _ _) => apply sim_update
  | |- sim (axios _ _ _) (axios _ _ _) => apply sim_axios; reflexivity
  | |- sim (match ?x with _ => _ end) _ => destruct x
  end.

Lemma sim_outcome (c1 c2 : M Response) (w : World) :
  sim c1 c2 -> outcome (c1 w) = outcome (c2 w).
Proof.
  intros H. destruct (H w w) as (Hr & Hu & Hp); [split; reflexivity|].
  unfold outcome. congruence.
Qed.

Lemma createVerificationSession_sim env req g s d :
  sim (createVerificationSession (with_redis g s d env) req)
      (createVerificationSession env req).
Proof.
  unfold createVerificationSession, session_payload, CALLBACK_URL. simpl.
  repeat sim_step.
Qed.

Lemma sendPhoneVerificationCode_sim env req g s d :
  sim (sendPhoneVerificationCode (with_redis g s d env) req)
      (sendPhoneVerificationCode env req).
Proof.
  unfold sendPhoneVerificationCode. simpl.
  repeat sim_step.
Qed.

Lemma handleWebhook_sim env req g s d :
  sim (handleWebhook (with_redis g s d env) req) (handleWebhook env req).
Proof.
  unfold handleWebhook, verifyWebhookSignature, handleStatusUpdate, handleDataUpdate,
    triggerPostVerificationActions, status_update_data. simpl.
  repeat sim_step.
Qed.

Ltac close_failure_leaf :=
  simpl; intros Hcalled;
  first [ exfalso; apply Hcalled; reflexivity
        | split; [reflexivity|]; split; [reflexivity|];
          intros ? ? Hkept; simpl in *;
          first [ exact Hkept
                | rewrite lookup_insert_ne; [exact Hkept | congruence] ] ].

Lemma createVerificationSession_provider_failure env req w e :
  provider env = Throw e ->
  let out := createVerificationSession env req w in
  provider_calls (trace (snd out)) <> provider_calls (trace w) ->
  fst out = Ok (handleDiditApiError e) /\ cache (snd out) = cache w /\ rows_kept w (snd out).
Proof.
  intros Hp. unfold createVerificationSession, rows_kept. destruct w as [us ca tr].
  unfold_monad. rewrite Hp. exec; close_failure_leaf.
Qed.

Lemma retrieveSession_provider_failure env req w e :
  provider env = Throw e ->
  let out := retrieveSession env req w in
  provider_calls (trace (snd out)) <> provider_calls (trace w) ->
  fst out = Ok (handleDiditApiError e) /\ cache (snd out) = cache w /\ rows_kept w (snd out).
Proof.
  intros Hp. unfold retrieveSession, rows_kept. destruct w as [us ca tr].
  unfold_monad. rewrite Hp. exec; close_failure_leaf.
Qed.

Lemma sendPhoneVerificationCode_provider_failure env req w e :
  provider env = Throw e ->
  let out := sendPhoneVerificationCode env req w in
  provider_calls (trace (snd out)) <> provider_calls (trace w) ->
  fst out = Ok (handleDiditApiError e) /\ cache (snd out) = cache w /\ rows_kept w (snd out).
Proof.
  intros Hp. unfold sendPhoneVerificationCode, rows_kept. destruct w as [us ca tr].
  unfold_monad. rewrite Hp. exec; close_failure_leaf.
Qed.

Lemma checkPhoneVerificationCode_provider_failure env req w e :
  provider env = Throw e ->
  let out := checkPhoneVerificationCode env req w in
  provider_calls (trace (snd out)) <> provider_calls (trace w) ->
  fst out = Ok (handleDiditApiError e) /\ cache (snd out) = cache w /\ rows_kept w (snd out).
Proof.
  intros Hp. unfold checkPhoneVerificationCode, rows_kept. destruct w as [us ca tr].
  unfold_monad. rewrite Hp. exec; close_failure_leaf.
Qed.

Lemma verifyIdDocument_provider_failure env req w e :
  provider env = Throw e ->
  let out := verifyIdDocument env req w in
  provider_calls (trace (snd out)) <> provider_calls (trace w) ->
  fst out = Ok (handleDiditApiError e) /\ cache (snd out) = cache w /\ rows_kept w (snd out).
Proof.
  intros Hp. unfold verifyIdDocument, rows_kept. destruct w as [us ca tr].
  unfold_monad. rewrite Hp. exec; close_failure_leaf.
Qed.

(** The same for the legacy handlers, whose Redis blocks log on success
    and read the cached entry. *)
Lemma sim_redis_set_logged env1 env2 k v ttl l1 m1 l2 m2 :
  sim (try_catch (redis_set env1 k v ttl ;; log l1 m1) (fun _ => log l2 m2))
      (try_catch (redis_set env2 k v ttl ;; log l1 m1) (fun _ => log l2 m2)).
Proof.
  intros w1 w2 [Hu Hp]. unfold try_catch, bind, redis_set, log, emit.
  destruct (redis_set_fails env1), (redis_set_fails env2); simpl; repeat split; auto.
Qed.

Lemma sim_redis_get_parsed env1 env2 k l1 m1 l2 m2 :
  sim (try_catch
         (sessionData <- redis_get env1 k ;;
          match sessionData with
          | Some parsed => _ <- destructure (Some parsed) ;; ret tt
          | None => log l1 m1
          end)
         (fun _ => log l2 m2))
      (try_catch
         (sessionData <- redis_get env2 k ;;
          match sessionData with
          | Some parsed => _ <- destructure (Some parsed) ;; ret tt
          | None => log l1 m1
          end)
         (fun _ => log l2 m2)).
Proof.
  intros w1 w2 [Hu Hp]. unfold try_catch, bind, redis_get, destructure, log, emit, ret, throw.
  destruct (redis_get_fails env1), (redis_get_fails env2); simpl;
    repeat match goal with
           | |- context [cache ?w !! k] => destruct (cache w !! k) as [[[] ?]|]; simpl
           end; repeat split; auto.
Qed.

Ltac sim_step' :=
  lazymatch goal with
  | |- sim (try_catch (bind (redis_set _ _ _ _) _) _) _ => apply sim_redis_set_logged
  | |- sim (try_catch (bind (redis_get _ _) (fun _ => match _ with _ => _ end)) _) _ =>
      apply sim_redis_get_parsed
  | _ => sim_step
  end.

Lemma initiateDiditVerification_sim env req g s d :
  sim (Legacy.initiateDiditVerification (with_redis g s d env) req)
      (Legacy.initiateDiditVerification env req).
Proof.
  unfold Legacy.initiateDiditVerification, Legacy.session_payload, CALLBACK_URL. simpl.
  repeat sim_step'.
Qed.

Lemma diditWebhookHandler_sim env req g s d :
  sim (Legacy.diditWebhookHandler (with_redis g s d env) req)
      (Legacy.diditWebhookHandler env req).
Proof.
  unfold Legacy.diditWebhookHandler, Legacy.verifyDiditSignature,
    Legacy.updateUserVerificationStatus, Legacy.triggerPostVerificationActions,
    Legacy.verification_update_data. simpl.
  repeat sim_step'.
Qed.

Lemma initiateDiditVerification_provider_failure env req w e :
  provider env = Throw e ->
  let out := Legacy.initiateDiditVerification env req w in
  provider_calls (trace (snd out)) <> provider_calls (trace w) ->
  fst out = Ok (Legacy.session_error e) /\ cache (snd out) = cache w /\ rows_kept w (snd out).
Proof.
  intros Hp. unfold Legacy.initiateDiditVerification, rows_kept. destruct w as [us ca tr].
  unfold_monad. rewrite Hp. exec; close_failure_leaf.
Qed.

(** A signed request passes the check and leaves no trace of it. *)
Lemma authentic_run env req w :
  authentic env req ->
  verifyWebhookSignature env (stringify (body_json (req_body req))) (req_signature req) w
  = (Ok true, w).
Proof.
  intros (sig & secret & Hs & Hk & Hne & Hne' & Heq).
  unfold verifyWebhookSignature. rewrite Hs, Hk.
  destruct (String.eqb_spec sig ""); [contradiction|].
  destruct (String.eqb_spec secret ""); [contradiction|]. simpl.
  rewrite (proj2 (timingSafeEqual_true sig _) Heq). reflexivity.
Qed.

Ltac prefix_of t tr :=
  lazymatch t with
  | tr => constr:(@nil Event)
  | ?e :: ?r => let p := prefix_of r tr in constr:(e :: p)
  end.

Ltac show_emitted :=
  lazymatch goal with
  | |- emitted {| users := _; cache := _; trace := ?tr |}
               {| users := _; cache := _; trace := ?t |} _ =>
      let l := prefix_of t tr in
      exists l; split; [reflexivity | simpl; tauto]
  end.

(** A failed store of the session is logged. *)
Lemma createVerificationSession_logs_store_failure env req w :
  redis_set_fails env = true ->
  status_of (fst (createVerificationSession env req w)) = Some 201 ->
  emitted w (snd (createVerificationSession env req w))
    (EvLog Warn "Failed to store session in Redis").
Proof.
  intros Hs. unfold createVerificationSession. destruct w as [us ca tr].
  unfold_monad. rewrite Hs.
  exec; simpl; try discriminate;
    try (intros [= H]; exfalso; revert H; apply handleDiditApiError_not_201);
    intros _; show_emitted.
Qed.

(** So is a failed store of the phone request. *)
Lemma sendPhoneVerificationCode_logs_store_failure env req w :
  redis_set_fails env = true ->
  status_of (fst (sendPhoneVerificationCode env req w)) = Some 200 ->
  emitted w (snd (sendPhoneVerificationCode env req w))
    (EvLog Warn "Failed to store phone verification in Redis").
Proof.
  intros Hs. unfold sendPhoneVerificationCode. destruct w as [us ca tr].
  unfold_monad. rewrite Hs.
  exec; simpl; try discriminate;
    try (intros [= H]; exfalso; revert H; apply handleDiditApiError_not_200);
    intros _; show_emitted.
Qed.

(** The webhook logs a failed read, and a failed delete when it gets to
    it. *)
Lemma handleWebhook_logs_cache_failures env req w :
  authentic env req ->
  (redis_get_fails env = true ->
   emitted w (snd (handleWebhook env req w)) (EvLog Warn "Redis not available for webhook")) /\
  (redis_del_fails env = true ->
   is_terminal (get "status" (body_json (req_body req))) = true ->
   webhook_updates env (body_json (req_body req)) (users w) = true ->
   emitted w (snd (handleWebhook env req w))
     (EvLog Warn "Failed to delete session from Redis")).
Proof.
  intros Ha. unfold handleWebhook. rewrite bind_run, (authentic_run env req w Ha).
  simpl negb. cbv iota zeta.
  unfold webhook_updates, handleStatusUpdate, handleDataUpdate,
    triggerPostVerificationActions.
  destruct w as [us ca tr]. cbv zeta.
  generalize (status_update_data env (get "status" (body_json (req_body req)))
                (get "decision" (body_json (req_body req)))).
  intros data.
  split.
  - intros Hg. unfold_monad. rewrite Hg. exec; show_emitted.
  - intros Hd. unfold_monad. rewrite Hd.
    exec; intros Ht Hu; try discriminate; show_emitted.
Qed.

(** C7: whether the Redis commands of a request fail or not, the answer,
    the user table and the requests sent to the provider are the same, for
    session creation, phone-code sending and webhook processing; each
    flow logs a warning for the command that failed: the store of the
    session, the store of the phone request, the read and the delete of
    the webhook.  When the call to the provider fails, the handler
    answers with the response mapped from that failure, writes nothing
    to the cache and leaves the existing rows as they are. *)
Theorem cache_failures_ignored_provider_failures_surfaced
    (env : Env) (req : Request) (w : World) :
  (forall g s d h,
     In h [createVerificationSession; sendPhoneVerificationCode; handleWebhook;
           Legacy.initiateDiditVerification; Legacy.diditWebhookHandler] ->
     outcome (h (with_redis g s d env) req w) = outcome (h env req w)) /\
  (redis_set_fails env = true ->
   status_of (fst (createVerificationSession env req w)) = Some 201 ->
   emitted w (snd (createVerificationSession env req w))
     (EvLog Warn "Failed to store session in Redis")) /\
  (redis_set_fails env = true ->
   status_of (fst (sendPhoneVerificationCode env req w)) = Some 200 ->
   emitted w (snd (sendPhoneVerificationCode env req w))
     (EvLog Warn "Failed to store phone verification in Redis")) /\
  (authentic env req ->
   redis_get_fails env = true ->
   emitted w (snd (handleWebhook env req w)) (EvLog Warn "Redis not available for webhook")) /\
  (authentic env req ->
   redis_del_fails env = true ->
   is_terminal (get "status" (body_json (req_body req))) = true ->
   webhook_updates env (body_json (req_body req)) (users w) = true ->
   emitted w (snd (handleWebhook env req w))
     (EvLog Warn "Failed to delete session from Redis")) /\
  (forall e h,
     provider env = Throw e ->
     In h [createVerificationSession; retrieveSession; sendPhoneVerificationCode;
           checkPhoneVerificationCode; verifyIdDocument] ->
     provider_calls (trace (snd (h env req w))) <> provider_calls (trace w) ->
     fst (h env req w) = Ok (handleDiditApiError e) /\
     cache (snd (h env req w)) = cache w /\
     rows_kept w (snd (h env req w))) /\
  (forall e,
     provider env = Throw e ->
     let out := Legacy.initiateDiditVerification env req w in
     provider_calls (trace (snd out)) <> provider_calls (trace w) ->
     fst out = Ok (Legacy.session_error e) /\ cache (snd out) = cache w /\
     rows_kept w (snd out)).
Proof.
  split; [|split; [|split; [|split; [|split; [|split]]]]].
  - intros g s d h Hin. apply sim_outcome.
    repeat match goal with H : In _ _ |- _ => destruct H as [<-|H] end;
      auto using createVerificationSession_sim, sendPhoneVerificationCode_sim,
        handleWebhook_sim, initiateDiditVerification_sim, diditWebhookHandler_sim.
    destruct Hin.
  - apply createVerificationSession_logs_store_failure.
  - apply sendPhoneVerificationCode_logs_store_failure.
  - intros Ha. apply (handleWebhook_logs_cache_failures env req w Ha).
  - intros Ha. apply (handleWebhook_logs_cache_failures env req w Ha).
  - intros e h Hp Hin.
    repeat match goal with H : In _ _ |- _ => destruct H as [<-|H] end;
      auto using createVerificationSession_provider_failure,
        retrieveSession_provider_failure, sendPhoneVerificationCode_provider_failure,
        checkPhoneVerificationCode_provider_failure, verifyIdDocument_provider_failure.
    destruct Hin.
  - intros e. apply initiateDiditVerification_provider_failure.
Qed.

(** The witness: the cache is down.  The session is still created, the
    phone code still sent and the webhook still processed, each with its
    warning in the log and, for the webhook, the same outcome as with the
    cache up; the provider rate-limits and the caller gets the mapped
    429. *)
Lemma cache_failures_ignored_provider_failures_surfaced_witness :
  let up := env_at 1000 session_answer in
  let down := with_redis true true true up in
  let limited := env_at 1000 (upstream 429) in
  let phone := json_request [("phone_number", JStr "+14155552671")] in
  let w := world_with (row PENDING 1) in
  status_of (fst (createVerificationSession down create_request empty_world)) = Some 201 /\
  emitted empty_world (snd (createVerificationSession down create_request empty_world))
    (EvLog Warn "Failed to store session in Redis") /\
  status_of (fst (sendPhoneVerificationCode down phone empty_world)) = Some 200 /\
  emitted empty_world (snd (sendPhoneVerificationCode down phone empty_world))
    (EvLog Warn "Failed to store phone verification in Redis") /\
  emitted w (snd (handleWebhook down (signed approved_payload) w))
    (EvLog Warn "Redis not available for webhook") /\
  emitted w (snd (handleWebhook down (signed approved_payload) w))
    (EvLog Warn "Failed to delete session from Redis") /\
  (exists e, provider limited = Throw e /\
     fst (createVerificationSession limited create_request empty_world)
     = Ok (handleDiditApiError e) /\
     cache (snd (createVerificationSession limited create_request empty_world))
     = cache empty_world) /\
  status_of (fst (createVerificationSession limited create_request empty_world)) = Some 429 /\
  outcome (handleWebhook down (signed approved_payload) w)
  = outcome (handleWebhook up (signed approved_payload) w).
Proof.
  intros up down limited phone w.
  assert (Ha : authentic down (signed approved_payload)).
  { exists (Crypto.hmac_hex "whsec_test" (stringify (JObj approved_payload))), "whsec_test".
    repeat split; try reflexivity; vm_compute; discriminate. }
  destruct (cache_failures_ignored_provider_failures_surfaced up (signed approved_payload) w)
    as (Hsame & _).
  destruct (cache_failures_ignored_provider_failures_surfaced down (signed approved_payload)
              w) as (_ & _ & _ & Hget & Hdel & _).
  assert (H201 : status_of (fst (createVerificationSession down create_request empty_world))
                 = Some 201) by (vm_compute; reflexivity).
  assert (H200 : status_of (fst (sendPhoneVerificationCode down phone empty_world))
                 = Some 200) by (vm_compute; reflexivity).
  destruct (cache_failures_ignored_provider_failures_surfaced down create_request
              empty_world) as (_ & Hlog & _).
  destruct (cache_failures_ignored_provider_failures_surfaced down phone empty_world)
    as (_ & _ & Hlog' & _).
  destruct (cache_failures_ignored_provider_failures_surfaced limited create_request
              empty_world) as (_ & _ & _ & _ & _ & Hfail & _).
  split; [exact H201|]. split; [apply Hlog; [reflexivity | exact H201]|].
  split; [exact H200|]. split; [apply Hlog'; [reflexivity | exact H200]|].
  split; [apply Hget; [exact Ha | reflexivity]|].
  split; [apply Hdel; [exact Ha | reflexivity | reflexivity | vm_compute; reflexivity]|].
  split; [|split; [vm_compute; reflexivity|]].
  - eexists. split; [reflexivity|].
    destruct (Hfail _ createVerificationSession eq_refl) as (Hr & Hc & _).
    + simpl. left. reflexivity.
    + vm_compute. discriminate.
    + split; [exact Hr | exact Hc].
  - apply (Hsame true true true handleWebhook). simpl. right; right; left. reflexivity.
Defined.

(** ** Redelivery of a webhook (C5) *)

(** An assignment is a full overwrite of its column... *)
Lemma assign_overwrite (u : User) (a b : Assign) :
  column a = column b -> assign (assign u a) b = assign u b.
Proof.
  destruct u, a, b; try discriminate; intros _; simpl;
    repeat match goal with v : json |- _ => destruct v end; reflexivity.
Qed.

(** ... and leaves the other columns alone. *)
Lemma assign_commute (u : User) (a b : Assign) :
  column a <> column b -> assign (assign u a) b = assign (assign u b) a.
Proof.
  destruct u, a, b; simpl; intros H; try (exfalso; apply H; reflexivity);
    repeat match goal with v : json |- _ => destruct v end; reflexivity.
Qed.

Lemma apply_data_absorbs (data : list Assign) (u : User) (a : Assign) :
  In (column a) (map column data) ->
  apply_data data (assign u a) = apply_data data u.
Proof.
  revert u. induction data as [|b data IH]; intros u Hin; [destruct Hin|].
  simpl in *. destruct (Nat.eq_dec (column a) (column b)) as [Heq|Hne].
  - now rewrite assign_overwrite.
  - rewrite assign_commute by exact Hne. apply IH.
    destruct Hin as [Hin|Hin]; [congruence | exact Hin].
Qed.

(** Writing [later] after [earlier] is writing [later] alone, when
    [later] writes every column that [earlier] wrote. *)
Lemma apply_data_overwrites (earlier later : list Assign) (u : User) :
  incl (map column earlier) (map column later) ->
  apply_data later (apply_data earlier u) = apply_data later u.
Proof.
  revert u. induction earlier as [|a earlier IH]; intros u Hincl; [reflexivity|].
  simpl. rewrite IH.
  - apply apply_data_absorbs. apply Hincl. left. reflexivity.
  - intros c Hc. apply Hincl. right. exact Hc.
Qed.

Lemma apply_data_app (d1 d2 : list Assign) (u : User) :
  apply_data (d1 ++ d2) u = apply_data d2 (apply_data d1 u).
Proof. apply fold_left_app. Qed.

Arguments status_update_data : simpl never.
Arguments apply_data : simpl never.

Ltac close_rows_leaf :=
  rewrite ?apply_data_app, ?app_nil_r, ?insert_insert_eq;
  first [ reflexivity
        | symmetry; apply insert_id; assumption ].

Lemma handleWebhook_rows env req w :
  exists valid,
    fst (verifyWebhookSignature env (stringify (body_json (req_body req)))
           (req_signature req) w) = Ok valid /\
    users (snd (handleWebhook env req w))
    = if valid then rows_after env (body_json (req_body req)) (users w) else users w.
Proof.
  destruct (verifyWebhookSignature_run env (stringify (body_json (req_body req)))
              (req_signature req) w) as (valid & w1 & Hrun & Hus & _).
  exists valid. rewrite Hrun. split; [reflexivity|].
  unfold handleWebhook. rewrite bind_run, Hrun. rewrite <- Hus. clear Hrun Hus.
  destruct valid; simpl; [|reflexivity].
  unfold rows_after, webhook_writes, handleStatusUpdate, handleDataUpdate,
    triggerPostVerificationActions.
  destruct w1 as [us ca tr]. cbv zeta.
  generalize (status_update_data env (get "status" (body_json (req_body req)))
                (get "decision" (body_json (req_body req)))).
  intros data.
  exec; close_rows_leaf.
Qed.

(** The verdict on a signature depends on the configured secret only. *)
Lemma verifyWebhookSignature_secret env1 env2 raw sig w1 w2 :
  DIDIT_WEBHOOK_SECRET env2 = DIDIT_WEBHOOK_SECRET env1 ->
  fst (verifyWebhookSignature env2 raw sig w2) = fst (verifyWebhookSignature env1 raw sig w1).
Proof.
  intros Hk. unfold verifyWebhookSignature. rewrite Hk.
  destruct sig as [sig|], (DIDIT_WEBHOOK_SECRET env1) as [secret|]; try reflexivity.
  destruct (_ || _); [reflexivity|].
  destruct (Crypto.timingSafeEqual _ _); reflexivity.
Qed.

(** The clock decides one value of [updateData], the completion time of
    an approval, and nothing else. *)
Lemma status_update_data_clock env1 env2 status decision :
  map column (status_update_data env1 status decision)
  = map column (status_update_data env2 status decision) /\
  forallb assign_valid (status_update_data env1 status decision)
  = forallb assign_valid (status_update_data env2 status decision) /\
  (now env2 = now env1 \/ status <> jstr "Approved" ->
   status_update_data env2 status decision = status_update_data env1 status decision).
Proof.
  unfold status_update_data.
  destruct (eq_str status "Approved") eqn:E.
  - rewrite !map_app, !forallb_app. simpl. repeat split.
    intros [->|Hne]; [reflexivity|]. apply eq_str_true in E. contradiction.
  - repeat split.
Qed.

Lemma webhook_writes_clock env1 env2 payload :
  match webhook_writes env1 payload, webhook_writes env2 payload with
  | Some d1, Some d2 => map column d1 = map column d2
  | None, None => True
  | _, _ => False
  end /\
  (now env2 = now env1 \/ get "status" payload <> jstr "Approved" ->
   webhook_writes env2 payload = webhook_writes env1 payload).
Proof.
  unfold webhook_writes.
  destruct (status_update_data_clock env1 env2 (get "status" payload)
              (get "decision" payload)) as (Hcol & Hval & Heq).
  destruct (eq_str (get "webhook_type" payload) "status.updated").
  - rewrite <- Hval. split.
    + destruct (forallb assign_valid _); [|exact I]. rewrite !map_app. now rewrite Hcol.
    + intros H. now rewrite (Heq H).
  - split; [|intros _; reflexivity]. clear Hcol Hval Heq.
    destruct (forallb assign_valid _); [reflexivity | exact I].
Qed.

(** At the level of the table: a second delivery overwrites what the
    first one wrote. *)
Lemma rows_after_absorbs env1 env2 payload us :
  rows_after env2 payload (rows_after env1 payload us) = rows_after env2 payload us.
Proof.
  unfold rows_after.
  destruct (get "vendor_data" payload) as [[| | |i| |]|]; try reflexivity.
  destruct (webhook_writes_clock env1 env2 payload) as (Hcol & _).
  destruct (webhook_writes env1 payload) as [d1|], (webhook_writes env2 payload) as [d2|];
    try contradiction; try reflexivity.
  destruct (us !! i) as [u|] eqn:Hu; [|now rewrite Hu].
  rewrite lookup_insert_eq, insert_insert_eq. f_equal.
  apply apply_data_overwrites. rewrite Hcol. apply incl_refl.
Qed.

Lemma apply_data_benign (data : list Assign) (u : User) :
  Forall benign data ->
  verificationRetries (apply_data data u) = verificationRetries u /\
  (tradingEnabled u = true -> tradingEnabled (apply_data data u) = true).
Proof.
  intros H. revert u. induction H as [|a data Ha _ IH]; intros u; [auto|].
  change (apply_data (a :: data) u) with (apply_data data (assign u a)).
  destruct (IH (assign u a)) as [Hr Ht].
  rewrite Hr. destruct u, a; simpl in *; try contradiction;
    repeat match goal with v : json |- _ => destruct v end; simpl in *; auto.
Qed.

Ltac benign_list :=
  repeat first [ apply List.Forall_nil
               | apply List.Forall_cons; [first [exact I | reflexivity]|]
               | apply Forall_app; split
               | case_match ].

Lemma status_update_data_benign env status decision :
  Forall benign (status_update_data env status decision).
Proof. unfold status_update_data. benign_list. Qed.

Lemma webhook_writes_benign env payload data :
  webhook_writes env payload = Some data -> Forall benign data.
Proof.
  unfold webhook_writes. destruct (forallb assign_valid _); [|discriminate].
  intros [= <-]. apply Forall_app. split.
  - destruct (eq_str _ "status.updated"); [apply status_update_data_benign|].
    benign_list.
  - benign_list.
Qed.

(** C5, counterexample: the same signed [Approved] webhook delivered at
    time 1000 and again at time 2000.  After the first delivery the row
    says the verification completed at 1000; after the second it says
    2000. *)
Lemma redelivery_restamps_completion :
  let w := world_with (row PENDING 1) in
  let once := handleWebhook (env_at 1000 session_answer) (signed approved_payload) w in
  let twice := handleWebhook (env_at 2000 session_answer) (signed approved_payload)
                 (snd once) in
  kycCompletedAt <$> users (snd once) !! U = Some (Some 1000) /\
  kycCompletedAt <$> users (snd twice) !! U = Some (Some 2000) /\
  users (snd twice) <> users (snd once).
Proof.
  intros w once twice.
  assert (H1 : kycCompletedAt <$> users (snd once) !! U = Some (Some 1000))
    by (vm_compute; reflexivity).
  assert (H2 : kycCompletedAt <$> users (snd twice) !! U = Some (Some 2000))
    by (vm_compute; reflexivity).
  split; [exact H1|]. split; [exact H2|].
  intros Heq.
  pose proof (f_equal (fun m : gmap string User => kycCompletedAt <$> m !! U) Heq) as H3.
  pose proof (eq_trans (eq_sym H2) (eq_trans H3 H1)) as H4.
  discriminate H4.
Qed.

(** C5 (amended): delivering the same [status.updated] webhook a second
    time leaves the user table as a single delivery at the time of the
    second one would: every column written is overwritten, no counter is
    touched and [tradingEnabled] is only ever set.  The table is exactly
    as after the first delivery when the clock has not moved or the status
    is not [Approved]; otherwise [kycCompletedAt] carries the time of the
    later delivery. *)
Theorem webhook_redelivery (env1 env2 : Env) (req : Request) (w : World) :
  DIDIT_WEBHOOK_SECRET env2 = DIDIT_WEBHOOK_SECRET env1 ->
  let once := handleWebhook env1 req w in
  let twice := handleWebhook env2 req (snd once) in
  users (snd twice) = users (snd (handleWebhook env2 req w)) /\
  (now env2 = now env1 \/ get "status" (body_json (req_body req)) <> jstr "Approved" ->
   users (snd twice) = users (snd once)) /\
  (forall i u u',
     users w !! i = Some u -> users (snd twice) !! i = Some u' ->
     verificationRetries u' = verificationRetries u /\
     (tradingEnabled u = true -> tradingEnabled u' = true)).
Proof.
  intros Hk once twice. subst once twice.
  set (payload := body_json (req_body req)).
  set (raw := stringify payload).
  destruct (handleWebhook_rows env1 req w) as (v1 & Hv1 & Hr1).
  destruct (handleWebhook_rows env2 req w) as (v2 & Hv2 & Hr2).
  destruct (handleWebhook_rows env2 req (snd (handleWebhook env1 req w)))
    as (v3 & Hv3 & Hr3).
  fold payload in Hr1, Hr2, Hr3. fold payload raw in Hv1, Hv2, Hv3.
  assert (v2 = v1) as ->.
  { rewrite (verifyWebhookSignature_secret env1 env2 raw _ w w Hk) in Hv2. congruence. }
  assert (v3 = v1) as ->.
  { rewrite (verifyWebhookSignature_secret env1 env2 raw _ w _ Hk) in Hv3. congruence. }
  assert (Hsame : users (snd (handleWebhook env2 req (snd (handleWebhook env1 req w))))
                  = users (snd (handleWebhook env2 req w))).
  { rewrite Hr3, Hr2, Hr1. destruct v1; [apply rows_after_absorbs | reflexivity]. }
  split; [exact Hsame|]. split.
  - intros Hclock. rewrite Hr3, Hr1. destruct v1; [|reflexivity].
    destruct (webhook_writes_clock env1 env2 payload) as (_ & Heq).
    specialize (Heq Hclock).
    rewrite <- (rows_after_absorbs env1 env1 payload (users w)) at 2.
    unfold rows_after at 1 3. now rewrite Heq.
  - intros i u u' Hu Hu'. rewrite Hsame, Hr2 in Hu'.
    destruct v1; [|rewrite Hu in Hu'; injection Hu' as <-; auto].
    unfold rows_after in Hu'.
    destruct (get "vendor_data" payload) as [[| | |k| |]|];
      try (rewrite Hu in Hu'; injection Hu' as <-; auto).
    destruct (webhook_writes env2 payload) as [data|] eqn:Hd;
      [|rewrite Hu in Hu'; injection Hu' as <-; auto].
    destruct (users w !! k) as [uk|] eqn:Huk;
      [|rewrite Hu in Hu'; injection Hu' as <-; auto].
    destruct (decide (k = i)) as [->|Hne].
    + rewrite lookup_insert_eq in Hu'. injection Hu' as <-.
      rewrite Hu in Huk. injection Huk as <-.
      apply apply_data_benign, (webhook_writes_benign _ _ _ Hd).
    + rewrite lookup_insert_ne in Hu' by exact Hne.
      rewrite Hu in Hu'. injection Hu' as <-. auto.
Qed.

Lemma webhook_redelivery_witness :
  let early := env_at 1000 session_answer in
  let late := env_at 2000 session_answer in
  let w := world_with (row PENDING 1) in
  let once := handleWebhook early (signed approved_payload) w in
  let twice := handleWebhook late (signed approved_payload) (snd once) in
  DIDIT_WEBHOOK_SECRET late = DIDIT_WEBHOOK_SECRET early /\
  users (snd twice) = users (snd (handleWebhook late (signed approved_payload) w)) /\
  (forall u', users (snd twice) !! U = Some u' ->
              verificationRetries u' = 1 /\ tradingEnabled u' = tradingEnabled u').
Proof.
  intros early late w once twice.
  assert (Hk : DIDIT_WEBHOOK_SECRET late = DIDIT_WEBHOOK_SECRET early) by reflexivity.
  destruct (webhook_redelivery early late (signed approved_payload) w Hk)
    as (Hsame & _ & Hrow).
  split; [exact Hk|]. split; [exact Hsame|].
  intros u' Hu'.
  assert (Hu : users w !! U = Some (row PENDING 1)) by (vm_compute; reflexivity).
  destruct (Hrow U _ u' Hu Hu') as (Hr & _). split; [exact Hr | reflexivity].
Defined.

(** ** What the service as a whole keeps true *)

Lemma evolves_refl u : evolves u u.
Proof. unfold evolves. tauto. Qed.

Lemma quiet_evolves u u1 u2 : evolves u u1 -> quiet u1 u2 -> evolves u u2.
Proof.
  unfold evolves, quiet.
  intros (H1 & H2 & H3 & H4 & H5 & H6) (Q1 & Q2 & Q3 & Q4 & Q5 & Q6 & Q7).
  rewrite Q1, Q2, Q3, Q5, Q6, Q7. tauto.
Qed.

Lemma apply_data_quiet (data : list Assign) (u : User) :
  Forall quiet_assign data -> quiet u (apply_data data u).
Proof.
  intros H. revert u. induction H as [|a data Ha _ IH]; intros u.
  - unfold quiet. tauto.
  - change (apply_data (a :: data) u) with (apply_data data (assign u a)).
    destruct (IH (assign u a)) as (Q1 & Q2 & Q3 & Q4 & Q5 & Q6 & Q7).
    unfold quiet. rewrite Q1, Q2, Q3, Q5, Q6, Q7.
    destruct Ha as (Hb & H0 & H2).
    destruct u, a; simpl in *; try contradiction; try congruence;
      repeat match goal with v : json |- _ => destruct v end; simpl in *; tauto.
Qed.

Lemma apply_data_identity (data : list Assign) (u : User) :
  id (apply_data data u) = id u /\ email (apply_data data u) = email u /\
  emailVerified (apply_data data u) = emailVerified u.
Proof.
  revert u. induction data as [|a data IH]; intros u; [auto|].
  change (apply_data (a :: data) u) with (apply_data data (assign u a)).
  destruct (IH (assign u a)) as (H1 & H2 & H3). rewrite H1, H2, H3.
  destruct u, a; simpl; auto;
    repeat match goal with v : json |- _ => destruct v end; simpl; auto.
Qed.

Lemma evolves_session (u : User) (t : Z) :
  verificationRetries u < MAX_VERIFICATION_RETRIES ->
  evolves u (apply_data [SetVerificationRetries (verificationRetries u + 1);
                         SetLastVerificationAttempt t] u).
Proof. intros H. destruct u. unfold evolves. simpl in *. tauto. Qed.

Lemma evolves_status_update env status decision u :
  evolves u (apply_data (status_update_data env status decision) u).
Proof.
  pose proof (status_update_kyc env status decision u) as K. cbv zeta in K.
  destruct K as (_ & Ka & Kd & Kr & Ko & Kn & Kt).
  destruct (apply_data_identity (status_update_data env status decision) u)
    as (I1 & I2 & I3).
  unfold evolves. rewrite I1, I2, I3, Kn, Kt.
  repeat split; auto.
  intros Hv.
  destruct (eq_str status "Approved") eqn:E1.
  { apply eq_str_true in E1. destruct (Ka E1) as [_ ->]. left. discriminate. }
  destruct (eq_str status "Declined") eqn:E2.
  { apply eq_str_true in E2. destruct (Kd E2) as [Hs _]. congruence. }
  destruct (eq_str status "In Review") eqn:E3.
  { apply eq_str_true in E3. destruct (Kr E3) as [Hs _]. congruence. }
  apply eq_str_false in E1, E2, E3. destruct (Ko E1 E2 E3) as [Hs Hc].
  right. split; congruence.
Qed.

Lemma evolves_legacy_update env status details u :
  evolves u (apply_data (Legacy.verification_update_data env status details) u).
Proof.
  unfold Legacy.verification_update_data. cbv zeta.
  match goal with |- context [SetPhoneNumber ?j] => generalize j end.
  intros pn. destruct u. unfold evolves, apply_data.
  destruct (eq_str status "completed"), pn; simpl;
    repeat split; auto; intros; try discriminate; left; discriminate.
Qed.

Lemma email_taken_false e (us : gmap string User) j v :
  email_taken e us = false -> us !! j = Some v -> email v <> e.
Proof.
  intros Hf Hj He. unfold email_taken in Hf.
  assert (existsb (fun kv : string * User => String.eqb (email (snd kv)) e)
            (map_to_list us) = true) as Ht; [|congruence].
  apply existsb_exists. exists (j, v). split.
  - apply list_elem_of_In, elem_of_map_to_list. exact Hj.
  - simpl. apply String.eqb_eq. exact He.
Qed.

Lemma unpromoted_refl u : unpromoted u u.
Proof. unfold unpromoted. tauto. Qed.

Lemma ordinary_refl u : ordinary u u.
Proof. split; [apply evolves_refl | apply unpromoted_refl]. Qed.

Lemma apply_data_unpromoted (data : list Assign) (u : User) :
  Forall (fun a => column a <> 0%nat /\ column a <> 4%nat) data ->
  unpromoted u (apply_data data u).
Proof.
  intros H. revert u. induction H as [|a data Ha _ IH]; intros u.
  - apply unpromoted_refl.
  - change (apply_data (a :: data) u) with (apply_data data (assign u a)).
    destruct (IH (assign u a)) as [I1 I2]. destruct Ha as [H0 H4].
    split; intros Hx; [apply I1 in Hx | apply I2 in Hx]; revert Hx;
      destruct u, a; simpl in *; try contradiction; auto;
      repeat match goal with v : json |- _ => destruct v end; simpl; auto.
Qed.

Lemma step_rel_weaken (R R' : User -> User -> Prop) w w' :
  (forall u u', R u u' -> R' u u') -> step_rel R w w' -> step_rel R' w w'.
Proof.
  intros HR (k & Hother & Hk). exists k. split; [exact Hother|].
  destruct (users w !! k), (users w' !! k); auto.
  destruct Hk as (e & H & He). eauto.
Qed.

Lemma step_same (R : User -> User -> Prop) w w' :
  (forall u, R u u) -> users w' = users w -> step_rel R w w'.
Proof.
  intros HR H. exists "". rewrite H. split; [auto|].
  destruct (users w !! ""); [apply HR | exact I].
Qed.

Lemma step_update (R : User -> User -> Prop) w w' k u u' :
  users w !! k = Some u -> R u u' ->
  users w' = <[k := u']> (users w) -> step_rel R w w'.
Proof.
  intros Hu He H. exists k. rewrite H. split.
  - intros i Hi. apply lookup_insert_ne. auto.
  - rewrite Hu, lookup_insert_eq. exact He.
Qed.

Lemma step_create (R : User -> User -> Prop) w w' k e u' :
  users w !! k = None -> email_taken e (users w) = false ->
  R (new_user k e) u' ->
  users w' = <[k := u']> (users w) -> step_rel R w w'.
Proof.
  intros Hu Ht He H. exists k. rewrite H. split.
  - intros i Hi. apply lookup_insert_ne. auto.
  - rewrite Hu, lookup_insert_eq. exists e. auto.
Qed.

Lemma step_rel_row (R : User -> User -> Prop) w w' i u :
  (forall u, R u u) -> step_rel R w w' -> users w !! i = Some u ->
  exists u', users w' !! i = Some u' /\ R u u'.
Proof.
  intros HR (k & Hother & Hk) Hu. destruct (decide (i = k)) as [->|Hne].
  - rewrite Hu in Hk. destruct (users w' !! k) as [u'|]; [eauto|contradiction].
  - exists u. rewrite Hother by assumption. split; [exact Hu | apply HR].
Qed.

Lemma step_ok_table w w' : step_ok w w' -> table_ok (users w) -> table_ok (users w').
Proof.
  intros (k & Hother & Hk) [Hrow Hmail].
  assert (forall u', users w' !! k = Some u' ->
            row_ok k u' /\
            forall j v, j <> k -> users w !! j = Some v -> email u' <> email v) as Hnew.
  { intros u' Hu'. rewrite Hu' in Hk. destruct (users w !! k) as [u|] eqn:Hu.
    - destruct (Hrow k u Hu) as (R1 & R2 & R3).
      destruct Hk as (E1 & E2 & E3 & E4 & E5 & E6).
      split.
      + unfold row_ok. repeat split; try lia; try congruence.
        intros Hv. destruct (E6 Hv) as [|[Hs Hc]]; [assumption|].
        rewrite Hc. auto.
      + intros j v Hj Hv Heq. apply Hj. symmetry.
        apply (Hmail k j u v Hu Hv). congruence.
    - destruct Hk as (e & (E1 & E2 & E3 & E4 & E5 & E6) & Ht). simpl in *.
      split.
      + unfold row_ok, MAX_VERIFICATION_RETRIES in *.
        repeat split; try lia; try congruence.
        intros Hv. destruct (E6 Hv) as [|[Hs Hc]]; [assumption|discriminate].
      + intros j v Hj Hv Heq.
        apply (email_taken_false e (users w) j v Ht Hv). congruence. }
  split.
  - intros i u Hi. destruct (decide (i = k)) as [->|Hne].
    + apply Hnew, Hi.
    + rewrite Hother in Hi by assumption. eauto.
  - intros i j u v Hi Hj Heq.
    destruct (decide (i = k)) as [->|Hi'], (decide (j = k)) as [->|Hj']; auto.
    + rewrite Hother in Hj by assumption.
      destruct (Hnew u Hi) as [_ H]. exfalso. exact (H j v Hj' Hj Heq).
    + rewrite Hother in Hi by assumption.
      destruct (Hnew v Hj) as [_ H]. exfalso. apply (H i u Hi' Hi). auto.
    + rewrite Hother in Hi, Hj by assumption. eauto.
Qed.

Ltac retries_below :=
  unfold MAX_VERIFICATION_RETRIES, Legacy.MAX_RETRIES in *; simpl in *;
  repeat match goal with
         | H : (_ <=? _)%Z = false |- _ => apply Z.leb_gt in H
         end;
  lia.

Ltac solve_evolves :=
  first [ apply evolves_refl
        | apply evolves_session; retries_below
        | apply evolves_status_update
        | apply evolves_legacy_update
        | eapply quiet_evolves;
          [solve_evolves
          | apply apply_data_quiet;
            repeat first [ apply List.Forall_nil
                         | apply List.Forall_cons;
                           [repeat split; try discriminate; try exact I|] ]] ].

Ltac solve_unpromoted :=
  first [ apply unpromoted_refl
        | apply apply_data_unpromoted; repeat constructor; simpl; discriminate ].

Ltac solve_ordinary := split; [solve_evolves | solve_unpromoted].

Ltac close_step :=
  simpl; rewrite ?insert_insert_eq; simplify_eq;
  first [ apply step_same; [exact ordinary_refl | reflexivity]
        | eapply step_update; [eassumption | | reflexivity]; solve_ordinary
        | match goal with
          | H : _ || email_taken _ _ = false |- _ =>
              apply orb_false_elim in H as [_ H]
          end;
          eapply step_create; [eassumption | eassumption | | reflexivity]; solve_ordinary ].

Lemma createVerificationSession_step env req w :
  step_rel ordinary w (snd (createVerificationSession env req w)).
Proof.
  destruct w as [us ca tr]. unfold createVerificationSession. exec; close_step.
Qed.

Lemma retrieveSession_step env req w :
  step_rel ordinary w (snd (retrieveSession env req w)).
Proof. destruct w as [us ca tr]. unfold retrieveSession. exec; close_step. Qed.

Lemma sendPhoneVerificationCode_step env req w :
  step_rel ordinary w (snd (sendPhoneVerificationCode env req w)).
Proof.
  destruct w as [us ca tr]. unfold sendPhoneVerificationCode. exec; close_step.
Qed.

Lemma checkPhoneVerificationCode_step env req w :
  step_rel ordinary w (snd (checkPhoneVerificationCode env req w)).
Proof.
  destruct w as [us ca tr]. unfold checkPhoneVerificationCode. exec; close_step.
Qed.

Lemma verifyIdDocument_step env req w :
  step_rel ordinary w (snd (verifyIdDocument env req w)).
Proof. destruct w as [us ca tr]. unfold verifyIdDocument. exec; close_step. Qed.

Lemma getUserVerificationStatus_step req w :
  step_rel ordinary w (snd (getUserVerificationStatus req w)).
Proof. destruct w as [us ca tr]. unfold getUserVerificationStatus. exec; close_step. Qed.

Lemma initiateDiditVerification_step env req w :
  step_rel ordinary w (snd (Legacy.initiateDiditVerification env req w)).
Proof.
  destruct w as [us ca tr]. unfold Legacy.initiateDiditVerification. exec; close_step.
Qed.

Lemma checkVerificationStatus_step req w :
  step_rel ordinary w (snd (Legacy.checkVerificationStatus req w)).
Proof.
  destruct w as [us ca tr]. unfold Legacy.checkVerificationStatus. exec; close_step.
Qed.

Lemma evolves_webhook_writes env payload data u :
  webhook_writes env payload = Some data -> evolves u (apply_data data u).
Proof.
  unfold webhook_writes. cbv zeta.
  match goal with
  | |- (if forallb assign_valid ?f then Some (?f ++ ?s)%list else None) = _ -> _ =>
      assert (evolves u (apply_data f u)) as Hf;
      [|assert (Forall quiet_assign s) as Hs;
        [|destruct (forallb assign_valid f); [|discriminate];
          intros [= <-]; rewrite apply_data_app;
          eapply quiet_evolves; [exact Hf | apply apply_data_quiet, Hs]]]
  end.
  - repeat case_match; solve_evolves.
  - clear Hf. destruct (_ && _); repeat constructor; simpl; discriminate.
Qed.

Lemma handleWebhook_step env req w : step_ok w (snd (handleWebhook env req w)).
Proof.
  destruct (handleWebhook_rows env req w) as (valid & _ & H).
  destruct valid; [|apply step_same; [exact evolves_refl | exact H]].
  unfold rows_after in H.
  destruct (get "vendor_data" _) as [[| | |i| |]|]; try (apply step_same; [exact evolves_refl | exact H]).
  destruct (webhook_writes env _) as [data|] eqn:Hw; try (apply step_same; [exact evolves_refl | exact H]).
  destruct (users w !! i) as [u|] eqn:Hu; try (apply step_same; [exact evolves_refl | exact H]).
  eapply step_update; [exact Hu | | exact H].
  eapply evolves_webhook_writes, Hw.
Qed.

Lemma diditWebhookHandler_step env req w :
  step_ok w (snd (Legacy.diditWebhookHandler env req w)).
Proof.
  destruct w as [us ca tr].
  unfold Legacy.diditWebhookHandler, Legacy.updateUserVerificationStatus,
    Legacy.triggerPostVerificationActions.
  cbv zeta.
  pose proof (evolves_legacy_update env (get "status" (body_json (req_body req)))
                (body_json (req_body req))) as Hdata.
  revert Hdata.
  generalize (Legacy.verification_update_data env (get "status" (body_json (req_body req)))
                (body_json (req_body req))).
  intros data Hdata.
  repeat (exec;
          try match goal with
              | |- context [fmap _ (?m !! ?k)] => destruct (m !! k) as [[? ?]|] eqn:?
              end);
    simpl; rewrite ?insert_insert_eq; simplify_eq;
    first [ apply step_same; [exact evolves_refl | reflexivity]
          | eapply step_update; [eassumption | | reflexivity];
            first [ apply Hdata
                  | eapply quiet_evolves;
                    [apply Hdata
                    | apply apply_data_quiet; repeat constructor; simpl; discriminate] ] ].
Qed.

Lemma ordinary_evolves u u' : ordinary u u' -> evolves u u'.
Proof. intros [H _]. exact H. Qed.

Lemma handler_step (r : Route) env req w : step_ok w (snd (handler r env req w)).
Proof.
  destruct r; simpl;
    first [ apply handleWebhook_step
          | apply diditWebhookHandler_step
          | apply (step_rel_weaken ordinary evolves _ _ ordinary_evolves);
            first [ apply createVerificationSession_step
                  | apply retrieveSession_step
                  | apply sendPhoneVerificationCode_step
                  | apply checkPhoneVerificationCode_step
                  | apply verifyIdDocument_step
                  | apply getUserVerificationStatus_step
                  | apply initiateDiditVerification_step
                  | apply checkVerificationStatus_step ] ].
Qed.

Lemma serve_table_ok (calls : list Call) (w : World) :
  table_ok (users w) -> table_ok (users (serve calls w)).
Proof.
  revert w. induction calls as [|c calls IH]; intros w Hw; [exact Hw|].
  simpl. apply IH. eapply step_ok_table; [apply handler_step | exact Hw].
Qed.

Lemma fresh_table_ok c tr : table_ok (users (fresh c tr)).
Proof.
  split; simpl.
  - intros i u H. rewrite lookup_empty in H. discriminate.
  - intros i j u v H. rewrite lookup_empty in H. discriminate.
Qed.

Lemma step_ok_row w w' i u :
  step_ok w w' -> users w !! i = Some u ->
  exists u', users w' !! i = Some u' /\ evolves u u'.
Proof. apply step_rel_row, evolves_refl. Qed.

(** X1.  Whatever requests the service has answered since it started
    with an empty user table, on whichever of its routes and whatever the
    provider and the cache did, no row counts more than
    [MAX_VERIFICATION_RETRIES] sessions (and none counts fewer than zero):
    the two controllers share the counter and neither goes past the
    bound. *)
Theorem retries_never_exceed_limit (calls : list Call) c tr i u :
  users (serve calls (fresh c tr)) !! i = Some u ->
  0 <= verificationRetries u <= MAX_VERIFICATION_RETRIES.
Proof.
  intros Hu. destruct (serve_table_ok calls (fresh c tr) (fresh_table_ok c tr)) as [Hrow _].
  destruct (Hrow i u Hu) as (_ & H & _). exact H.
Qed.

Lemma retries_never_exceed_limit_witness :
  exists u, users (serve journey (fresh ∅ [])) !! U = Some u /\
            0 <= verificationRetries u <= MAX_VERIFICATION_RETRIES.
Proof.
  eexists. split; [vm_compute; reflexivity|].
  apply (retries_never_exceed_limit journey ∅ [] U). vm_compute. reflexivity.
Defined.

Ltac close_no_new :=
  let k := fresh "k" in
  let Hk := fresh "Hk" in
  intros k Hk; simpl in *; rewrite ?insert_insert_eq; simplify_eq;
  first [ exact Hk
        | rewrite lookup_insert_ne by congruence; exact Hk ].

Lemma retrieveSession_no_new_rows env req w :
  no_new_rows w (snd (retrieveSession env req w)).
Proof. destruct w as [us ca tr]. unfold retrieveSession. exec; close_no_new. Qed.

Lemma sendPhoneVerificationCode_no_new_rows env req w :
  no_new_rows w (snd (sendPhoneVerificationCode env req w)).
Proof. destruct w as [us ca tr]. unfold sendPhoneVerificationCode. exec; close_no_new. Qed.

Lemma checkPhoneVerificationCode_no_new_rows env req w :
  no_new_rows w (snd (checkPhoneVerificationCode env req w)).
Proof. destruct w as [us ca tr]. unfold checkPhoneVerificationCode. exec; close_no_new. Qed.

Lemma verifyIdDocument_no_new_rows env req w :
  no_new_rows w (snd (verifyIdDocument env req w)).
Proof. destruct w as [us ca tr]. unfold verifyIdDocument. exec; close_no_new. Qed.

Lemma getUserVerificationStatus_no_new_rows req w :
  no_new_rows w (snd (getUserVerificationStatus req w)).
Proof. destruct w as [us ca tr]. unfold getUserVerificationStatus. exec; close_no_new. Qed.

Lemma checkVerificationStatus_no_new_rows req w :
  no_new_rows w (snd (Legacy.checkVerificationStatus req w)).
Proof.
  destruct w as [us ca tr]. unfold Legacy.checkVerificationStatus. exec; close_no_new.
Qed.

Lemma handleWebhook_no_new_rows env req w :
  no_new_rows w (snd (handleWebhook env req w)).
Proof.
  destruct (handleWebhook_rows env req w) as (valid & _ & H).
  intros k Hk. rewrite H. destruct valid; [|exact Hk].
  unfold rows_after.
  destruct (get "vendor_data" _) as [[| | |i| |]|]; try exact Hk.
  destruct (webhook_writes env _) as [data|]; try exact Hk.
  destruct (users w !! i) as [u|] eqn:Hu; try exact Hk.
  rewrite lookup_insert_ne by congruence. exact Hk.
Qed.

Lemma diditWebhookHandler_no_new_rows env req w :
  no_new_rows w (snd (Legacy.diditWebhookHandler env req w)).
Proof.
  destruct w as [us ca tr].
  unfold Legacy.diditWebhookHandler, Legacy.updateUserVerificationStatus,
    Legacy.triggerPostVerificationActions.
  cbv zeta.
  generalize (Legacy.verification_update_data env (get "status" (body_json (req_body req)))
                (body_json (req_body req))).
  intros data.
  repeat (exec;
          try match goal with
              | |- context [fmap _ (?m !! ?k)] => destruct (m !! k) as [[? ?]|] eqn:?
              end);
    close_no_new.
Qed.

Ltac close_created :=
  let Hn := fresh "Hn" in
  let Hs := fresh "Hs" in
  intros Hn Hs; simpl in *; rewrite ?insert_insert_eq in Hs; simplify_eq;
  first [ congruence
        | match type of Hs with
          | <[?s := _]> _ !! ?i = _ =>
              destruct (decide (i = s)) as [->|];
              [rewrite lookup_insert_eq in Hs; simplify_eq
              |rewrite lookup_insert_ne in Hs by congruence; congruence]
          end ].

Lemma createVerificationSession_creates env req w i u' :
  users w !! i = None ->
  users (snd (createVerificationSession env req w)) !! i = Some u' ->
  has_errors req = false /\
  get "userId" (body_json (req_body req)) = Some (JStr i) /\
  jstr (email u')
  = js_or (get_opt "email" (get "contactDetails" (body_json (req_body req))))
      (jstr (i ++ "@example.com")) /\
  email_taken (email u') (users w) = false /\
  id u' = i /\ kycStatus u' = PENDING /\ tradingEnabled u' = false.
Proof.
  destruct w as [us ca tr]. unfold createVerificationSession, js_or.
  exec; close_created;
    match goal with
    | H : _ || email_taken _ _ = false |- _ => apply orb_false_elim in H as [_ H]
    end;
    unfold apply_data; simpl; auto 10.
Qed.

Lemma initiateDiditVerification_creates env req w i u' :
  users w !! i = None ->
  users (snd (Legacy.initiateDiditVerification env req w)) !! i = Some u' ->
  has_errors req = false /\
  get "userId" (body_json (req_body req)) = Some (JStr i) /\
  jstr (email u') = jstr (i ++ "@example.com") /\
  email_taken (email u') (users w) = false /\
  id u' = i /\ kycStatus u' = PENDING /\ tradingEnabled u' = false.
Proof.
  destruct w as [us ca tr]. unfold Legacy.initiateDiditVerification.
  exec; close_created;
    match goal with
    | H : _ || email_taken _ _ = false |- _ => apply orb_false_elim in H as [_ H]
    end;
    unfold apply_data; simpl; auto 10.
Qed.

(** X2.  Rows come into being on the two session routes only.  If a
    request, on any route and from any state, leaves a row under an id
    that had none, the request was a session request that passed
    validation and named that id as [userId]; the row carries this id, is
    [PENDING] with trading disabled, and its e-mail, which no row had
    before, is [contactDetails.email] or else [<userId>@example.com] on
    the current route and always [<userId>@example.com] on the legacy
    one. *)
Theorem only_session_routes_create_rows (c : Call) (w : World) i u' :
  users w !! i = None ->
  users (serve1 w c) !! i = Some u' ->
  let b := body_json (req_body (call_req c)) in
  (route c = SessionCreate \/ route c = DiditInitiate) /\
  has_errors (call_req c) = false /\
  get "userId" b = Some (JStr i) /\
  id u' = i /\ kycStatus u' = PENDING /\ tradingEnabled u' = false /\
  (forall j v, users w !! j = Some v -> email v <> email u') /\
  jstr (email u')
  = match route c with
    | SessionCreate =>
        js_or (get_opt "email" (get "contactDetails" b)) (jstr (i ++ "@example.com"))
    | _ => jstr (i ++ "@example.com")
    end.
Proof.
  intros Hn Hs b. subst b. destruct c as [r env req]. unfold serve1 in Hs. simpl in *.
  destruct r; simpl in *;
    try (exfalso;
         first [ rewrite (retrieveSession_no_new_rows env req w i Hn) in Hs
               | rewrite (sendPhoneVerificationCode_no_new_rows env req w i Hn) in Hs
               | rewrite (checkPhoneVerificationCode_no_new_rows env req w i Hn) in Hs
               | rewrite (verifyIdDocument_no_new_rows env req w i Hn) in Hs
               | rewrite (handleWebhook_no_new_rows env req w i Hn) in Hs
               | rewrite (getUserVerificationStatus_no_new_rows req w i Hn) in Hs
               | rewrite (diditWebhookHandler_no_new_rows env req w i Hn) in Hs
               | rewrite (checkVerificationStatus_no_new_rows req w i Hn) in Hs ];
         discriminate Hs).
  - destruct (createVerificationSession_creates env req w i u' Hn Hs)
      as (H1 & H2 & H3 & H4 & H5 & H6 & H7).
    repeat split; auto.
    intros j v Hj. apply (email_taken_false _ _ j v H4 Hj).
  - destruct (initiateDiditVerification_creates env req w i u' Hn Hs)
      as (H1 & H2 & H3 & H4 & H5 & H6 & H7).
    repeat split; auto.
    intros j v Hj. apply (email_taken_false _ _ j v H4 Hj).
Qed.

Lemma only_session_routes_create_rows_witness :
  let c := call SessionCreate (env_at 1000 session_answer) create_request in
  exists u', users (serve1 empty_world c) !! U = Some u' /\
    id u' = U /\ kycStatus u' = PENDING /\ tradingEnabled u' = false /\
    jstr (email u') = jstr (U ++ "@example.com").
Proof.
  intros c. eexists. split; [vm_compute; reflexivity|].
  destruct (only_session_routes_create_rows c empty_world U _ eq_refl
              ltac:(vm_compute; reflexivity)) as (_ & _ & _ & H1 & H2 & H3 & _ & H4).
  split; [exact H1|]. split; [exact H2|]. split; [exact H3 | exact H4].
Defined.

(** X3.  A row of the running service whose status is [VERIFIED] has a
    time of completion: both webhook handlers write the two columns
    together, and no other route writes either. *)
Theorem verified_rows_have_completion_time (calls : list Call) c tr i u :
  users (serve calls (fresh c tr)) !! i = Some u ->
  kycStatus u = VERIFIED -> kycCompletedAt u <> None.
Proof.
  intros Hu. destruct (serve_table_ok calls (fresh c tr) (fresh_table_ok c tr)) as [Hrow _].
  destruct (Hrow i u Hu) as (_ & _ & H). exact H.
Qed.

Lemma verified_rows_have_completion_time_witness :
  exists u, users (serve journey (fresh ∅ [])) !! U = Some u /\
            kycStatus u = VERIFIED /\ kycCompletedAt u <> None.
Proof.
  eexists. split; [vm_compute; reflexivity|]. split; [reflexivity|].
  apply (verified_rows_have_completion_time journey ∅ [] U);
    [vm_compute; reflexivity | reflexivity].
Defined.

(** X4.  Trading, once enabled, is never disabled again, and no row is
    ever deleted: no sequence of requests, from any state of the service,
    takes [tradingEnabled] back, not a later [Declined] webhook and not
    the legacy route when it marks the user [FAILED].  This holds write
    by write (the only value a route ever writes into the column is
    [true]), whatever the order in which the writes of different requests
    reach the table. *)
Theorem rows_are_never_lost (calls : list Call) (w : World) i u :
  users w !! i = Some u ->
  exists u', users (serve calls w) !! i = Some u' /\
    (tradingEnabled u = true -> tradingEnabled u' = true).
Proof.
  revert w u. induction calls as [|c calls IH]; intros w u Hu.
  - exists u. simpl. auto.
  - destruct (step_ok_row w (serve1 w c) i u (handler_step _ _ _ _) Hu)
      as (u1 & Hu1 & _ & _ & _ & E4 & _).
    destruct (IH _ u1 Hu1) as (u' & Hu' & I4).
    exists u'. auto.
Qed.

Lemma rows_are_never_lost_witness :
  let calls := [call DiditWebhook (env_at 3000 session_answer) (signed approved_payload);
                call Webhook (env_at 4000 session_answer) (signed in_review_payload)] in
  exists u', users (serve calls (world_with (row_with_phone "+15551234567"))) !! U = Some u' /\
    tradingEnabled u' = true.
Proof.
  intros calls.
  destruct (rows_are_never_lost calls (world_with (row_with_phone "+15551234567")) U
              (row_with_phone "+15551234567") ltac:(vm_compute; reflexivity))
    as (u' & Hu' & H).
  exists u'. split; [exact Hu' | exact (H eq_refl)].
Defined.

(** X5.  [createVerificationSession] for a user without a row creates the
    row first, under the address [contactDetails.email] or, without one,
    [<userId>@example.com].  When that address is taken (or is not a
    string) the request is answered 502 and the provider is not called.
    Otherwise the provider is called once and the new row stays whatever
    it answers: with one session counted when it answered with a body,
    with none when the call failed. *)
Theorem session_for_unknown_user env req w i :
  has_errors req = false ->
  get "userId" (body_json (req_body req)) = Some (JStr i) ->
  users w !! i = None ->
  let address := js_or (get_opt "email" (get "contactDetails" (body_json (req_body req))))
                   (jstr (i ++ "@example.com")) in
  let out := createVerificationSession env req w in
  match address with
  | Some (JStr e) =>
      if email_taken e (users w)
      then status_of (fst out) = Some 502 /\ users (snd out) = users w /\
           provider_calls (trace (snd out)) = provider_calls (trace w)
      else exists u', users (snd out) !! i = Some u' /\
             id u' = i /\ email u' = e /\ kycStatus u' = PENDING /\
             tradingEnabled u' = false /\
             verificationRetries u'
             = match provider env with
               | Ok (Some JNull) | Ok None | Throw _ => 0
               | Ok (Some _) => 1
               end /\
             provider_calls (trace (snd out)) = S (provider_calls (trace w))
  | _ => status_of (fst out) = Some 502 /\ users (snd out) = users w /\
         provider_calls (trace (snd out)) = provider_calls (trace w)
  end.
Proof.
  intros Herr Hid Hu. destruct w as [us ca tr]. simpl in Hu.
  unfold createVerificationSession. rewrite Herr, Hid. cbv zeta.
  change (template (Some (JStr i))) with i.
  unfold js_or.
  set (address := if truthy _ then _ else _).
  simpl.
  destruct address as [[| | |e| |]|] eqn:Ha; unfold_monad; simpl; rewrite ?Hu; simpl; auto.
  destruct (email_taken e us) eqn:Ht; simpl.
  { unfold handleDiditApiError. simpl. auto. }
  destruct (provider env) as [[[| | | | |]|]|]; simpl; rewrite ?lookup_insert_eq; simpl;
    try destruct (redis_set_fails env); simpl; rewrite ?insert_insert_eq, ?lookup_insert_eq;
    eexists; (split; [reflexivity|]); unfold apply_data; simpl; auto 10.
Qed.

Lemma session_for_unknown_user_witness :
  let out := createVerificationSession (env_at 1000 session_answer) create_request
               empty_world in
  exists u', users (snd out) !! U = Some u' /\
    id u' = U /\ email u' = U ++ "@example.com" /\ kycStatus u' = PENDING /\
    tradingEnabled u' = false /\ verificationRetries u' = 1 /\
    provider_calls (trace (snd out)) = S (provider_calls (trace empty_world)).
Proof.
  exact (session_for_unknown_user (env_at 1000 session_answer) create_request
           empty_world U eq_refl eq_refl eq_refl).
Defined.

Lemma handleDiditApiError_status e :
  In (status (handleDiditApiError e)) [400; 404; 429; 500; 502].
Proof.
  unfold handleDiditApiError. cbv zeta. repeat case_bool_decide; simpl; auto 10.
Qed.

(** X6.  A session request answered 201 while Redis works has stored
    exactly one cache entry: under [didit:session:<session_id>], with the
    user, the correlation id, the time and the session number, to live
    for [SESSION_TTL] = 3600 seconds; every other key is as before. *)
Theorem session_entry_stored env req w r :
  fst (createVerificationSession env req w) = Ok r ->
  status r = 201 ->
  redis_set_fails env = false ->
  exists data,
    provider env = Ok (Some data) /\
    cache (snd (createVerificationSession env req w))
    = <[session_key (get "session_id" data)
        := session_entry env (get "userId" (body_json (req_body req))) data]> (cache w).
Proof.
  destruct w as [us ca tr]. unfold createVerificationSession, session_key, session_entry.
  intros Hr Hst Hset. revert Hr.
  exec; intros [= <-]; try discriminate Hst; try congruence; simplify_eq; eauto.
  all: exfalso; pose proof (handleDiditApiError_status e) as H; rewrite Hst in H;
    simpl in H; intuition discriminate.
Qed.

Lemma session_entry_stored_witness :
  let out := createVerificationSession (env_at 1000 session_answer) create_request
               empty_world in
  exists data,
    provider (env_at 1000 session_answer) = Ok (Some data) /\
    cache (snd out)
    = <[session_key (get "session_id" data)
        := session_entry (env_at 1000 session_answer) (jstr U) data]> (cache empty_world).
Proof.
  apply (session_entry_stored (env_at 1000 session_answer) create_request empty_world
           (session_created (JObj [("session_id", JStr "sess-1"); ("session_number", JNum 7);
                                   ("session_token", JStr "tok");
                                   ("url", JStr "https://verify.didit.me/s/1");
                                   ("status", JStr "Not Started")])
              (new_user U (U ++ "@example.com"))));
    reflexivity.
Defined.

Ltac bool_facts :=
  repeat match goal with
         | H : _ && _ = true |- _ => apply andb_prop in H as [? ?]
         | H : _ && _ = false |- _ => apply andb_false_iff in H as [?|?]
         | H : negb _ = true |- _ => apply negb_true_iff in H
         | H : negb _ = false |- _ => apply negb_false_iff in H
         | H : bool_decide _ = true |- _ => apply bool_decide_eq_true in H
         | H : bool_decide _ = false |- _ => apply bool_decide_eq_false in H
         end.

Lemma handleWebhook_cache env req w :
  exists valid,
    fst (verifyWebhookSignature env (stringify (body_json (req_body req)))
           (req_signature req) w) = Ok valid /\
    cache (snd (handleWebhook env req w))
    = if valid && is_terminal (get "status" (body_json (req_body req)))
         && webhook_updates env (body_json (req_body req)) (users w)
         && negb (redis_del_fails env)
      then delete (session_key (get "session_id" (body_json (req_body req)))) (cache w)
      else cache w.
Proof.
  destruct (verifyWebhookSignature_run env (stringify (body_json (req_body req)))
              (req_signature req) w) as (valid & w1 & Hrun & Hus & Hca & _).
  exists valid. rewrite Hrun. split; [reflexivity|].
  unfold handleWebhook. rewrite bind_run, Hrun. rewrite <- Hus, <- Hca. clear Hrun Hus Hca.
  destruct valid; simpl; [|reflexivity].
  unfold webhook_updates, session_key, handleStatusUpdate, handleDataUpdate,
    triggerPostVerificationActions.
  destruct w1 as [us ca tr]. cbv zeta.
  generalize (status_update_data env (get "status" (body_json (req_body req)))
                (get "decision" (body_json (req_body req)))).
  intros data.
  exec; try reflexivity; exfalso; bool_facts; simplify_eq/=; try congruence;
    try match goal with
        | H : ¬ is_Some (Some _) |- _ => apply H; eauto
        | H : is_Some None |- _ => destruct H; discriminate
        end.
Qed.

Lemma authentic_valid env req w valid :
  fst (verifyWebhookSignature env (stringify (body_json (req_body req)))
         (req_signature req) w) = Ok valid ->
  authentic env req -> valid = true.
Proof.
  intros Hv Ha. apply verifyWebhookSignature_true with (w := w) in Ha. congruence.
Qed.

(** X7.  What an accepted webhook does to the cache, Redis working: it
    removes the entry [didit:session:<session_id>] when the status is
    terminal ([Approved], [Declined], [Abandoned]) and the row update went
    through, and leaves the cache as it was in every other case; it never
    writes an entry.  So the entry of a session whose user has no row is
    left to expire. *)
Theorem terminal_webhook_clears_session_entry env req w :
  authentic env req ->
  redis_del_fails env = false ->
  cache (snd (handleWebhook env req w))
  = if is_terminal (get "status" (body_json (req_body req)))
       && webhook_updates env (body_json (req_body req)) (users w)
    then delete (session_key (get "session_id" (body_json (req_body req)))) (cache w)
    else cache w.
Proof.
  intros Ha Hdel. destruct (handleWebhook_cache env req w) as (valid & Hv & ->).
  rewrite (authentic_valid env req w valid Hv Ha), Hdel. simpl.
  rewrite andb_true_r. reflexivity.
Qed.

Lemma terminal_webhook_clears_session_entry_witness :
  let w := snd (createVerificationSession (env_at 1000 session_answer) create_request
                  empty_world) in
  cache w !! "didit:session:sess-1" <> None /\
  cache (snd (handleWebhook (env_at 2000 session_answer) (signed approved_payload) w))
        !! "didit:session:sess-1" = None.
Proof.
  intros w. split; [vm_compute; discriminate|].
  rewrite (terminal_webhook_clears_session_entry (env_at 2000 session_answer)
             (signed approved_payload) w).
  - vm_compute. reflexivity.
  - exists (Crypto.hmac_hex "whsec_test" (stringify (JObj approved_payload))), "whsec_test".
    repeat split; try reflexivity; vm_compute; discriminate.
  - reflexivity.
Defined.

(** X8.  An accepted webhook that is not a [status.updated] one leaves
    the status, the time of completion, the sub-verification flags, the
    phone number and the counter of the row alone; a [data.updated] one
    with a decision replaces [kycDetails].  It still enables trading when
    its status is [Approved] and it carries a decision, whatever the
    status of the row. *)
Theorem data_update_keeps_status env req w i u :
  authentic env req ->
  eq_str (get "webhook_type" (body_json (req_body req))) "status.updated" = false ->
  get "vendor_data" (body_json (req_body req)) = Some (JStr i) ->
  users w !! i = Some u ->
  let payload := body_json (req_body req) in
  exists u', users (snd (handleWebhook env req w)) !! i = Some u' /\
    kycStatus u' = kycStatus u /\ kycCompletedAt u' = kycCompletedAt u /\
    kycProvider u' = kycProvider u /\
    idVerified u' = idVerified u /\ phoneVerified u' = phoneVerified u /\
    phoneNumber u' = phoneNumber u /\
    verificationRetries u' = verificationRetries u /\
    kycDetails u'
    = match get "decision" payload with
      | Some d => if eq_str (get "webhook_type" payload) "data.updated" && truthy (Some d)
                  then Some (stringify d) else kycDetails u
      | None => kycDetails u
      end /\
    tradingEnabled u'
    = tradingEnabled u
      || (eq_str (get "status" payload) "Approved" && truthy (get "decision" payload)).
Proof.
  intros Ha Hty Hid Hu payload. subst payload.
  destruct (handleWebhook_rows env req w) as (valid & Hv & ->).
  rewrite (authentic_valid env req w valid Hv Ha).
  unfold rows_after, webhook_writes. rewrite Hid, Hty. cbv zeta.
  destruct u.
  destruct (eq_str _ "data.updated");
    destruct (get "decision" (body_json (req_body req))) as [d|];
    try destruct (truthy (Some d)); simpl;
    destruct (eq_str _ "Approved"); simpl; rewrite Hu, lookup_insert_eq;
    eexists; (split; [reflexivity|]); unfold apply_data; simpl;
    rewrite ?orb_true_r, ?orb_false_r; auto 12.
Qed.

Lemma signed_authentic (b : list (string * json)) (t : Z) (a : Result value) :
  authentic (env_at t a) (signed b).
Proof.
  exists (Crypto.hmac_hex "whsec_test" (stringify (JObj b))), "whsec_test".
  repeat split; try reflexivity; try discriminate.
  intros H. pose proof (length_hmac_hex "whsec_test" (stringify (JObj b))) as L.
  rewrite H in L. discriminate L.
Qed.

Lemma data_update_keeps_status_witness :
  let w := world_with (row FAILED 1) in
  exists u', users (snd (handleWebhook (env_at 2000 session_answer)
                           (signed data_update_payload) w)) !! U = Some u' /\
             kycStatus u' = FAILED /\ tradingEnabled u' = true.
Proof.
  intros w.
  destruct (data_update_keeps_status (env_at 2000 session_answer) (signed data_update_payload)
              w U (row FAILED 1) (signed_authentic _ _ _) eq_refl eq_refl eq_refl)
    as (u' & Hu' & Hk & _ & _ & _ & _ & _ & _ & _ & Ht).
  exists u'. split; [exact Hu'|]. split; [exact Hk | exact Ht].
Defined.

(** X9.  [verifyIdDocument], the provider having answered: when the
    answer's status is [verified] or [Approved], the row of [userId] gets
    [idVerified] and the answer as [kycDetails]; every other column of
    it, its [kycStatus] included, and every other row stay as they were.
    Without such a row the request is answered 502 although the document
    was verified.  For any other status the table is left alone.  The 200
    answer repeats the provider's fields. *)
Theorem id_verification_marks_row env req w r :
  has_errors req = false ->
  provider env = Ok (Some r) ->
  r <> JNull ->
  let out := verifyIdDocument env req w in
  if eq_str (get "status" r) "verified" || eq_str (get "status" r) "Approved"
  then match get "userId" (body_json (req_body req)) with
       | Some (JStr i) =>
           match users w !! i with
           | Some u =>
               fst out = Ok (id_result r) /\
               (forall j, j <> i -> users (snd out) !! j = users w !! j) /\
               users (snd out) !! i
               = Some (mkUser (id u) (email u) (kycStatus u) (kycProvider u)
                         (kycCompletedAt u) (Some (stringify r)) (tradingEnabled u)
                         (verificationRetries u) (lastVerificationAttempt u) true
                         (phoneVerified u) (phoneNumber u) (emailVerified u))
           | None => status_of (fst out) = Some 502 /\ users (snd out) = users w
           end
       | _ => status_of (fst out) = Some 502 /\ users (snd out) = users w
       end
  else fst out = Ok (id_result r) /\ users (snd out) = users w.
Proof.
  intros Herr Hp Hr. destruct w as [us ca tr].
  unfold verifyIdDocument. rewrite Herr. cbv zeta. unfold_monad. rewrite Hp. simpl.
  destruct r; try contradiction; simpl; auto.
  destruct (eq_str _ "verified" || eq_str _ "Approved"); simpl; [|auto].
  destruct (get "userId" (body_json (req_body req))) as [[| | |i| |]|]; simpl; auto.
  destruct (us !! i) as [u|] eqn:Hu; simpl; auto.
  split; [reflexivity|].
  split; [intros j Hj; apply lookup_insert_ne; auto|].
  rewrite lookup_insert_eq. destruct u. reflexivity.
Qed.

Lemma id_verification_marks_row_witness :
  let env := env_at 1000 (Ok (Some document_answer)) in
  let req := json_request [("userId", JStr U); ("frontImage", JStr "aGVsbG8=")] in
  let out := verifyIdDocument env req (world_with (row FAILED 2)) in
  fst out = Ok (id_result document_answer) /\
  users (snd out) !! U
  = Some (mkUser U "u@example.com" FAILED None None (Some (stringify document_answer))
            false 2 None true false None false).
Proof.
  intros env req out.
  destruct (id_verification_marks_row env req (world_with (row FAILED 2)) document_answer
              eq_refl eq_refl ltac:(discriminate)) as (Hr & _ & Hu).
  split; [exact Hr | exact Hu].
Defined.

Lemma get_defined_other (k : string) (fields : list (string * value)) :
  Forall (fun kv => fst kv <> k) fields -> get k (obj fields) = None.
Proof.
  unfold obj. simpl. induction 1 as [|[k' [v|]] fields Hk _ IH]; simpl in *; auto.
  destruct (String.eqb_spec k k') as [->|]; [contradiction|auto].
Qed.

(** X10.  The browser client and the server disagree on the name of the
    phone number: [VerificationAPI.checkPhoneCode] posts [code] and
    [phoneNumber], [checkPhoneVerificationCode] reads [phone_number]
    only.  Whatever code and number the client is given, the server
    answers 400 without asking the provider, and [request] throws:
    ['phone_number is required'], or ['Request failed'] when the
    validation chain found fault with the code. *)
Theorem client_phone_check_always_refused env errors code phoneNumber w :
  let req := Client.validated errors (Client.checkPhoneCode code phoneNumber) in
  let out := checkPhoneVerificationCode env req w in
  exists r failure,
    fst out = Ok r /\ status r = 400 /\
    users (snd out) = users w /\ cache (snd out) = cache w /\
    provider_calls (trace (snd out)) = provider_calls (trace w) /\
    Client.request r = inl failure /\
    Client.failure_status failure = 400 /\
    Client.message failure
    = match errors with [] => "phone_number is required" | _ => "Request failed" end.
Proof.
  intros req out.
  assert (Hb : get "phone_number" (body_json (req_body req)) = None).
  { apply (get_defined_other "phone_number" [("code", code); ("phoneNumber", phoneNumber)]).
    repeat constructor; simpl; discriminate. }
  assert (He : req_errors req = errors) by reflexivity.
  clearbody req. subst out. destruct w as [us ca tr].
  unfold checkPhoneVerificationCode, has_errors, validation_failed. rewrite He, Hb.
  destruct errors as [|e errors]; unfold_monad; simpl;
    eexists; eexists; repeat split; reflexivity.
Qed.

(** X11.  The routes that only talk to the provider, and the two status
    routes, never write the user table, whatever the provider answers:
    a phone number confirmed through [/phone/check] does not set
    [phoneVerified], only a webhook does.  All of them but [/phone/send]
    leave the cache alone as well. *)
Theorem provider_routes_never_write_rows env req w :
  (users (snd (retrieveSession env req w)) = users w /\
   cache (snd (retrieveSession env req w)) = cache w) /\
  users (snd (sendPhoneVerificationCode env req w)) = users w /\
  (users (snd (checkPhoneVerificationCode env req w)) = users w /\
   cache (snd (checkPhoneVerificationCode env req w)) = cache w) /\
  (users (snd (getUserVerificationStatus req w)) = users w /\
   cache (snd (getUserVerificationStatus req w)) = cache w) /\
  (users (snd (Legacy.checkVerificationStatus req w)) = users w /\
   cache (snd (Legacy.checkVerificationStatus req w)) = cache w).
Proof.
  destruct w as [us ca tr]. repeat split.
  - unfold retrieveSession. exec; reflexivity.
  - unfold retrieveSession. exec; reflexivity.
  - unfold sendPhoneVerificationCode. exec; reflexivity.
  - unfold checkPhoneVerificationCode. exec; reflexivity.
  - unfold checkPhoneVerificationCode. exec; reflexivity.
  - unfold getUserVerificationStatus. exec; reflexivity.
  - unfold getUserVerificationStatus. exec; reflexivity.
  - unfold Legacy.checkVerificationStatus. exec; reflexivity.
  - unfold Legacy.checkVerificationStatus. exec; reflexivity.
Qed.

Lemma maskPhoneNumber_throws v e : maskPhoneNumber v = Throw e -> err_response e = None.
Proof.
  unfold maskPhoneNumber. destruct (negb (truthy v)); [discriminate|].
  destruct v as [[| | | |items|]|]; try destruct (_ <=? _)%nat;
    intros [= <-]; reflexivity.
Qed.

Lemma handleDiditApiError_local e :
  err_response e = None -> status (handleDiditApiError e) = 502.
Proof. intros H. unfold handleDiditApiError. rewrite H. reflexivity. Qed.

Lemma client_request_error e :
  exists failure,
    Client.request (handleDiditApiError e) = inl failure /\
    Client.failure_status failure = status (handleDiditApiError e) /\
    Some (JStr (Client.message failure)) = field "error" (handleDiditApiError e).
Proof.
  unfold handleDiditApiError. cbv zeta.
  repeat case_bool_decide; eexists; (split; [reflexivity|]); split; reflexivity.
Qed.

(** X12.  From the browser to the provider and back.  A number given to
    [VerificationAPI.sendPhoneCode] that the validation chain of the
    route turns down is answered 400 with the list of errors, the
    provider is not called and [request] throws ['Request failed'].  A
    number that passes reaches the provider as [phone_number] in one
    request.  When the provider answers with a body, the client gets that
    body as it is, unless the body's own [phone_number] cannot be masked
    for the log (a number, say): then the answer is the 502 of a failed
    call, the code having been sent.  When the provider fails, [request]
    throws with the status and the [error] text of
    [handleDiditApiError].  (A [phone_number] in the provider's body that
    is itself an object is left aside.) *)
Theorem client_phone_send_forwarded env errors number userId w :
  number <> "" ->
  (forall d fields, provider env = Ok (Some d) -> get "phone_number" d <> Some (JObj fields)) ->
  let req := Client.validated errors (Client.sendPhoneCode (jstr number) userId) in
  let out := sendPhoneVerificationCode env req w in
  match errors with
  | _ :: _ =>
      fst out = Ok (validation_failed req) /\
      provider_requests (trace (snd out)) = provider_requests (trace w) /\
      exists failure,
        Client.request (validation_failed req) = inl failure /\
        Client.failure_status failure = 400 /\
        Client.message failure = "Request failed"
  | [] =>
      provider_requests (trace (snd out))
      = ("POST /phone/send/", Some (obj [("phone_number", jstr number)]))
          :: provider_requests (trace w) /\
      match provider env with
      | Ok (Some JNull) | Ok None => status_of (fst out) = Some 502
      | Ok (Some d) =>
          match maskPhoneNumber (js_or (get "phone_number" d) (jstr number)) with
          | Ok _ => fst out = Ok {| status := 200; body := Some d |} /\
                    Client.request {| status := 200; body := Some d |} = inr d
          | Throw e =>
              fst out = Ok (handleDiditApiError e) /\ status (handleDiditApiError e) = 502
          end
      | Throw e =>
          fst out = Ok (handleDiditApiError e) /\
          exists failure,
            Client.request (handleDiditApiError e) = inl failure /\
            Client.failure_status failure = status (handleDiditApiError e) /\
            Some (JStr (Client.message failure)) = field "error" (handleDiditApiError e)
      end
  end.
Proof.
  intros Hn _ req out.
  assert (Hb : get "phone_number" (body_json (req_body req)) = None).
  { apply (get_defined_other "phone_number" [("phoneNumber", jstr number); ("userId", userId)]).
    repeat constructor; simpl; discriminate. }
  assert (Hb' : get "phoneNumber" (body_json (req_body req)) = jstr number) by reflexivity.
  assert (He : req_errors req = errors) by reflexivity.
  clearbody req. subst out. destruct w as [us ca tr].
  unfold sendPhoneVerificationCode, has_errors. rewrite He.
  destruct errors as [|err errors].
  2: { unfold ret, validation_failed. simpl. split; [reflexivity|]. split; [reflexivity|].
       eexists. split; [reflexivity|]. split; reflexivity. }
  rewrite Hb, Hb'.
  change (js_or None (jstr number)) with (jstr number).
  pose proof (truthy_nonempty number Hn) as Ht. rewrite Ht. simpl negb. cbv iota zeta.
  assert (maskPhoneNumber (jstr number) = Ok (jstr (mask number))) as Hm.
  { unfold maskPhoneNumber. rewrite Ht. reflexivity. }
  unfold_monad. rewrite Hm. simpl.
  destruct (provider env) as [[d|]|e]; simpl.
  - destruct d; simpl; try (split; reflexivity);
      try change (js_or None (jstr number)) with (jstr number); rewrite ?Hm;
      destruct (redis_set_fails env); simpl; try (repeat split; reflexivity).
    all: destruct (maskPhoneNumber (js_or _ _)) as [m|e] eqn:Hmk; simpl;
      (split; [reflexivity|]); split; try reflexivity.
    all: apply handleDiditApiError_local, (maskPhoneNumber_throws _ _ Hmk).
  - split; reflexivity.
  - rewrite ?Hm. simpl. split; [reflexivity|]. split; [reflexivity|].
    apply client_request_error.
Qed.

Lemma client_phone_send_forwarded_witness :
  let d := JObj [("request_id", JStr "req-1"); ("status", JStr "Success")] in
  let out := sendPhoneVerificationCode (env_at 1000 (Ok (Some d)))
               (Client.validated [] (Client.sendPhoneCode (jstr "+14155552671") (jstr U)))
               empty_world in
  provider_requests (trace (snd out))
  = [("POST /phone/send/", Some (obj [("phone_number", jstr "+14155552671")]))] /\
  fst out = Ok {| status := 200; body := Some d |} /\
  Client.request {| status := 200; body := Some d |} = inr d.
Proof.
  intros d out.
  assert (forall d' fields, provider (env_at 1000 (Ok (Some d))) = Ok (Some d') ->
                            get "phone_number" d' <> Some (JObj fields)) as Hd.
  { intros d' fields [= <-]. discriminate. }
  destruct (client_phone_send_forwarded (env_at 1000 (Ok (Some d))) [] "+14155552671"
              (jstr U) empty_world ltac:(discriminate) Hd) as [H1 H2].
  split; [exact H1 | exact H2].
Defined.

(** X13.  A phone number that arrives as a JSON number (and is not 0)
    makes both phone handlers throw instead of answering: masking it for
    the log throws inside [try], and the [catch] block masks it again
    before it gets to [handleDiditApiError].  The provider is not
    called. *)
Theorem numeric_phone_number_escapes_catch env req w n :
  has_errors req = false ->
  get "phone_number" (body_json (req_body req)) = Some (JNum n) ->
  n <> 0 ->
  exists e,
    fst (checkPhoneVerificationCode env req w) = Throw e /\
    fst (sendPhoneVerificationCode env req w) = Throw e /\
    provider_calls (trace (snd (checkPhoneVerificationCode env req w)))
    = provider_calls (trace w) /\
    provider_calls (trace (snd (sendPhoneVerificationCode env req w)))
    = provider_calls (trace w).
Proof.
  intros Herr Hb Hn. destruct w as [us ca tr].
  unfold checkPhoneVerificationCode, sendPhoneVerificationCode, js_or.
  rewrite Herr, Hb. cbv zeta.
  assert (truthy (Some (JNum n)) = true) as Ht.
  { simpl. apply negb_true_iff, Z.eqb_neq, Hn. }
  rewrite Ht. simpl negb. cbv iota.
  assert (maskPhoneNumber (Some (JNum n))
          = Throw (plain_error "phone.slice is not a function")) as Hm.
  { unfold maskPhoneNumber. rewrite Ht. reflexivity. }
  assert ((n =? 0)%Z = false) as Hz by (apply Z.eqb_neq, Hn).
  unfold_monad. rewrite !Hm. simpl. rewrite ?Hz. simpl.
  eexists. repeat split; reflexivity.
Qed.

Lemma numeric_phone_number_escapes_catch_witness :
  let req := json_request [("phone_number", JNum 15551234567); ("code", JStr "123456")] in
  exists e,
    fst (checkPhoneVerificationCode (env_at 1000 session_answer) req empty_world) = Throw e /\
    fst (sendPhoneVerificationCode (env_at 1000 session_answer) req empty_world) = Throw e.
Proof.
  intros req.
  destruct (numeric_phone_number_escapes_catch (env_at 1000 session_answer) req empty_world
              15551234567 eq_refl eq_refl ltac:(discriminate)) as (e & H1 & H2 & _).
  exists e. split; [exact H1 | exact H2].
Defined.

(** X14.  The two status routes are read-only and agree: both answer 404
    exactly for an id without a row, and for a row 200 with the same
    [userId], [kycStatus], flags, counter, [retriesRemaining] (never
    negative), [lastAttempt], [completedAt] and [tradingEnabled]; the
    current route adds the e-mail, the provider and the masked phone
    number, and marks its 404 with [success: false]. *)
Theorem status_routes_agree req w :
  let current := getUserVerificationStatus req w in
  let legacy := Legacy.checkVerificationStatus req w in
  snd current = w /\ snd legacy = w /\
  match users w !! req_param req with
  | None =>
      status_of (fst current) = Some 404 /\ status_of (fst legacy) = Some 404
  | Some u =>
      exists r r', fst current = Ok r /\ fst legacy = Ok r' /\
        status r = 200 /\ status r' = 200 /\
        Forall (fun k => get_opt k (field "data" r) = get_opt k (field "data" r'))
          ["userId"; "kycStatus"; "idVerified"; "phoneVerified"; "verificationRetries";
           "retriesRemaining"; "lastAttempt"; "tradingEnabled"; "completedAt"] /\
        get_opt "retriesRemaining" (field "data" r)
        = jnum (Z.max 0 (MAX_VERIFICATION_RETRIES - verificationRetries u)) /\
        0 <= Z.max 0 (MAX_VERIFICATION_RETRIES - verificationRetries u)
  end.
Proof.
  destruct w as [us ca tr].
  unfold getUserVerificationStatus, Legacy.checkVerificationStatus, jstr.
  unfold_monad. simpl.
  destruct (us !! req_param req) as [u|]; simpl; [|auto].
  assert (exists m, (if truthy (col_str (phoneNumber u))
                     then maskPhoneNumber (col_str (phoneNumber u))
                     else Ok (Some JNull)) = Ok (Some m)) as [m ->].
  { destruct (phoneNumber u) as [p|]; simpl; [|eauto].
    unfold maskPhoneNumber. simpl. destruct (negb (String.eqb p "")); simpl; eauto. }
  simpl. split; [reflexivity|]. split; [reflexivity|].
  eexists. eexists. split; [reflexivity|]. split; [reflexivity|].
  split; [reflexivity|]. split; [reflexivity|].
  destruct u as [i e ks kp kc kd te vr la iv pv pn ev]. simpl.
  split; [|split; [destruct kp; reflexivity | lia]].
  destruct kp, kc, la; repeat constructor.
Qed.

(** X15.  The two controllers answer the same failure of the provider
    with the same status, except for an upstream 429 or 404: the current
    routes pass those on, the legacy [catch] block of
    [initiateDiditVerification] turns both into 502 and drops the
    retry-after hint. *)
Theorem legacy_error_mapping_differs e :
  (upstream_status e <> Some 429 -> upstream_status e <> Some 404 ->
   status (Legacy.session_error e) = status (handleDiditApiError e)) /\
  (upstream_status e = Some 429 \/ upstream_status e = Some 404 ->
   status (Legacy.session_error e) = 502 /\
   status (handleDiditApiError e) <> 502 /\
   field "retryAfter" (Legacy.session_error e) = None).
Proof.
  unfold upstream_status, Legacy.session_error, handleDiditApiError. cbv zeta.
  split.
  - intros H1 H2. repeat case_bool_decide; try reflexivity; congruence.
  - intros [H|H]; rewrite H; repeat case_bool_decide; try discriminate;
      try congruence;
      destruct (err_response e ≫= resp_data); simpl; repeat split;
      first [reflexivity | discriminate].
Qed.

Lemma legacy_error_mapping_differs_witness :
  status (Legacy.session_error upstream_401) = status (handleDiditApiError upstream_401).
Proof.
  apply (legacy_error_mapping_differs upstream_401); vm_compute; discriminate.
Defined.

(** X16.  What an accepted webhook on the legacy route does to a row:
    every status but ['completed'] (the provider's [Approved],
    [Declined] and [In Review] included) makes the user [FAILED] and
    clears the time of completion, also for a user who was [VERIFIED];
    ['completed'] makes the user [VERIFIED], stamps the time and enables
    trading.  Trading, once enabled, stays enabled and the counter is not
    touched.  The session entry is removed from the cache whatever the
    status. *)
Theorem legacy_webhook_effect env req w i u :
  let payload := body_json (req_body req) in
  let done := eq_str (get "status" payload) "completed" in
  let out := Legacy.diditWebhookHandler env req w in
  Legacy.verifyDiditSignature env payload (req_signature req) = Ok true ->
  get "vendor_data" payload = Some (JStr i) ->
  users w !! i = Some u ->
  forallb assign_valid (Legacy.verification_update_data env (get "status" payload) payload)
  = true ->
  exists u', users (snd out) !! i = Some u' /\
    kycStatus u' = (if done then VERIFIED else FAILED) /\
    kycCompletedAt u' = (if done then Some (now env) else None) /\
    tradingEnabled u' = tradingEnabled u || done /\
    verificationRetries u' = verificationRetries u /\
    (redis_del_fails env = false ->
     cache (snd out) = delete (session_key (get "session_id" payload)) (cache w)).
Proof.
  intros payload done out Hsig Hid Hu Hvalid. subst out done payload.
  destruct w as [us ca tr]. simpl in Hu.
  unfold Legacy.diditWebhookHandler, Legacy.updateUserVerificationStatus,
    Legacy.triggerPostVerificationActions, session_key.
  rewrite Hsig, Hid. cbv zeta.
  unfold Legacy.verification_update_data in *. cbv zeta in Hvalid.
  match goal with
  | |- context [truthy ?p] =>
      match p with js_or _ (Some JNull) => generalize dependent p end
  end.
  intros pn Hvalid.
  destruct pn as [[| | |s| |]|]; simpl in Hvalid; try discriminate Hvalid.
  all: destruct u as [i0 e ks kp kc kd te vr la iv pv pn ev].
  all: repeat (exec;
               try match goal with
                   | |- context [fmap _ (?m !! ?k)] => destruct (m !! k) as [[? ?]|] eqn:?
                   end).
  all: simplify_eq/=; rewrite ?insert_insert_eq, ?lookup_insert_eq.
  all: eexists; (split; [reflexivity|]); unfold apply_data; simpl;
    rewrite ?orb_true_r, ?orb_false_r; repeat split; auto; intros; congruence.
Qed.

Lemma legacy_webhook_effect_witness :
  let w := world_with (row_with_phone "+15551234567") in
  let out := Legacy.diditWebhookHandler (env_at 3000 session_answer) (signed approved_payload)
               w in
  exists u', users (snd out) !! U = Some u' /\
    kycStatus u' = FAILED /\ kycCompletedAt u' = None /\ tradingEnabled u' = true.
Proof.
  intros w out.
  assert (Legacy.verifyDiditSignature (env_at 3000 session_answer)
            (body_json (req_body (signed approved_payload)))
            (req_signature (signed approved_payload)) = Ok true) as Hsig
    by (vm_compute; reflexivity).
  destruct (legacy_webhook_effect (env_at 3000 session_answer) (signed approved_payload) w U
              (row_with_phone "+15551234567") Hsig eq_refl eq_refl eq_refl)
    as (u' & Hu' & Hk & Hc & Ht & _).
  exists u'. split; [exact Hu'|]. split; [exact Hk|]. split; [exact Hc | exact Ht].
Defined.

Lemma step_unpromoted w w' i u' :
  step_rel unpromoted w w' ->
  users w' !! i = Some u' ->
  (tradingEnabled u' = true -> exists u, users w !! i = Some u /\ tradingEnabled u = true) /\
  (kycStatus u' = VERIFIED -> exists u, users w !! i = Some u /\ kycStatus u = VERIFIED).
Proof.
  intros (k & Hother & Hk) Hu'. destruct (decide (i = k)) as [->|Hne].
  - rewrite Hu' in Hk. destruct (users w !! k) as [u|].
    + destruct Hk as [H1 H2]. split; intros H; exists u; auto.
    + destruct Hk as (e & [H1 H2] & _). split; intros H; [apply H1 in H | apply H2 in H];
        discriminate H.
  - rewrite Hother in Hu' by assumption. split; intros H; exists u'; auto.
Qed.

Lemma ordinary_unpromoted u u' : ordinary u u' -> unpromoted u u'.
Proof. intros [_ H]. exact H. Qed.

Lemma webhook_writes_unpromoted env payload data u :
  eq_str (get "status" payload) "Approved" = false ->
  webhook_writes env payload = Some data -> unpromoted u (apply_data data u).
Proof.
  intros Hs. unfold webhook_writes. rewrite Hs. simpl andb. cbv iota zeta.
  rewrite app_nil_r.
  destruct (forallb assign_valid _); [|discriminate]. intros [= <-].
  destruct (eq_str _ "status.updated").
  - pose proof (status_update_kyc env (get "status" payload) (get "decision" payload) u) as K.
    cbv zeta in K. destruct K as (_ & _ & Kd & Kr & Ko & _ & Kt).
    split; [rewrite Kt; auto|]. intros Hv.
    destruct (eq_str (get "status" payload) "Declined") eqn:E2.
    { apply eq_str_true in E2. destruct (Kd E2) as [H _]. congruence. }
    destruct (eq_str (get "status" payload) "In Review") eqn:E3.
    { apply eq_str_true in E3. destruct (Kr E3) as [H _]. congruence. }
    apply eq_str_false in Hs, E2, E3. destruct (Ko Hs E2 E3) as [H _]. congruence.
  - destruct (eq_str _ "data.updated"); [|apply unpromoted_refl].
    destruct (get "decision" payload) as [d|]; [|apply unpromoted_refl].
    destruct (truthy (Some d)); solve_unpromoted.
Qed.

Lemma handleWebhook_unpromoted env req w :
  ~ (authentic env req /\ get "status" (body_json (req_body req)) = jstr "Approved") ->
  step_rel unpromoted w (snd (handleWebhook env req w)).
Proof.
  intros Hno. destruct (handleWebhook_rows env req w) as (valid & Hv & H).
  destruct valid; [|apply step_same; [exact unpromoted_refl | exact H]].
  assert (authentic env req) as Ha by (apply (verifyWebhookSignature_true env req w), Hv).
  assert (eq_str (get "status" (body_json (req_body req))) "Approved" = false) as Hs.
  { apply eq_str_false. intros Hx. apply Hno. auto. }
  unfold rows_after in H.
  destruct (get "vendor_data" _) as [[| | |i| |]|];
    try (apply step_same; [exact unpromoted_refl | exact H]).
  destruct (webhook_writes env _) as [data|] eqn:Hw;
    try (apply step_same; [exact unpromoted_refl | exact H]).
  destruct (users w !! i) as [u|] eqn:Hu;
    try (apply step_same; [exact unpromoted_refl | exact H]).
  eapply step_update; [exact Hu | | exact H].
  eapply webhook_writes_unpromoted; eassumption.
Qed.

Lemma diditWebhookHandler_unpromoted env req w :
  ~ (Legacy.verifyDiditSignature env (body_json (req_body req)) (req_signature req) = Ok true
     /\ get "status" (body_json (req_body req)) = jstr "completed") ->
  step_rel unpromoted w (snd (Legacy.diditWebhookHandler env req w)).
Proof.
  intros Hno.
  pose proof (diditWebhookHandler_outcome env req w) as Hout.
  destruct (Legacy.verifyDiditSignature env (body_json (req_body req)) (req_signature req))
    as [[|]|e] eqn:Hsig;
    [|rewrite Hout; apply step_same; [exact unpromoted_refl | reflexivity]..].
  clear Hout.
  assert (eq_str (get "status" (body_json (req_body req))) "completed" = false) as Hs.
  { apply eq_str_false. intros Hx. apply Hno. auto. }
  destruct w as [us ca tr].
  unfold Legacy.diditWebhookHandler, Legacy.updateUserVerificationStatus,
    Legacy.triggerPostVerificationActions.
  rewrite Hsig, Hs. cbv zeta.
  assert (forall u, unpromoted u
            (apply_data (Legacy.verification_update_data env
                           (get "status" (body_json (req_body req)))
                           (body_json (req_body req))) u)) as Hdata.
  { intros u. unfold Legacy.verification_update_data. rewrite Hs. cbv zeta.
    match goal with |- context [SetPhoneNumber ?j] => generalize j end.
    intros pn. destruct u, pn; unfold unpromoted, apply_data; simpl; split; auto;
      discriminate. }
  revert Hdata.
  generalize (Legacy.verification_update_data env (get "status" (body_json (req_body req)))
                (body_json (req_body req))).
  intros data Hdata.
  repeat (exec;
          try match goal with
              | |- context [fmap _ (?m !! ?k)] => destruct (m !! k) as [[? ?]|] eqn:?
              end);
    simpl; rewrite ?insert_insert_eq; simplify_eq;
    first [ apply step_same; [exact unpromoted_refl | reflexivity]
          | eapply step_update; [eassumption | | reflexivity]; apply Hdata ].
Qed.

(** X17.  Only an authenticated webhook promotes a user.  If a request,
    on any route and in any state of the service, leaves a row with
    trading enabled that was not enabled before (or was not there), or
    [VERIFIED] that was not before, then the request was a webhook with a
    valid signature, reporting [Approved] on the current route or
    ['completed'] on the legacy one. *)
Theorem only_webhooks_promote (c : Call) (w : World) i u' :
  users (serve1 w c) !! i = Some u' ->
  (tradingEnabled u' = true /\ (forall u, users w !! i = Some u -> tradingEnabled u = false)) \/
  (kycStatus u' = VERIFIED /\ (forall u, users w !! i = Some u -> kycStatus u <> VERIFIED)) ->
  let payload := body_json (req_body (call_req c)) in
  (route c = Webhook /\ authentic (call_env c) (call_req c) /\
   get "status" payload = jstr "Approved") \/
  (route c = DiditWebhook /\
   Legacy.verifyDiditSignature (call_env c) payload (req_signature (call_req c)) = Ok true /\
   get "status" payload = jstr "completed").
Proof.
  intros Hu' Hp payload. subst payload.
  assert (step_rel unpromoted w (serve1 w c) -> False) as Hstep.
  { intros Hs. destruct (step_unpromoted w _ i u' Hs Hu') as [Ht Hk].
    destruct Hp as [[H1 H2]|[H1 H2]].
    - destruct (Ht H1) as (u & Hu & Hx). rewrite (H2 u Hu) in Hx. discriminate.
    - destruct (Hk H1) as (u & Hu & Hx). exact (H2 u Hu Hx). }
  destruct c as [r env req]. unfold serve1 in *. simpl in *.
  destruct r; simpl in *.
  all: try (exfalso; apply Hstep;
            apply (step_rel_weaken ordinary unpromoted _ _ ordinary_unpromoted);
            first [ apply createVerificationSession_step
                  | apply retrieveSession_step
                  | apply sendPhoneVerificationCode_step
                  | apply checkPhoneVerificationCode_step
                  | apply verifyIdDocument_step
                  | apply getUserVerificationStatus_step
                  | apply initiateDiditVerification_step
                  | apply checkVerificationStatus_step ]).
  - destruct (verifyWebhookSignature_run env (stringify (body_json (req_body req)))
                (req_signature req) w) as (valid & w1 & Hrun & _).
    destruct valid, (eq_str (get "status" (body_json (req_body req))) "Approved") eqn:Hs.
    + left. split; [reflexivity|]. split; [|apply eq_str_true, Hs].
      apply (verifyWebhookSignature_true env req w). rewrite Hrun. reflexivity.
    + exfalso. apply Hstep, handleWebhook_unpromoted. intros [_ Hx].
      apply eq_str_true in Hx. congruence.
    + exfalso. apply Hstep, handleWebhook_unpromoted. intros [Ha _].
      apply (verifyWebhookSignature_true env req w) in Ha. rewrite Hrun in Ha. discriminate.
    + exfalso. apply Hstep, handleWebhook_unpromoted. intros [_ Hx].
      apply eq_str_true in Hx. congruence.
  - destruct (Legacy.verifyDiditSignature env (body_json (req_body req)) (req_signature req))
      as [[|]|e] eqn:Hsig;
      destruct (eq_str (get "status" (body_json (req_body req))) "completed") eqn:Hs;
      try (right; split; [reflexivity|]; split; [reflexivity | apply eq_str_true, Hs]);
      exfalso; apply Hstep, diditWebhookHandler_unpromoted; rewrite Hsig;
      intros [Hx Hy]; try discriminate Hx; apply eq_str_true in Hy; congruence.
Qed.

Lemma only_webhooks_promote_witness :
  let c := call Webhook (env_at 2000 session_answer) (signed approved_payload) in
  route c = Webhook /\ authentic (call_env c) (call_req c) /\
  get "status" (body_json (req_body (call_req c))) = jstr "Approved".
Proof.
  intros c.
  destruct (only_webhooks_promote c (world_with (row PENDING 1)) U
              (mkUser U "u@example.com" VERIFIED (Some "DIDIT") (Some 2000)
                 (Some (stringify approved_decision)) true 1 None true true
                 (Some "+15551234567") false)) as [H|(H & _)].
  - vm_compute. reflexivity.
  - left. split; [reflexivity|]. intros u Hu. vm_compute in Hu. injection Hu as <-.
    reflexivity.
  - exact H.
  - discriminate H.
Defined.

Lemma createVerificationSession_201 env req w r :
  fst (createVerificationSession env req w) = Ok r ->
  status r = 201 ->
  exists data i,
    provider env = Ok (Some data) /\
    get "userId" (body_json (req_body req)) = Some (JStr i) /\
    get_opt "session_id" (field "data" r) = get "session_id" data /\
    is_Some (users (snd (createVerificationSession env req w)) !! i) /\
    cache (snd (createVerificationSession env req w))
    = if redis_set_fails env then cache w
      else <[session_key (get "session_id" data)
             := session_entry env (Some (JStr i)) data]> (cache w).
Proof.
  destruct w as [us ca tr]. unfold createVerificationSession, session_key, session_entry.
  intros Hr Hst. revert Hr.
  exec; intros [= <-]; try discriminate Hst; simplify_eq.
  all: try (exfalso; pose proof (handleDiditApiError_status e) as H; rewrite Hst in H;
            simpl in H; intuition discriminate).
  all: eexists; eexists; split; [reflexivity|]; split; [reflexivity|];
    rewrite ?lookup_insert_eq;
    (split; [|split; [eauto|reflexivity]]).
  all: unfold field, session_created, respond, obj; simpl; try reflexivity.
  all: repeat match goal with
              | |- context [match assoc ?k ?f with _ => _ end] => destruct (assoc k f)
              end; reflexivity.
Qed.

(** X18.  The cache entry of a session lives from its creation to the
    terminal webhook.  Take a session request answered 201 with Redis
    storing the entry, and an authentic [status.updated] delivery for the
    session id the caller was given, naming the same user, that arrives
    while the entry is alive (less than [SESSION_TTL] seconds after the
    session).  After the session the entry is there under the session's
    key; after the delivery it is gone if the reported status is
    terminal, and still there otherwise. *)
Theorem session_entry_lives_until_terminal_webhook env1 env2 req hook w r :
  let payload := body_json (req_body hook) in
  let created := createVerificationSession env1 req w in
  let delivered := handleWebhook env2 hook (snd created) in
  let key := session_key (get "session_id" payload) in
  fst created = Ok r ->
  status r = 201 ->
  redis_set_fails env1 = false ->
  now env1 <= now env2 < now env1 + 1000 * SESSION_TTL ->
  authentic env2 hook ->
  get "session_id" payload = get_opt "session_id" (field "data" r) ->
  get "vendor_data" payload = get "userId" (body_json (req_body req)) ->
  eq_str (get "webhook_type" payload) "status.updated" = true ->
  forallb assign_valid
    (status_update_data env2 (get "status" payload) (get "decision" payload)) = true ->
  redis_del_fails env2 = false ->
  exists data,
    provider env1 = Ok (Some data) /\
    cache (snd created) !! key
    = Some (session_entry env1 (get "userId" (body_json (req_body req))) data) /\
    cache (snd delivered) !! key
    = if is_terminal (get "status" payload) then None
      else Some (session_entry env1 (get "userId" (body_json (req_body req))) data).
Proof.
  intros payload created delivered key Hr Hst Hset _ Ha Hsid Hvd Hty Hvalid Hdel.
  subst key delivered created payload.
  destruct (createVerificationSession_201 env1 req w r Hr Hst)
    as (data & i & Hp & Hid & Hs & Hrow & Hc).
  exists data. split; [exact Hp|].
  rewrite Hset in Hc. rewrite Hsid, Hs, Hid.
  assert (cache (snd (createVerificationSession env1 req w))
            !! session_key (get "session_id" data)
          = Some (session_entry env1 (Some (JStr i)) data)) as Hentry.
  { rewrite Hc. apply lookup_insert_eq. }
  split; [exact Hentry|].
  destruct (handleWebhook_cache env2 hook (snd (createVerificationSession env1 req w)))
    as (valid & Hv & ->).
  rewrite (authentic_valid env2 hook _ valid Hv Ha), Hdel. simpl. rewrite andb_true_r.
  unfold webhook_updates. rewrite Hty, Hvd, Hid, Hvalid.
  rewrite (bool_decide_eq_true_2 _ Hrow). simpl. rewrite andb_true_r.
  rewrite Hsid, Hs.
  destruct (is_terminal _); [apply lookup_delete_eq | exact Hentry].
Qed.

Lemma session_entry_lives_until_terminal_webhook_witness :
  let created := createVerificationSession (env_at 1000 session_answer) create_request
                   empty_world in
  let delivered := handleWebhook (env_at 2000 session_answer) (signed approved_payload)
                     (snd created) in
  exists data,
    provider (env_at 1000 session_answer) = Ok (Some data) /\
    cache (snd created) !! "didit:session:sess-1"
    = Some (session_entry (env_at 1000 session_answer) (jstr U) data) /\
    cache (snd delivered) !! "didit:session:sess-1" = None.
Proof.
  intros created delivered.
  apply (session_entry_lives_until_terminal_webhook (env_at 1000 session_answer)
           (env_at 2000 session_answer) create_request (signed approved_payload) empty_world
           (session_created (JObj [("session_id", JStr "sess-1"); ("session_number", JNum 7);
                                   ("session_token", JStr "tok");
                                   ("url", JStr "https://verify.didit.me/s/1");
                                   ("status", JStr "Not Started")])
              (new_user U (U ++ "@example.com"))));
    try reflexivity.
  - unfold SESSION_TTL. simpl. lia.
  - apply signed_authentic.
Defined.
